(** * Motor de simulación del sistema eléctrico (js/simulator.js)

    Shallow embedding of the hourly dispatch engine [SimuladorElectrico],
    of the presentation helpers that read its results (js/app.js,
    js/charts.js), of the table of predefined scenarios, and of the
    properties stated about them.

    Numbers.  A JavaScript number is modelled by a real number: arithmetic
    is exact, there is no rounding, no overflow and no NaN.  [Math.sin],
    [Math.cos], [Math.exp], [Math.log], [Math.sqrt] and [Math.pow] are the
    functions of the Standard Library's reals.  Loop counters, which only
    ever hold small integers, are [nat]; [Math.floor] is [Zfloor].  What
    is proved of this model is what the code computes in exact
    arithmetic.  The dispatch of one hour and the price formation are
    also translated over binary64 (module [Binary64]), and the properties
    that rounding, overflow or NaN break are settled there.

    State.  [SeededRNG] is a mutable object holding one number; the code
    that draws from it is written in a small state monad over that number.
    The storage levels, the ramp reference and the accumulators that the
    hourly loop mutates in place are fields of an explicit loop state.
    The method [simular()] is written a second time against a store of
    objects (module [JS]) and shown to compute the same results. *)

From Stdlib Require Import Reals Machin Lra Lia.
From Stdlib Require Import List ZArith Bool Arith Zfloor Sorted Permutation.
From Stdlib Require Floats.
Import ListNotations.
Open Scope R_scope.

(* ================================================================== *)
(** * Numeric helpers *)
(* ================================================================== *)

(** The comparisons of the source, as booleans. *)
Definition gt (x y : R) : bool := if Rlt_dec y x then true else false.
Definition lt (x y : R) : bool := if Rlt_dec x y then true else false.
Definition le (x y : R) : bool := if Rle_dec x y then true else false.

(** [for (let i = 0; i < n; i++) s = body(i, s)] *)
Fixpoint forLoop {S : Type} (n : nat) (body : nat -> S -> S) (s : S) : S :=
  match n with
  | O => s
  | Datatypes.S k => body k (forLoop k body s)
  end.

(** Whether a number is an integer. *)
Definition esEntero (y : R) : bool :=
  if Req_dec_T y (IZR (Zfloor y)) then true else false.

(** [Math.pow(x, y)] for a base of any sign.  An exponent of 0 gives 1, a
    positive base gives [Rpower], an integer exponent gives the repeated
    product or its inverse, and a base of 0 with a positive exponent
    gives 0.  A negative base with an exponent that is not an integer
    gives NaN in the source, and a base of 0 with a negative exponent
    gives an infinity: neither is a real number, the value here is then
    arbitrary, and [potenciaEsNumero] excludes both. *)
Definition Math_pow (x y : R) : R :=
  if Req_dec_T y 0 then 1
  else if gt x 0 then Rpower x y
  else if esEntero y then powerRZ x (Zfloor y)
  else 0.

Definition potenciaEsNumero (x y : R) : Prop :=
  y = 0 \/ 0 < x \/ (x = 0 /\ 0 < y) \/ (x < 0 /\ esEntero y = true).

(** [Math.floor(dia / 30.5)] for an integer [dia]: dividing by 30.5 is
    dividing twice the number by 61 (see [floor_30_5] below). *)
Definition mesDe (dia : nat) : nat := (2 * dia) / 61.

(* ================================================================== *)
(** * Constants (SEF.MODEL, SEF.TEMP_MENSUAL) *)
(* ================================================================== *)

Definition HORAS_ANIO : nat := Z.to_nat 8760.
#[global] Opaque HORAS_ANIO.
Definition LATITUD_ESPANA : R := 40.4.
Definition FACTOR_CO2_GAS : R := 0.202.
Definition EFICIENCIA_BAT : R := 0.90.
Definition EFICIENCIA_BOMBEO : R := 0.75.
Definition FC_NUCLEAR : R := 0.90.
Definition AUTODESCARGA_BAT : R := 0.001.
Definition RAMPA_CCGT : R := 0.15.

Definition TEMP_MENSUAL : list R :=
  [6.3; 7.9; 11.2; 13.7; 17.6; 23.4; 27.0; 26.4; 21.8; 15.8; 10.1; 6.9].

(* ================================================================== *)
(** * ScenarioParameters (SEF.PARAMS_DEFAULT merged with the overrides) *)
(* ================================================================== *)

Record Params : Type := mkParams {
  nuclear : R;
  solar : R;
  eolica : R;
  hidraulica : R;
  ccgt : R;
  bateriasPotencia : R;
  bateriasCapacidad : R;
  bombeo : R;
  bombeoCapacidad : R;
  precioGas : R;
  precioCO2 : R;
  rendimientoCCGT : R;
  omCCGT : R;
  cargosSistema : R;
  perdidasRed : R;
  semilla : R;
  demandaAnual : R;
  hidraulicidad : R;
  anioObjetivo : R;
  crecimientoDemanda : R;
  electrificacionTWh : R;
  eficienciaDemanda : R;
  aplicarPlanNuclear : bool;
  cierreNuclear : R;
  flexibilidadGW : R;
  flexibilidadPct : R;
  interconexion : R;
  precioImport : R;
  precioExport : R;
  precioEscasez : R
}.

Definition PARAMS_DEFAULT : Params := {|
  nuclear := 7.0; solar := 25.0; eolica := 31.0; hidraulica := 17.0;
  ccgt := 24.0; bateriasPotencia := 3.0; bateriasCapacidad := 10;
  bombeo := 3.5; bombeoCapacidad := 30; precioGas := 42; precioCO2 := 65;
  rendimientoCCGT := 0.55; omCCGT := 3.0; cargosSistema := 12.0;
  perdidasRed := 0.05; semilla := 42; demandaAnual := 260;
  hidraulicidad := 1.0; anioObjetivo := 2030; crecimientoDemanda := 0.6;
  electrificacionTWh := 2.0; eficienciaDemanda := 0.5;
  aplicarPlanNuclear := true; cierreNuclear := 2035;
  flexibilidadGW := 4.0; flexibilidadPct := 6; interconexion := 3.0;
  precioImport := 90; precioExport := 5; precioEscasez := 350
|}.

(* ================================================================== *)
(** * SeededRNG *)
(* ================================================================== *)

(** A computation that draws from one generator: it receives the
    generator's [seed] field and returns a value and the new field. *)
Definition Rng (A : Type) : Type := R -> A * R.

Definition ret {A : Type} (a : A) : Rng A := fun s => (a, s).

Definition bind {A B : Type} (c : Rng A) (k : A -> Rng B) : Rng B :=
  fun s => let (a, s') := c s in k a s'.

Declare Scope rng_scope.
Delimit Scope rng_scope with rng.
Notation "x <- c ;; k" := (bind c (fun x => k))
  (at level 61, c at next level, right associativity) : rng_scope.
Open Scope rng_scope.

(** [new SeededRNG(seed)] *)
Definition SeededRNG (seed : R) : R := seed.

(** [next()] *)
Definition next : Rng R := fun seed =>
  let seed' := sin (seed * 9301 + 49297) * 49271 in
  (seed' - IZR (Zfloor seed'), seed').

(** [gauss(media, sigma)] *)
Definition gauss (media sigma : R) : Rng R :=
  v1 <- next ;;
  let u1 := Rmax 1e-10 v1 in
  u2 <- next ;;
  let z := sqrt (-2 * ln u1) * cos (2 * PI * u2) in
  ret (media + sigma * z).

(** Monadic [for] loop over one generator. *)
Fixpoint forRng {S : Type} (n : nat) (body : nat -> S -> Rng S) (s : S)
  : Rng S :=
  match n with
  | O => ret s
  | Datatypes.S k => s' <- forRng k body s ;; body k s'
  end.

(* ================================================================== *)
(** * Solar model *)
(* ================================================================== *)

(** Sine of the solar elevation, the first half of [calcularSolar]. *)
Definition sinElevacion (dia hora : R) : R :=
  let lat := LATITUD_ESPANA * PI / 180 in
  let decl := 23.45 * sin (2 * PI * (284 + dia) / 365) * PI / 180 in
  let omega := (hora - 12) * 15 * PI / 180 in
  sin lat * sin decl + cos lat * cos decl * cos omega.

(** [calcularSolar(dia, hora, nubes)] *)
Definition calcularSolar (dia hora nubes : R) : R :=
  let sinElev := sinElevacion dia hora in
  if le sinElev 0.01 then 0
  else
    let AM := 1 / Rmax 0.05 sinElev in
    let transmitancia := 0.75 * Rpower 0.70 (Rpower AM 0.678) in
    let irradiancia := sinElev * transmitancia in
    Rmax 0 (Rmin 1 (irradiancia * nubes * 1.35)).

(* ================================================================== *)
(** * Wind series *)
(* ================================================================== *)

Record Bloque : Type := mkBloque {
  inicio : Z;
  duracion : Z;
  intensidad : R
}.

(** The [while (h < HORAS_ANIO)] loop that cuts the year into synoptic
    blocks.  Every block lasts at least 48 hours, so [fuel] iterations
    are enough whenever [fuel] is at least the number of hours left (see
    [generarBloques_cubre]). *)
Fixpoint generarBloques (fuel : nat) (h : Z) : Rng (list Bloque) :=
  match fuel with
  | O => ret []
  | Datatypes.S f =>
      if (h <? Z.of_nat HORAS_ANIO)%Z then
        u <- next ;;
        let dur := Zfloor (48 + u * 120) in
        int <- next ;;
        resto <- generarBloques f (h + dur)%Z ;;
        ret ({| inicio := h; duracion := dur; intensidad := int |} :: resto)
      else ret []
  end.

(** The [for (const b of bloques) { if (...) { ...; break; } }] scan. *)
Fixpoint sinopticoDe (bloques : list Bloque) (i : Z) (baseEstacional : R)
  : R :=
  match bloques with
  | [] => baseEstacional
  | b :: resto =>
      if ((inicio b <=? i) && (i <? inicio b + duracion b))%Z%bool
      then baseEstacional * (0.3 + intensidad b * 1.4)
      else sinopticoDe resto i baseEstacional
  end.

(** One iteration of the hourly loop of [generarSerieViento]; the state
    is [estado] and the series filled so far. *)
Definition pasoViento (bloques : list Bloque) (i : nat) (st : R * list R)
  : Rng (R * list R) :=
  let (estado, serie) := st in
  let dia := (i / 24)%nat in
  let hora := (i mod 24)%nat in
  let mes := mesDe dia in
  let baseEstacional := 0.28 + 0.14 * cos ((INR mes - 0.5) * PI / 6) in
  let sinoptico := sinopticoDe bloques (Z.of_nat i) baseEstacional in
  let diurno := 1 + 0.08 * sin ((INR hora - 6) * PI / 12) in
  let alpha := 0.94 in
  innovacion <- gauss 0 0.06 ;;
  let estado' := alpha * estado + (1 - alpha) * sinoptico + innovacion in
  ret (estado', serie ++ [Rmax 0.02 (Rmin 0.92 (estado' * diurno))]).

(** [generarSerieViento(rng)] *)
Definition generarSerieViento : Rng (list R) :=
  bloques <- generarBloques HORAS_ANIO 0 ;;
  st <- forRng HORAS_ANIO (pasoViento bloques) (0.30, []) ;;
  ret (snd st).

(* ================================================================== *)
(** * Demand series *)
(* ================================================================== *)

(** [Math.pow(x, 2)] *)
Definition cuadrado (x : R) : R := x * x.

(** The value stored in [serie[i]] by [generarSerieDemanda]. *)
Definition demandaHora (i : nat) : Rng R :=
  let dia := (i / 24)%nat in
  let hora := (i mod 24)%nat in
  let mes := (mesDe dia mod 12)%nat in
  let diaSemana := (dia mod 7)%nat in
  let tempBase := nth mes TEMP_MENSUAL 0 in
  let varDiurna := 4.5 * sin ((INR hora - 6) * PI / 12) in
  ruido <- gauss 0 1.5 ;;
  let temp := tempBase + varDiurna + ruido in
  let factorTemp0 := 1.0 in
  let factorTemp1 :=
    if lt temp 15 then 1 + (15 - temp) * 0.013 else factorTemp0 in
  let factorTemp :=
    if gt temp 25 then 1 + (temp - 25) * 0.018 else factorTemp1 in
  let picoManana := exp (- cuadrado ((INR hora - 10) / 2.8)) * 0.28 in
  let picoTarde := exp (- cuadrado ((INR hora - 20) / 2.5)) * 0.32 in
  let baseNocturna := 0.62 in
  let perfilHorario := baseNocturna + picoManana + picoTarde in
  let factorLaboral := if (diaSemana <? 5)%nat then 1.04 else 0.87 in
  u <- next ;;
  let ruidoDemanda := 0.97 + u * 0.06 in
  ret (perfilHorario * factorLaboral * factorTemp * ruidoDemanda).

Definition pasoDemanda (i : nat) (serie : list R) : Rng (list R) :=
  v <- demandaHora i ;;
  ret (serie ++ [v]).

(** [generarSerieDemanda(rng)] *)
Definition generarSerieDemanda : Rng (list R) :=
  forRng HORAS_ANIO pasoDemanda [].

(* ================================================================== *)
(** * Horizon adjustment and hydro availability *)
(* ================================================================== *)

(** [calcularDemandaAjustada()].  The growth rate can make the base of
    the power zero or negative, and the target year need not be an
    integer. *)
Definition calcularDemandaAjustada (p : Params) : R :=
  let anioBase := 2026 in
  let years := Rmax 0 (anioObjetivo p - anioBase) in
  let crec := Math_pow (1 + crecimientoDemanda p / 100) years in
  let electr := electrificacionTWh p * years in
  let efic := Rmax 0.85 (1 - eficienciaDemanda p / 100) in
  Rmax 180 (Rmin 360 ((demandaAnual p * crec + electr) * efic)).

(** The configurations for which the power above is a number, so that
    the adjusted demand is one too: in the others [Math.pow] returns
    NaN, which [Math.min] and [Math.max] hand on. *)
Definition demandaEsNumero (p : Params) : Prop :=
  potenciaEsNumero (1 + crecimientoDemanda p / 100)
                   (Rmax 0 (anioObjetivo p - 2026)).

(** [calcularNuclearDisponible()] *)
Definition calcularNuclearDisponible (p : Params) : R :=
  if negb (aplicarPlanNuclear p) then nuclear p
  else
    let anioBase := 2026 in
    let cierre := Rmax (anioBase + 1) (cierreNuclear p) in
    let years := Rmax 0 (anioObjetivo p - anioBase) in
    let horizonte := Rmax 1 (cierre - anioBase) in
    Rmax 0 (nuclear p * Rmax 0 (1 - years / horizonte)).

(** [calcularHidro(dia, hora, rng)]: the generator it receives is never
    drawn from, so it is not an argument here. *)
Definition calcularHidro (p : Params) (dia hora : nat) : R :=
  let mes := (mesDe dia mod 12)%nat in
  let baseEstacional := 0.28 + 0.28 * cos ((INR mes - 4) * PI / 6) in
  Rmax 0.08 (Rmin 0.85 (baseEstacional * hidraulicidad p)).

(* ================================================================== *)
(** * Hour records *)
(* ================================================================== *)

(** The [gen] object of one hour (an entry of [mix]). *)
Module Gen.
Record t : Type := mk {
  nuclear : R;
  solar : R;
  eolica : R;
  hidraulica : R;
  gas : R;
  baterias : R;
  bombeo : R;
  vertido : R;
  cargaBaterias : R;
  cargaBombeo : R;
  importacion : R;
  exportacion : R
}.
Definition cero : t := mk 0 0 0 0 0 0 0 0 0 0 0 0.
End Gen.

(** The [contexto] object handed to the price formation. *)
Module Ctx.
Record t : Type := mk {
  importacion : R;
  exportacion : R;
  deficit : R
}.
End Ctx.

(* ================================================================== *)
(** * Marginal price formation *)
(* ================================================================== *)

(** The technology that sets the price: the [if / else if] chain. *)
Definition precioTecnologia (p : Params) (gen : Gen.t)
  (ratioRenovable gasAnterior : R) : R :=
  let calorEsp := 1 / Rmax 0.45 (rendimientoCCGT p) in
  let costeComb := precioGas p * calorEsp in
  let costeCO2 :=
    (FACTOR_CO2_GAS / Rmax 0.45 (rendimientoCCGT p)) * precioCO2 p in
  let costeCCGT := costeComb + costeCO2 + omCCGT p in
  let stressCCGT := Rmin 1 (Gen.gas gen / Rmax 0.5 (ccgt p)) in
  let stressHidro := Rmin 1 (Gen.hidraulica gen / Rmax 0.5 (hidraulica p)) in
  if gt ratioRenovable 1.20 then
    let exceso := ratioRenovable - 1 in
    Rmax (-20) (5 - exceso * 45)
  else if gt ratioRenovable 1.05 then
    5 + (1.2 - ratioRenovable) * 100
  else if gt (Gen.gas gen) 0.3 then
    let primaStress := 12 * Rpower stressCCGT 1.5 in
    let deltGas := Rmax 0 (Gen.gas gen - gasAnterior) in
    let primaRampa := if gt deltGas 1 then 3 * deltGas else 0 in
    costeCCGT + primaStress + primaRampa
  else if gt (Gen.hidraulica gen) 0.5 then
    25 + 25 * stressHidro
  else
    6 + (1 - ratioRenovable) * 30.

(** Imports set a floor. *)
Definition sueloImportacion (p : Params) (contexto : Ctx.t) (precio : R)
  : R :=
  if gt (Ctx.importacion contexto) 0 then
    let stressImport :=
      Rmin 1 (Ctx.importacion contexto / Rmax 0.5 (interconexion p)) in
    Rmax precio (precioImport p * (0.85 + 0.3 * stressImport))
  else precio.

(** Exports set a cap. *)
Definition techoExportacion (p : Params) (contexto : Ctx.t) (precio : R)
  : R :=
  if gt (Ctx.exportacion contexto) 0 then Rmin precio (precioExport p + 10)
  else precio.

(** Scarcity floor. *)
Definition sueloEscasez (p : Params) (contexto : Ctx.t) (demandaGW precio : R)
  : R :=
  if gt (Ctx.deficit contexto) 0.3 then
    let deficitPct := Ctx.deficit contexto / Rmax 1 demandaGW in
    Rmax precio (precioEscasez p * Rmin 1 (deficitPct * 4))
  else precio.

(** [calcularPrecioMarginal(gen, demandaGW, ratioRenovable, contexto,
    gasAnterior)] *)
Definition calcularPrecioMarginal (p : Params) (gen : Gen.t)
  (demandaGW ratioRenovable : R) (contexto : Ctx.t) (gasAnterior : R) : R :=
  let precio := precioTecnologia p gen ratioRenovable gasAnterior in
  let precio := sueloImportacion p contexto precio in
  let precio := techoExportacion p contexto precio in
  let precio := sueloEscasez p contexto demandaGW precio in
  let precio := precio * (1 + perdidasRed p) + cargosSistema p in
  Rmin 500 (Rmax (-25) precio).

(* ================================================================== *)
(** * Percentiles *)
(* ================================================================== *)

(** [Float64Array.from(arr).sort()]: a typed array sorts numerically,
    in increasing order. *)
Fixpoint insertar (x : R) (l : list R) : list R :=
  match l with
  | [] => [x]
  | y :: resto => if Rle_dec x y then x :: l else y :: insertar x resto
  end.

Definition ordenar (l : list R) : list R := fold_right insertar [] l.

(** [percentil(arr, p)].  An index outside the array reads [undefined]
    in the source; here it reads 0, which only matters for [p] outside
    [0, 100]. *)
Definition percentil (arr : list R) (p : R) : R :=
  match arr with
  | [] => 0
  | _ :: _ =>
      let sorted := ordenar arr in
      let k := (INR (length sorted) - 1) * (p / 100) in
      let f := Zfloor k in
      let c := Zceil k in
      if (f =? c)%Z then nth (Z.to_nat f) sorted 0
      else nth (Z.to_nat f) sorted 0
           + (nth (Z.to_nat c) sorted 0 - nth (Z.to_nat f) sorted 0)
             * (k - IZR f)
  end.

(* ================================================================== *)
(** * Dispatch of one hour *)
(* ================================================================== *)

(** What one branch of the dispatch leaves behind: the [gen] object, the
    storage levels, the flexible demand it moved, the unserved remainder
    and the increments of the hour counters of [R]. *)
Record Despacho : Type := mkDespacho {
  gen : Gen.t;
  bateriaTras : R;      (* [estadoBateria] when the branch ends *)
  bombeoTras : R;       (* [estadoBombeo] when the branch ends *)
  flexUp : R;
  flexDown : R;
  redujoDemanda : bool; (* whether step 7 (flexible demand, downwards)
                           was entered *)
  deficitFinal : R;     (* the local [deficit] after gas; the surplus
                           branch declares none and leaves 0 *)
  incBombeoActivo : nat;
  incFlex : nat;
  incExportacion : nat;
  incVertido : nat;
  incImportacion : nat;
  incGas : nat;
  incDeficit : nat
}.

Definition uno_si (b : bool) : nat := if b then 1%nat else 0%nat.

(** The [if (excedente > 0)] branch: charge storage, export, curtail. *)
Definition ramaExcedente (p : Params) (flexCapGW : R)
  (gNuclear gSolar gEolica : R) (excedente estadoBateria estadoBombeo : R)
  : Despacho :=
  (* batteries *)
  let espacioBat := bateriasCapacidad p - estadoBateria in
  let cargaBat :=
    Rmin excedente (Rmin (bateriasPotencia p) (espacioBat / EFICIENCIA_BAT)) in
  let estadoBateria := estadoBateria + cargaBat * EFICIENCIA_BAT in
  let excedente := excedente - cargaBat in
  (* pumped storage *)
  let '(cargaBombeo, estadoBombeo, excedente, nBombeo) :=
    if gt excedente 0 then
      let espacioBombeo := bombeoCapacidad p - estadoBombeo in
      let cargaBombeo :=
        Rmin excedente (Rmin (bombeo p) (espacioBombeo / EFICIENCIA_BOMBEO)) in
      (cargaBombeo, estadoBombeo + cargaBombeo * EFICIENCIA_BOMBEO,
       excedente - cargaBombeo, uno_si (gt cargaBombeo 0.3))
    else (0, estadoBombeo, excedente, 0%nat) in
  (* flexible demand, upwards *)
  let '(flexUp, excedente, nFlex) :=
    if gt excedente 0 && gt flexCapGW 0 then
      let flexUp := Rmin excedente flexCapGW in
      (flexUp, excedente - flexUp, uno_si (gt flexUp 0.2))
    else (0, excedente, 0%nat) in
  (* exports *)
  let '(exp, excedente, nExp) :=
    if gt excedente 0 && gt (interconexion p) 0 then
      let exp := Rmin excedente (interconexion p) in
      (exp, excedente - exp, uno_si (gt exp 0.2))
    else (0, excedente, 0%nat) in
  (* curtailment *)
  let vertido := Rmax 0 excedente in
  {| gen := Gen.mk gNuclear gSolar gEolica 0 0 0 0 vertido cargaBat
                   cargaBombeo 0 exp;
     bateriaTras := estadoBateria;
     bombeoTras := estadoBombeo;
     flexUp := flexUp;
     flexDown := 0;
     redujoDemanda := false;
     deficitFinal := 0;
     incBombeoActivo := nBombeo;
     incFlex := nFlex;
     incExportacion := nExp;
     incVertido := uno_si (gt vertido 0.3);
     incImportacion := 0;
     incGas := 0;
     incDeficit := 0 |}.

(** The [else] branch: dispatchable sources in merit order. *)
Definition ramaDeficit (p : Params) (flexCapGW : R)
  (gNuclear gSolar gEolica : R) (dia hora : nat)
  (excedente estadoBateria estadoBombeo gasAnterior : R) : Despacho :=
  let deficit := - excedente in
  (* 4. hydro *)
  let hidroDisp := hidraulica p * calcularHidro p dia hora in
  let gHidraulica := Rmin hidroDisp deficit in
  let deficit := deficit - gHidraulica in
  (* 5. batteries *)
  let '(gBaterias, estadoBateria, deficit) :=
    if gt deficit 0 && gt estadoBateria 0 then
      let descBat := Rmin (bateriasPotencia p) (Rmin estadoBateria deficit) in
      (descBat, estadoBateria - descBat, deficit - descBat)
    else (0, estadoBateria, deficit) in
  (* 6. pumped storage *)
  let '(gBombeo, estadoBombeo, deficit) :=
    if gt deficit 0 && gt estadoBombeo 0 then
      let descBombeo := Rmin (bombeo p) (Rmin estadoBombeo deficit) in
      (descBombeo, estadoBombeo - descBombeo, deficit - descBombeo)
    else (0, estadoBombeo, deficit) in
  (* 7. flexible demand, downwards *)
  let '(flexDown, deficit, nFlex, redujo) :=
    if gt deficit 0 && gt flexCapGW 0 then
      let flexDown := Rmin deficit flexCapGW in
      (flexDown, deficit - flexDown, uno_si (gt flexDown 0.2), true)
    else (0, deficit, 0%nat, false) in
  (* 8. imports *)
  let '(imp, deficit, nImp) :=
    if gt deficit 0 && gt (interconexion p) 0 then
      let imp := Rmin deficit (interconexion p) in
      (imp, deficit - imp, uno_si (gt imp 0.2))
    else (0, deficit, 0%nat) in
  (* 9. gas, with the ramp limit *)
  let '(gGas, deficit, nGas) :=
    if gt deficit 0 then
      let maxRampa := ccgt p * RAMPA_CCGT + gasAnterior in
      let gGas := Rmin deficit (Rmin (ccgt p) maxRampa) in
      (gGas, deficit - gGas, uno_si (gt gGas 0.3))
    else (0, deficit, 0%nat) in
  {| gen := Gen.mk gNuclear gSolar gEolica gHidraulica gGas gBaterias
                   gBombeo 0 0 0 imp 0;
     bateriaTras := estadoBateria;
     bombeoTras := estadoBombeo;
     flexUp := 0;
     flexDown := flexDown;
     redujoDemanda := redujo;
     deficitFinal := deficit;
     incBombeoActivo := 0;
     incFlex := nFlex;
     incExportacion := 0;
     incVertido := 0;
     incImportacion := nImp;
     incGas := nGas;
     incDeficit := uno_si (gt deficit 0.3) |}.

(* ================================================================== *)
(** * The hourly loop *)
(* ================================================================== *)

(** The accumulators of the object [R] that the loop updates. *)
Record Acum : Type := mkAcum {
  consumoGasTWh : R;
  vertidosTWh : R;
  horasGas : nat;
  horasVertido : nat;
  horasDeficit : nat;
  maxDeficit : R;
  emisionesAnuales : R;
  horasBombeoActivo : nat;
  horasPrecioNegativo : nat;
  horasPrecioAlto : nat;
  importacionesTWh : R;
  exportacionesTWh : R;
  demandaFlexTWh : R;
  demandaReducidaTWh : R;
  horasImportacion : nat;
  horasExportacion : nat;
  horasFlex : nat;
  demandaAjustadaTWh : R;
  nuclearEfectivaGW : R
}.

(** Everything one iteration computes before it touches the
    accumulators. *)
Record Hora : Type := mkHora {
  demandaGW : R;
  genBase : R;
  despacho : Despacho;
  ctx : Ctx.t;
  precio : R
}.

(** The variables that live across iterations. *)
Record Estado : Type := mkEstado {
  estadoBateria : R;
  estadoBombeo : R;
  gasAnterior : R;
  acum : Acum;
  demandaTotalGWh : R;
  precioPonderadoSum : R;
  mix : list Gen.t;
  precios : list R;
  demandaHorariaGW : list R
}.

(** What is fixed before the loop starts. *)
Record Entorno : Type := mkEntorno {
  demandaMediaGW : R;
  nuclearGW : R;
  serieViento : list R;
  serieDemanda : list R
}.

(** The body of the loop up to and including the price; [rngMeteo] is
    the generator of the monad. *)
Definition horaSim (p : Params) (e : Entorno) (h : nat) (st : Estado)
  : Rng Hora :=
  let dia := (h / 24)%nat in
  let hora := (h mod 24)%nat in
  let demandaGW := demandaMediaGW e * nth h (serieDemanda e) 0 in
  let flexCapGW :=
    Rmin (flexibilidadGW p) (demandaGW * (flexibilidadPct p / 100)) in
  (* 1. nuclear *)
  let gNuclear := nuclearGW e * FC_NUCLEAR in
  (* 2. solar *)
  u <- next ;;
  let nubes := 0.65 + u * 0.35 in
  let gSolar := solar p * calcularSolar (INR dia) (INR hora) nubes in
  (* 3. wind *)
  let gEolica := eolica p * nth h (serieViento e) 0 in
  let genBase := gNuclear + gSolar + gEolica in
  let excedente := genBase - demandaGW in
  let d :=
    if gt excedente 0 then
      ramaExcedente p flexCapGW gNuclear gSolar gEolica excedente
        (estadoBateria st) (estadoBombeo st)
    else
      ramaDeficit p flexCapGW gNuclear gSolar gEolica dia hora excedente
        (estadoBateria st) (estadoBombeo st) (gasAnterior st) in
  let g := gen d in
  let ratioRen := if gt demandaGW 0 then genBase / demandaGW else 0 in
  let ctx :=
    Ctx.mk (Gen.importacion g) (Gen.exportacion g)
      (Rmax 0 (demandaGW - genBase - Gen.hidraulica g - Gen.baterias g
               - Gen.bombeo g - Gen.gas g - Gen.importacion g)) in
  let precio :=
    calcularPrecioMarginal p g demandaGW ratioRen ctx (gasAnterior st) in
  ret {| demandaGW := demandaGW; genBase := genBase; despacho := d;
         ctx := ctx; precio := precio |}.

(** The updates of the accumulators of [R].  A step that was skipped left
    its flow at 0, and adding 0 leaves an accumulator as it was. *)
Definition acumular (p : Params) (a : Acum) (hr : Hora) : Acum :=
  let d := despacho hr in
  let g := gen d in
  {| consumoGasTWh := consumoGasTWh a + Gen.gas g / 1000;
     vertidosTWh := vertidosTWh a + Gen.vertido g / 1000;
     horasGas := horasGas a + incGas d;
     horasVertido := horasVertido a + incVertido d;
     horasDeficit := horasDeficit a + incDeficit d;
     maxDeficit :=
       if gt (deficitFinal d) 0.3 then Rmax (maxDeficit a) (deficitFinal d)
       else maxDeficit a;
     emisionesAnuales :=
       emisionesAnuales a
       + Gen.gas g * (FACTOR_CO2_GAS / Rmax 0.45 (rendimientoCCGT p)) / 1000;
     horasBombeoActivo := horasBombeoActivo a + incBombeoActivo d;
     horasPrecioNegativo :=
       horasPrecioNegativo a + uno_si (lt (precio hr) 0);
     horasPrecioAlto := horasPrecioAlto a + uno_si (gt (precio hr) 150);
     importacionesTWh := importacionesTWh a + Gen.importacion g / 1000;
     exportacionesTWh := exportacionesTWh a + Gen.exportacion g / 1000;
     demandaFlexTWh := demandaFlexTWh a + flexUp d / 1000;
     demandaReducidaTWh := demandaReducidaTWh a + flexDown d / 1000;
     horasImportacion := horasImportacion a + incImportacion d;
     horasExportacion := horasExportacion a + incExportacion d;
     horasFlex := horasFlex a + incFlex d;
     demandaAjustadaTWh := demandaAjustadaTWh a;
     nuclearEfectivaGW := nuclearEfectivaGW a |}%nat.

(** The end of the loop body: self-discharge, accumulators, ramp
    reference and the three arrays. *)
Definition avanzar (p : Params) (st : Estado) (hr : Hora) : Estado :=
  let d := despacho hr in
  {| estadoBateria := bateriaTras d * (1 - AUTODESCARGA_BAT);
     estadoBombeo := bombeoTras d;
     gasAnterior := Gen.gas (gen d);
     acum := acumular p (acum st) hr;
     demandaTotalGWh := demandaTotalGWh st + demandaGW hr;
     precioPonderadoSum := precioPonderadoSum st + precio hr * demandaGW hr;
     mix := mix st ++ [gen d];
     precios := precios st ++ [precio hr];
     demandaHorariaGW := demandaHorariaGW st ++ [demandaGW hr] |}.

(** One full iteration. *)
Definition pasoHora (p : Params) (e : Entorno) (h : nat) (st : Estado)
  : Rng Estado :=
  hr <- horaSim p e h st ;;
  ret (avanzar p st hr).

Definition acumInicial (demandaAnualTWh nuclearGW : R) : Acum :=
  {| consumoGasTWh := 0; vertidosTWh := 0; horasGas := 0; horasVertido := 0;
     horasDeficit := 0; maxDeficit := 0; emisionesAnuales := 0;
     horasBombeoActivo := 0; horasPrecioNegativo := 0; horasPrecioAlto := 0;
     importacionesTWh := 0; exportacionesTWh := 0;
     demandaFlexTWh := 0; demandaReducidaTWh := 0;
     horasImportacion := 0; horasExportacion := 0; horasFlex := 0;
     demandaAjustadaTWh := demandaAnualTWh;
     nuclearEfectivaGW := nuclearGW |}.

Definition estadoInicial (p : Params) (demandaAnualTWh nuclearGW : R)
  : Estado :=
  {| estadoBateria := bateriasCapacidad p * 0.5;
     estadoBombeo := bombeoCapacidad p * 0.5;
     gasAnterior := 0;
     acum := acumInicial demandaAnualTWh nuclearGW;
     demandaTotalGWh := 0;
     precioPonderadoSum := 0;
     mix := [];
     precios := [];
     demandaHorariaGW := [] |}.

(** The preparation of [simular()] before the loop. *)
Definition entornoDe (p : Params) : Entorno :=
  let demandaAnualTWh := calcularDemandaAjustada p in
  {| demandaMediaGW := demandaAnualTWh * 1000 / INR HORAS_ANIO;
     nuclearGW := calcularNuclearDisponible p;
     serieViento :=
       fst (generarSerieViento (SeededRNG (semilla p * 7 + 13)));
     serieDemanda :=
       fst (generarSerieDemanda (SeededRNG (semilla p * 3 + 7))) |}.

(** The loop run for its first [n] hours: the loop state and the [seed]
    of [rngMeteo] when hour [n] is about to start. *)
Definition bucle (p : Params) (n : nat) : Estado * R :=
  forRng n (pasoHora p (entornoDe p))
    (estadoInicial p (calcularDemandaAjustada p)
                     (calcularNuclearDisponible p))
    (SeededRNG (semilla p * 11 + 37)).

(** The record of hour [h] of the run. *)
Definition horaDe (p : Params) (h : nat) : Hora :=
  let (st, rngMeteo) := bucle p h in
  fst (horaSim p (entornoDe p) h st rngMeteo).

(* ================================================================== *)
(** * Aggregation *)
(* ================================================================== *)

(** One entry of the monthly summary. *)
Module Mes.
Record t : Type := mk {
  nuclear : R;
  solar : R;
  eolica : R;
  hidraulica : R;
  gas : R;
  baterias : R;
  vertido : R;
  importacion : R;
  exportacion : R;
  demanda : R;
  precio : R;
  horas : nat;
  precioMedio : R     (* absent until the second loop sets it *)
}.
Definition cero : t := mk 0 0 0 0 0 0 0 0 0 0 0 0 0.
End Mes.

(** [l[i] = f(l[i])] for an index inside the list. *)
Fixpoint modificar {A : Type} (i : nat) (f : A -> A) (l : list A) : list A :=
  match l, i with
  | [], _ => []
  | x :: resto, O => f x :: resto
  | x :: resto, Datatypes.S j => x :: modificar j f resto
  end.

Definition sumarHora (g : Gen.t) (dem pr : R) (m : Mes.t) : Mes.t :=
  Mes.mk (Mes.nuclear m + Gen.nuclear g)
         (Mes.solar m + Gen.solar g)
         (Mes.eolica m + Gen.eolica g)
         (Mes.hidraulica m + Gen.hidraulica g)
         (Mes.gas m + Gen.gas g)
         (Mes.baterias m + (Gen.baterias g + Gen.bombeo g))
         (Mes.vertido m + Gen.vertido g)
         (Mes.importacion m + Gen.importacion g)
         (Mes.exportacion m + Gen.exportacion g)
         (Mes.demanda m + dem)
         (Mes.precio m + pr)
         (Mes.horas m + 1)%nat
         (Mes.precioMedio m).

Definition cerrarMes (m : Mes.t) : Mes.t :=
  Mes.mk (Mes.nuclear m / 1000)
         (Mes.solar m / 1000)
         (Mes.eolica m / 1000)
         (Mes.hidraulica m / 1000)
         (Mes.gas m / 1000)
         (Mes.baterias m / 1000)
         (Mes.vertido m / 1000)
         (Mes.importacion m / 1000)
         (Mes.exportacion m / 1000)
         (Mes.demanda m / 1000)
         (Mes.precio m)
         (Mes.horas m)
         (if (0 <? Mes.horas m)%nat
          then Mes.precio m / INR (Mes.horas m) else 0).

(** [_calcularResumenMensual(mix, precios, demanda)] *)
Definition _calcularResumenMensual (mix : list Gen.t)
  (precios demanda : list R) : list Mes.t :=
  let mensual := repeat Mes.cero 12 in
  let mensual :=
    forLoop HORAS_ANIO
      (fun h mensual =>
         let mes := (mesDe (h / 24) mod 12)%nat in
         modificar mes
           (sumarHora (nth h mix Gen.cero) (nth h demanda 0)
                      (nth h precios 0))
           mensual)
      mensual in
  map cerrarMes mensual.

(** [Math.min(...arr)] and [Math.max(...arr)] of a non-empty array. *)
Definition minimo (l : list R) : R :=
  match l with
  | [] => 0
  | x :: resto => fold_left Rmin resto x
  end.

Definition maximo (l : list R) : R :=
  match l with
  | [] => 0
  | x :: resto => fold_left Rmax resto x
  end.

(** The object [R] that [simular()] returns. *)
Record Resultados : Type := mkResultados {
  contadores : Acum;
  precioMedio : R;
  precioMedioPonderado : R;
  precioP10 : R;
  precioMediana : R;
  precioP90 : R;
  precioMin : R;
  precioMax : R;
  coberturaRenovable : R;
  dependenciaGas : R;
  vertidosPct : R;
  mensual : list Mes.t;
  r_mix : list Gen.t;
  r_precios : list R;
  demandaHoraria : list R
}.

(** The part of [simular()] after the loop.  Where the source divides by
    a total that is 0 it stores NaN or an infinity; a real quotient by 0
    is 0 here.  No property below reads those fields. *)
Definition agregar (st : Estado) : Resultados :=
  let precioArr := precios st in
  let precioMedio := fold_left Rplus precioArr 0 / INR HORAS_ANIO in
  let genTotal :=
    fold_left
      (fun s g =>
         s + Gen.nuclear g + Gen.solar g + Gen.eolica g + Gen.hidraulica g
         + Gen.gas g + Gen.baterias g + Gen.bombeo g + Gen.importacion g)
      (mix st) 0 in
  let genRenovable :=
    fold_left
      (fun s g => s + Gen.solar g + Gen.eolica g + Gen.hidraulica g)
      (mix st) 0 in
  let genGas := fold_left (fun s g => s + Gen.gas g) (mix st) 0 in
  let genVRE :=
    fold_left (fun s g => s + Gen.solar g + Gen.eolica g) (mix st) 0 in
  {| contadores := acum st;
     precioMedio := precioMedio;
     precioMedioPonderado :=
       if gt (demandaTotalGWh st) 0
       then precioPonderadoSum st / demandaTotalGWh st
       else precioMedio;
     precioP10 := percentil precioArr 10;
     precioMediana := percentil precioArr 50;
     precioP90 := percentil precioArr 90;
     precioMin := minimo precioArr;
     precioMax := maximo precioArr;
     coberturaRenovable := (genRenovable / genTotal) * 100;
     dependenciaGas := (genGas / genTotal) * 100;
     vertidosPct :=
       if gt genVRE 0
       then (vertidosTWh (acum st) * 1000 / genVRE) * 100 else 0;
     mensual :=
       _calcularResumenMensual (mix st) (precios st) (demandaHorariaGW st);
     r_mix := mix st;
     r_precios := precioArr;
     demandaHoraria := demandaHorariaGW st |}.

(** An instance of [SimuladorElectrico]: its only field is [params]. *)
Record SimuladorElectrico : Type := mkSimulador {
  params : Params
}.

(** [simular()], as a function of the merged parameters.  The generator
    [rng] that the source creates first, from [p.semilla || 42], is never
    drawn from. *)
Definition simularCon (p : Params) : Resultados :=
  let rng := SeededRNG (if Req_dec_T (semilla p) 0 then 42 else semilla p) in
  agregar (fst (bucle p HORAS_ANIO)).

(* ================================================================== *)
(** * [simular()] as a method on the objects of the page *)
(* ================================================================== *)

(** [simularCon] is a function of the parameters by construction.  The
    source is a method: it reads [this.params], creates [SeededRNG]
    objects, hands them to other methods, and every [next()] writes the
    [seed] field of the object it is called on.  Here the same code is
    written against an explicit store, in which a generator is a
    reference, so that reading or drawing from an object that was there
    before the call, or leaving a trace that a later call could see, can
    be expressed. *)

(** The store: the simulator instance [this], the [seed] field of every
    [SeededRNG] object in order of creation (a reference is an index),
    and the arguments [new SeededRNG] was called with so far.  The tables
    [SEF.MODEL] and [SEF.TEMP_MENSUAL] are frozen objects that the file
    reads once, when it loads: they stay the constants they are above. *)
Record Memoria : Type := mkMemoria {
  este : SimuladorElectrico;
  generadores : list R;
  creados : list R
}.

Module JS.

(** A computation on the store. *)
Definition M (A : Type) : Type := Memoria -> A * Memoria.

Definition ret {A : Type} (a : A) : M A := fun w => (a, w).

Definition bind {A B : Type} (c : M A) (k : A -> M B) : M B :=
  fun w => let (a, w') := c w in k a w'.

Declare Scope js_scope.
Delimit Scope js_scope with js.
Notation "x <- c ;; k" := (bind c (fun x => k))
  (at level 61, c at next level, right associativity) : js_scope.
Local Open Scope js_scope.

(** [this.params] *)
Definition this_params : M Params := fun w => (params (este w), w).

(** A method that only reads [this.params]. *)
Definition metodo {A : Type} (f : Params -> A) : M A :=
  p <- this_params ;; ret (f p).

(** [new SeededRNG(seed)]: the reference of the new object. *)
Definition new_SeededRNG (seed : R) : M nat := fun w =>
  (length (generadores w),
   {| este := este w;
      generadores := generadores w ++ [seed];
      creados := creados w ++ [seed] |}).

(** [rng.seed] and [rng.seed = v] *)
Definition leer_seed (rng : nat) : M R := fun w =>
  (nth rng (generadores w) 0, w).

Definition escribir_seed (rng : nat) (v : R) : M unit := fun w =>
  (tt, {| este := este w;
          generadores := modificar rng (fun _ => v) (generadores w);
          creados := creados w |}).

(** [rng.next()] *)
Definition next (rng : nat) : M R :=
  seed <- leer_seed rng ;;
  let seed' := sin (seed * 9301 + 49297) * 49271 in
  _ <- escribir_seed rng seed' ;;
  ret (seed' - IZR (Zfloor seed')).

(** [rng.gauss(media, sigma)] *)
Definition gauss (rng : nat) (media sigma : R) : M R :=
  v1 <- next rng ;;
  let u1 := Rmax 1e-10 v1 in
  u2 <- next rng ;;
  let z := sqrt (-2 * ln u1) * cos (2 * PI * u2) in
  ret (media + sigma * z).

Fixpoint forM {S : Type} (n : nat) (body : nat -> S -> M S) (s : S) : M S :=
  match n with
  | O => ret s
  | Datatypes.S k => s' <- forM k body s ;; body k s'
  end.

(** The block loop of [generarSerieViento(rng)]. *)
Fixpoint generarBloques (rng : nat) (fuel : nat) (h : Z) : M (list Bloque) :=
  match fuel with
  | O => ret []
  | Datatypes.S f =>
      if (h <? Z.of_nat HORAS_ANIO)%Z then
        u <- next rng ;;
        let dur := Zfloor (48 + u * 120) in
        int <- next rng ;;
        resto <- generarBloques rng f (h + dur)%Z ;;
        ret ({| inicio := h; duracion := dur; intensidad := int |} :: resto)
      else ret []
  end.

Definition pasoViento (rng : nat) (bloques : list Bloque) (i : nat)
  (st : R * list R) : M (R * list R) :=
  let (estado, serie) := st in
  let dia := (i / 24)%nat in
  let hora := (i mod 24)%nat in
  let mes := mesDe dia in
  let baseEstacional := 0.28 + 0.14 * cos ((INR mes - 0.5) * PI / 6) in
  let sinoptico := sinopticoDe bloques (Z.of_nat i) baseEstacional in
  let diurno := 1 + 0.08 * sin ((INR hora - 6) * PI / 12) in
  let alpha := 0.94 in
  innovacion <- gauss rng 0 0.06 ;;
  let estado' := alpha * estado + (1 - alpha) * sinoptico + innovacion in
  ret (estado', serie ++ [Rmax 0.02 (Rmin 0.92 (estado' * diurno))]).

(** [generarSerieViento(rng)] *)
Definition generarSerieViento (rng : nat) : M (list R) :=
  bloques <- generarBloques rng HORAS_ANIO 0 ;;
  st <- forM HORAS_ANIO (pasoViento rng bloques) (0.30, []) ;;
  ret (snd st).

Definition demandaHora (rng : nat) (i : nat) : M R :=
  let dia := (i / 24)%nat in
  let hora := (i mod 24)%nat in
  let mes := (mesDe dia mod 12)%nat in
  let diaSemana := (dia mod 7)%nat in
  let tempBase := nth mes TEMP_MENSUAL 0 in
  let varDiurna := 4.5 * sin ((INR hora - 6) * PI / 12) in
  ruido <- gauss rng 0 1.5 ;;
  let temp := tempBase + varDiurna + ruido in
  let factorTemp0 := 1.0 in
  let factorTemp1 :=
    if lt temp 15 then 1 + (15 - temp) * 0.013 else factorTemp0 in
  let factorTemp :=
    if gt temp 25 then 1 + (temp - 25) * 0.018 else factorTemp1 in
  let picoManana := exp (- cuadrado ((INR hora - 10) / 2.8)) * 0.28 in
  let picoTarde := exp (- cuadrado ((INR hora - 20) / 2.5)) * 0.32 in
  let baseNocturna := 0.62 in
  let perfilHorario := baseNocturna + picoManana + picoTarde in
  let factorLaboral := if (diaSemana <? 5)%nat then 1.04 else 0.87 in
  u <- next rng ;;
  let ruidoDemanda := 0.97 + u * 0.06 in
  ret (perfilHorario * factorLaboral * factorTemp * ruidoDemanda).

(** [generarSerieDemanda(rng)] *)
Definition generarSerieDemanda (rng : nat) : M (list R) :=
  forM HORAS_ANIO
    (fun i serie => v <- demandaHora rng i ;; ret (serie ++ [v])) [].

(** The body of the hourly loop up to the price; [p] is the object the
    method read from [this.params] when it started. *)
Definition horaSim (p : Params) (rngMeteo : nat) (e : Entorno) (h : nat)
  (st : Estado) : M Hora :=
  let dia := (h / 24)%nat in
  let hora := (h mod 24)%nat in
  let demandaGW := demandaMediaGW e * nth h (serieDemanda e) 0 in
  let flexCapGW :=
    Rmin (flexibilidadGW p) (demandaGW * (flexibilidadPct p / 100)) in
  let gNuclear := nuclearGW e * FC_NUCLEAR in
  u <- next rngMeteo ;;
  let nubes := 0.65 + u * 0.35 in
  let gSolar := solar p * calcularSolar (INR dia) (INR hora) nubes in
  let gEolica := eolica p * nth h (serieViento e) 0 in
  let genBase := gNuclear + gSolar + gEolica in
  let excedente := genBase - demandaGW in
  let d :=
    if gt excedente 0 then
      ramaExcedente p flexCapGW gNuclear gSolar gEolica excedente
        (estadoBateria st) (estadoBombeo st)
    else
      ramaDeficit p flexCapGW gNuclear gSolar gEolica dia hora excedente
        (estadoBateria st) (estadoBombeo st) (gasAnterior st) in
  let g := gen d in
  let ratioRen := if gt demandaGW 0 then genBase / demandaGW else 0 in
  let ctx :=
    Ctx.mk (Gen.importacion g) (Gen.exportacion g)
      (Rmax 0 (demandaGW - genBase - Gen.hidraulica g - Gen.baterias g
               - Gen.bombeo g - Gen.gas g - Gen.importacion g)) in
  let precio :=
    calcularPrecioMarginal p g demandaGW ratioRen ctx (gasAnterior st) in
  ret {| demandaGW := demandaGW; genBase := genBase; despacho := d;
         ctx := ctx; precio := precio |}.

Definition pasoHora (p : Params) (rngMeteo : nat) (e : Entorno) (h : nat)
  (st : Estado) : M Estado :=
  hr <- horaSim p rngMeteo e h st ;;
  ret (avanzar p st hr).

(** [simular()] *)
Definition simular : M Resultados :=
  p <- this_params ;;
  rng <- new_SeededRNG (if Req_dec_T (semilla p) 0 then 42 else semilla p) ;;
  demandaAnualTWh <- metodo calcularDemandaAjustada ;;
  let demandaMediaGW := demandaAnualTWh * 1000 / INR HORAS_ANIO in
  nuclearGW <- metodo calcularNuclearDisponible ;;
  rngViento <- new_SeededRNG (semilla p * 7 + 13) ;;
  serieViento <- generarSerieViento rngViento ;;
  rngDemanda <- new_SeededRNG (semilla p * 3 + 7) ;;
  serieDemanda <- generarSerieDemanda rngDemanda ;;
  rngMeteo <- new_SeededRNG (semilla p * 11 + 37) ;;
  let e := {| demandaMediaGW := demandaMediaGW;
              nuclearGW := nuclearGW;
              serieViento := serieViento;
              serieDemanda := serieDemanda |} in
  st <- forM HORAS_ANIO (pasoHora p rngMeteo e)
          (estadoInicial p demandaAnualTWh nuclearGW) ;;
  ret (agregar st).

(** Running the one-generator computation [c] on the object [rng] of the
    store. *)
Definition en {A : Type} (rng : nat) (c : Rng A) : M A := fun w =>
  let (a, seed') := c (nth rng (generadores w) 0) in
  (a, {| este := este w;
         generadores := modificar rng (fun _ => seed') (generadores w);
         creados := creados w |}).

End JS.

(* ================================================================== *)
(** * Presentation helpers (js/app.js, js/charts.js) *)
(* ================================================================== *)

(** The fields of [SEF.PNIEC_2030] that [pniecStatus] reads. *)
Module PNIEC_2030.
Definition renovablesGeneracion : R := 74.
Definition emisionesMax : R := 35.
Definition solarGW : R := 76.
Definition eolicaGW : R := 62.
Definition almacenamientoGW : R := 22.
End PNIEC_2030.

(** The three values of a [status] field. *)
Inductive Status : Type := cumple | parcial | no_cumple.

(** The [status] fields of the five entries that [pniecStatus] returns,
    in order: renewable share, emissions, solar, wind, storage.  The
    labels and the formatted numbers of the entries are left out. *)
Definition pniecStatus (params : Params) (resultados : Resultados)
  : list Status :=
  let almTotal := bateriasPotencia params + bombeo params in
  [ if le PNIEC_2030.renovablesGeneracion (coberturaRenovable resultados)
    then cumple
    else if le 65 (coberturaRenovable resultados) then parcial
    else no_cumple;
    if le (emisionesAnuales (contadores resultados)) PNIEC_2030.emisionesMax
    then cumple
    else if le (emisionesAnuales (contadores resultados)) 45 then parcial
    else no_cumple;
    if le PNIEC_2030.solarGW (solar params) then cumple
    else if le 60 (solar params) then parcial
    else no_cumple;
    if le PNIEC_2030.eolicaGW (eolica params) then cumple
    else if le 50 (eolica params) then parcial
    else no_cumple;
    if le PNIEC_2030.almacenamientoGW almTotal then cumple
    else if le 15 almTotal then parcial
    else no_cumple ].

(** [randomizarSemilla()]: the value it stores in [params.semilla], as a
    function of the number [u] that [Math.random()] returns. *)
Definition randomizarSemilla (u : R) : R := IZR (Zfloor (1 + u * 9999)).

(** [diffPct(actual, referencia)] *)
Definition diffPct (actual referencia : R) : R :=
  if Req_dec_T referencia 0 then 0
  else (actual - referencia) / referencia * 100.

(** The two values [diffClass] returns, ['positive'] and ['negative']. *)
Inductive Clase : Type := clase_positive | clase_negative.

(** [diffClass(actual, referencia, invertir)] *)
Definition diffClass (actual referencia : R) (invertir : bool) : Clase :=
  let mejor := if invertir then gt actual referencia
               else lt actual referencia in
  if mejor then clase_positive else clase_negative.

(** One entry of the array [dias] of [_plotMixAnual]. *)
Module Dia.
Record t : Type := mk {
  nuclear : R;
  solar : R;
  eolica : R;
  hidraulica : R;
  gas : R;
  bat : R;
  imp : R
}.
End Dia.

(** [mix.slice(d * 24, d * 24 + 24)] *)
Definition bloqueDia (mix : list Gen.t) (d : nat) : list Gen.t :=
  firstn 24 (skipn (d * 24) mix).

(** The daily means of [_plotMixAnual]: the array [dias] it plots. *)
Definition promediosDiarios (mix : list Gen.t) : list Dia.t :=
  map (fun d =>
         let bloque := bloqueDia mix d in
         let avg (key : Gen.t -> R) :=
           fold_left (fun s g => s + key g) bloque 0 / 24 in
         Dia.mk (avg Gen.nuclear) (avg Gen.solar) (avg Gen.eolica)
                (avg Gen.hidraulica) (avg Gen.gas)
                (fold_left (fun s g => s + Gen.baterias g + Gen.bombeo g)
                           bloque 0 / 24)
                (avg Gen.importacion))
      (seq 0 365).

(** The hours that the daily means of [_plotMixAnual] read. *)
Definition HORAS_GRAFICO : nat := (365 * 24)%nat.


(** An entry of [SEF.ESCENARIOS]: its [id] and its [params]; the name,
    the icon, the style and the description are left out. *)
Module Escenario.
Record t : Type := mk {
  id : R;
  params : Params
}.
End Escenario.

(** [SEF.ESCENARIOS] *)
Definition ESCENARIOS : list Escenario.t := [
  Escenario.mk 0 {|
    nuclear := 7.0; solar := 24.0; eolica := 31.0; hidraulica := 17.0;
    ccgt := 24.0; bateriasPotencia := 3.0; bateriasCapacidad := 10;
    bombeo := 3.5; bombeoCapacidad := 30; precioGas := 42; precioCO2 := 65;
    rendimientoCCGT := 0.55; omCCGT := 3.0; cargosSistema := 12.0;
    perdidasRed := 0.05; semilla := 42; demandaAnual := 260;
    hidraulicidad := 1.0; anioObjetivo := 2026; crecimientoDemanda := 0.2;
    electrificacionTWh := 1.0; eficienciaDemanda := 0.3;
    aplicarPlanNuclear := true; cierreNuclear := 2035;
    flexibilidadGW := 3.0; flexibilidadPct := 5; interconexion := 3.0;
    precioImport := 90; precioExport := 5; precioEscasez := 350 |};
  Escenario.mk 1 {|
    nuclear := 3.0; solar := 76.0; eolica := 62.0; hidraulica := 17.0;
    ccgt := 26.0; bateriasPotencia := 15.0; bateriasCapacidad := 60;
    bombeo := 7.0; bombeoCapacidad := 50; precioGas := 45; precioCO2 := 85;
    rendimientoCCGT := 0.57; omCCGT := 3.5; cargosSistema := 11.5;
    perdidasRed := 0.045; semilla := 123; demandaAnual := 270;
    hidraulicidad := 1.0; anioObjetivo := 2030; crecimientoDemanda := 0.7;
    electrificacionTWh := 3.0; eficienciaDemanda := 0.8;
    aplicarPlanNuclear := true; cierreNuclear := 2035;
    flexibilidadGW := 6.0; flexibilidadPct := 8; interconexion := 4.0;
    precioImport := 95; precioExport := 6; precioEscasez := 350 |};
  Escenario.mk 2 {|
    nuclear := 7.0; solar := 55.0; eolica := 45.0; hidraulica := 17.0;
    ccgt := 24.0; bateriasPotencia := 10.0; bateriasCapacidad := 40;
    bombeo := 5.0; bombeoCapacidad := 40; precioGas := 45; precioCO2 := 80;
    rendimientoCCGT := 0.55; omCCGT := 3.0; cargosSistema := 11.0;
    perdidasRed := 0.05; semilla := 321; demandaAnual := 265;
    hidraulicidad := 1.0; anioObjetivo := 2030; crecimientoDemanda := 0.5;
    electrificacionTWh := 2.0; eficienciaDemanda := 0.6;
    aplicarPlanNuclear := false; cierreNuclear := 2035;
    flexibilidadGW := 5.0; flexibilidadPct := 7; interconexion := 4.0;
    precioImport := 90; precioExport := 5; precioEscasez := 330 |};
  Escenario.mk 3 {|
    nuclear := 0; solar := 95.0; eolica := 70.0; hidraulica := 18.0;
    ccgt := 30.0; bateriasPotencia := 25.0; bateriasCapacidad := 100;
    bombeo := 10.0; bombeoCapacidad := 60; precioGas := 50; precioCO2 := 90;
    rendimientoCCGT := 0.56; omCCGT := 3.5; cargosSistema := 13.5;
    perdidasRed := 0.05; semilla := 888; demandaAnual := 270;
    hidraulicidad := 1.0; anioObjetivo := 2030; crecimientoDemanda := 0.8;
    electrificacionTWh := 3.5; eficienciaDemanda := 0.6;
    aplicarPlanNuclear := true; cierreNuclear := 2028;
    flexibilidadGW := 7.0; flexibilidadPct := 10; interconexion := 4.5;
    precioImport := 110; precioExport := 8; precioEscasez := 420 |};
  Escenario.mk 4 {|
    nuclear := 5.0; solar := 80.0; eolica := 60.0; hidraulica := 17.0;
    ccgt := 22.0; bateriasPotencia := 40.0; bateriasCapacidad := 160;
    bombeo := 12.0; bombeoCapacidad := 80; precioGas := 45; precioCO2 := 85;
    rendimientoCCGT := 0.58; omCCGT := 3.2; cargosSistema := 11.0;
    perdidasRed := 0.04; semilla := 2026; demandaAnual := 268;
    hidraulicidad := 1.0; anioObjetivo := 2032; crecimientoDemanda := 0.7;
    electrificacionTWh := 3.0; eficienciaDemanda := 0.9;
    aplicarPlanNuclear := true; cierreNuclear := 2035;
    flexibilidadGW := 8.0; flexibilidadPct := 12; interconexion := 5.0;
    precioImport := 90; precioExport := 4; precioEscasez := 320 |};
  Escenario.mk 5 {|
    nuclear := 7.0; solar := 30.0; eolica := 35.0; hidraulica := 17.0;
    ccgt := 24.0; bateriasPotencia := 5.0; bateriasCapacidad := 20;
    bombeo := 4.0; bombeoCapacidad := 35; precioGas := 95; precioCO2 := 100;
    rendimientoCCGT := 0.53; omCCGT := 4.0; cargosSistema := 13.0;
    perdidasRed := 0.055; semilla := 451; demandaAnual := 255;
    hidraulicidad := 0.9; anioObjetivo := 2027; crecimientoDemanda := 0.4;
    electrificacionTWh := 1.2; eficienciaDemanda := 0.2;
    aplicarPlanNuclear := true; cierreNuclear := 2035;
    flexibilidadGW := 4.0; flexibilidadPct := 6; interconexion := 3.0;
    precioImport := 140; precioExport := 8; precioEscasez := 500 |};
  Escenario.mk 6 {|
    nuclear := 3.0; solar := 90.0; eolica := 65.0; hidraulica := 17.0;
    ccgt := 20.0; bateriasPotencia := 12.0; bateriasCapacidad := 50;
    bombeo := 6.0; bombeoCapacidad := 40; precioGas := 48; precioCO2 := 90;
    rendimientoCCGT := 0.57; omCCGT := 3.0; cargosSistema := 10.5;
    perdidasRed := 0.045; semilla := 777; demandaAnual := 285;
    hidraulicidad := 1.0; anioObjetivo := 2033; crecimientoDemanda := 1.0;
    electrificacionTWh := 5.0; eficienciaDemanda := 0.7;
    aplicarPlanNuclear := true; cierreNuclear := 2035;
    flexibilidadGW := 12.0; flexibilidadPct := 15; interconexion := 5.0;
    precioImport := 85; precioExport := 3; precioEscasez := 300 |};
  Escenario.mk 7 {|
    nuclear := 7.0; solar := 40.0; eolica := 38.0; hidraulica := 17.0;
    ccgt := 24.0; bateriasPotencia := 6.0; bateriasCapacidad := 25;
    bombeo := 3.5; bombeoCapacidad := 30; precioGas := 48; precioCO2 := 70;
    rendimientoCCGT := 0.55; omCCGT := 3.5; cargosSistema := 12.5;
    perdidasRed := 0.05; semilla := 555; demandaAnual := 265;
    hidraulicidad := 0.50; anioObjetivo := 2028; crecimientoDemanda := 0.5;
    electrificacionTWh := 1.5; eficienciaDemanda := 0.4;
    aplicarPlanNuclear := true; cierreNuclear := 2035;
    flexibilidadGW := 4.0; flexibilidadPct := 6; interconexion := 3.5;
    precioImport := 100; precioExport := 5; precioEscasez := 380 |}
].

(** [SEF.getEscenario(id)]; [null] is [None]. *)
Definition getEscenario (id : R) : option Escenario.t :=
  find (fun e => if Req_dec_T (Escenario.id e) id then true else false)
       ESCENARIOS.

(* ================================================================== *)
(** * The dispatch and the price formation in binary64 *)
(* ================================================================== *)

(** The definitions above compute with exact reals.  The part of the
    loop body that is plain arithmetic, from the dispatch branch to the
    price of the hour, is translated a second time here over the binary64
    numbers of the kernel, with the rounding, the infinities and the NaN
    of the source.  The kernel has no binary64 [Math.sin], [Math.cos] or
    [Math.pow]: what the loop body takes from the series and from the
    solar and hydro models (the demand and the must-run generation of the
    hour, the value of [calcularHidro]) is an argument, and [Math.pow] is
    a parameter of the price formation.  The hour counters are left
    out. *)
Module Binary64.
Import PrimFloat.
#[local] Set Warnings "-inexact-float".
Local Open Scope bool_scope.
Local Open Scope float_scope.

(** [x > y]: false when either side is NaN. *)
Definition gt (x y : float) : bool := y <? x.

(** [Math.max(a, b)] and [Math.min(a, b)]: NaN when either argument is
    NaN, and -0 counts as smaller than +0.  With three arguments the
    source's calls are the nested ones. *)
Definition Math_max (a b : float) : float :=
  if is_nan a || is_nan b then nan
  else if a <? b then b
  else if b <? a then a
  else if is_zero a then a + b
  else a.

Definition Math_min (a b : float) : float :=
  if is_nan a || is_nan b then nan
  else if a <? b then a
  else if b <? a then b
  else if is_zero a then - (- a + - b)
  else a.

Definition FACTOR_CO2_GAS : float := 0.202.
Definition EFICIENCIA_BAT : float := 0.90.
Definition EFICIENCIA_BOMBEO : float := 0.75.
Definition AUTODESCARGA_BAT : float := 0.001.
Definition RAMPA_CCGT : float := 0.15.

Record Params : Type := mkParams {
  nuclear : float;
  solar : float;
  eolica : float;
  hidraulica : float;
  ccgt : float;
  bateriasPotencia : float;
  bateriasCapacidad : float;
  bombeo : float;
  bombeoCapacidad : float;
  precioGas : float;
  precioCO2 : float;
  rendimientoCCGT : float;
  omCCGT : float;
  cargosSistema : float;
  perdidasRed : float;
  semilla : float;
  demandaAnual : float;
  hidraulicidad : float;
  anioObjetivo : float;
  crecimientoDemanda : float;
  electrificacionTWh : float;
  eficienciaDemanda : float;
  aplicarPlanNuclear : bool;
  cierreNuclear : float;
  flexibilidadGW : float;
  flexibilidadPct : float;
  interconexion : float;
  precioImport : float;
  precioExport : float;
  precioEscasez : float
}.

Module Gen.
Record t : Type := mk {
  nuclear : float;
  solar : float;
  eolica : float;
  hidraulica : float;
  gas : float;
  baterias : float;
  bombeo : float;
  vertido : float;
  cargaBaterias : float;
  cargaBombeo : float;
  importacion : float;
  exportacion : float
}.
End Gen.

Module Ctx.
Record t : Type := mk {
  importacion : float;
  exportacion : float;
  deficit : float
}.
End Ctx.

(** [calcularPrecioMarginal(gen, demandaGW, ratioRenovable, contexto,
    gasAnterior)], for any function in the place of [Math.pow]. *)
Section Precio.

Variable Math_pow : float -> float -> float.

Definition calcularPrecioMarginal (p : Params) (gen : Gen.t)
  (demandaGW ratioRenovable : float) (contexto : Ctx.t)
  (gasAnterior : float) : float :=
  let calorEsp := 1 / Math_max 0.45 (rendimientoCCGT p) in
  let costeComb := precioGas p * calorEsp in
  let costeCO2 :=
    (FACTOR_CO2_GAS / Math_max 0.45 (rendimientoCCGT p)) * precioCO2 p in
  let costeCCGT := costeComb + costeCO2 + omCCGT p in
  let stressCCGT := Math_min 1 (Gen.gas gen / Math_max 0.5 (ccgt p)) in
  let stressHidro :=
    Math_min 1 (Gen.hidraulica gen / Math_max 0.5 (hidraulica p)) in
  let precio :=
    if gt ratioRenovable 1.20 then
      let exceso := ratioRenovable - 1 in
      Math_max (-20) (5 - exceso * 45)
    else if gt ratioRenovable 1.05 then
      5 + (1.2 - ratioRenovable) * 100
    else if gt (Gen.gas gen) 0.3 then
      let primaStress := 12 * Math_pow stressCCGT 1.5 in
      let deltGas := Math_max 0 (Gen.gas gen - gasAnterior) in
      let primaRampa := if gt deltGas 1 then 3 * deltGas else 0 in
      costeCCGT + primaStress + primaRampa
    else if gt (Gen.hidraulica gen) 0.5 then
      25 + 25 * stressHidro
    else
      6 + (1 - ratioRenovable) * 30 in
  let precio :=
    if gt (Ctx.importacion contexto) 0 then
      let stressImport :=
        Math_min 1 (Ctx.importacion contexto / Math_max 0.5 (interconexion p))
      in
      Math_max precio (precioImport p * (0.85 + 0.3 * stressImport))
    else precio in
  let precio :=
    if gt (Ctx.exportacion contexto) 0
    then Math_min precio (precioExport p + 10)
    else precio in
  let precio :=
    if gt (Ctx.deficit contexto) 0.3 then
      let deficitPct := Ctx.deficit contexto / Math_max 1 demandaGW in
      Math_max precio (precioEscasez p * Math_min 1 (deficitPct * 4))
    else precio in
  let precio := precio * (1 + perdidasRed p) + cargosSistema p in
  Math_min 500 (Math_max (-25) precio).

End Precio.

(** What a dispatch branch leaves behind: the [gen] object, the storage
    levels, the downward flexible demand and the local [deficit] after
    gas (the surplus branch declares none and leaves 0). *)
Record Despacho : Type := mkDespacho {
  gen : Gen.t;
  bateriaTras : float;
  bombeoTras : float;
  flexDown : float;
  redujoDemanda : bool;    (* whether step 7 was entered *)
  deficitFinal : float
}.

(** The [if (excedente > 0)] branch. *)
Definition ramaExcedente (p : Params) (flexCapGW : float)
  (gNuclear gSolar gEolica : float)
  (excedente estadoBateria estadoBombeo : float) : Despacho :=
  let espacioBat := bateriasCapacidad p - estadoBateria in
  let cargaBat :=
    Math_min (Math_min excedente (bateriasPotencia p))
             (espacioBat / EFICIENCIA_BAT) in
  let estadoBateria := estadoBateria + cargaBat * EFICIENCIA_BAT in
  let excedente := excedente - cargaBat in
  let '(cargaBombeo, estadoBombeo, excedente) :=
    if gt excedente 0 then
      let espacioBombeo := bombeoCapacidad p - estadoBombeo in
      let cargaBombeo :=
        Math_min (Math_min excedente (bombeo p))
                 (espacioBombeo / EFICIENCIA_BOMBEO) in
      (cargaBombeo, estadoBombeo + cargaBombeo * EFICIENCIA_BOMBEO,
       excedente - cargaBombeo)
    else (0, estadoBombeo, excedente) in
  let excedente :=
    if gt excedente 0 && gt flexCapGW 0
    then excedente - Math_min excedente flexCapGW
    else excedente in
  let '(exp, excedente) :=
    if gt excedente 0 && gt (interconexion p) 0 then
      let exp := Math_min excedente (interconexion p) in
      (exp, excedente - exp)
    else (0, excedente) in
  let vertido := Math_max 0 excedente in
  {| gen := Gen.mk gNuclear gSolar gEolica 0 0 0 0 vertido cargaBat
                   cargaBombeo 0 exp;
     bateriaTras := estadoBateria;
     bombeoTras := estadoBombeo;
     flexDown := 0;
     redujoDemanda := false;
     deficitFinal := 0 |}.

(** The [else] branch; [hidro] is the value of [calcularHidro]. *)
Definition ramaDeficit (p : Params) (flexCapGW : float)
  (gNuclear gSolar gEolica : float) (hidro : float)
  (excedente estadoBateria estadoBombeo gasAnterior : float) : Despacho :=
  let deficit := - excedente in
  let hidroDisp := hidraulica p * hidro in
  let gHidraulica := Math_min hidroDisp deficit in
  let deficit := deficit - gHidraulica in
  let '(gBaterias, estadoBateria, deficit) :=
    if gt deficit 0 && gt estadoBateria 0 then
      let descBat :=
        Math_min (Math_min (bateriasPotencia p) estadoBateria) deficit in
      (descBat, estadoBateria - descBat, deficit - descBat)
    else (0, estadoBateria, deficit) in
  let '(gBombeo, estadoBombeo, deficit) :=
    if gt deficit 0 && gt estadoBombeo 0 then
      let descBombeo :=
        Math_min (Math_min (bombeo p) estadoBombeo) deficit in
      (descBombeo, estadoBombeo - descBombeo, deficit - descBombeo)
    else (0, estadoBombeo, deficit) in
  let '(flexDown, deficit, redujo) :=
    if gt deficit 0 && gt flexCapGW 0 then
      let flexDown := Math_min deficit flexCapGW in
      (flexDown, deficit - flexDown, true)
    else (0, deficit, false) in
  let '(imp, deficit) :=
    if gt deficit 0 && gt (interconexion p) 0 then
      let imp := Math_min deficit (interconexion p) in
      (imp, deficit - imp)
    else (0, deficit) in
  let '(gGas, deficit) :=
    if gt deficit 0 then
      let maxRampa := ccgt p * RAMPA_CCGT + gasAnterior in
      let gGas := Math_min (Math_min deficit (ccgt p)) maxRampa in
      (gGas, deficit - gGas)
    else (0, deficit) in
  {| gen := Gen.mk gNuclear gSolar gEolica gHidraulica gGas gBaterias
                   gBombeo 0 0 0 imp 0;
     bateriaTras := estadoBateria;
     bombeoTras := estadoBombeo;
     flexDown := flexDown;
     redujoDemanda := redujo;
     deficitFinal := deficit |}.

(** One hour, from the dispatch to the context of the price. *)
Record Hora : Type := mkHora {
  despacho : Despacho;
  estadoBateria : float;   (* when the hour ends *)
  estadoBombeo : float;
  ratioRen : float;
  ctx : Ctx.t
}.

Definition horaSim (p : Params)
  (demandaGW gNuclear gSolar gEolica hidro : float)
  (estadoBateria estadoBombeo gasAnterior : float) : Hora :=
  let flexCapGW :=
    Math_min (flexibilidadGW p) (demandaGW * (flexibilidadPct p / 100)) in
  let genBase := gNuclear + gSolar + gEolica in
  let excedente := genBase - demandaGW in
  let d :=
    if gt excedente 0 then
      ramaExcedente p flexCapGW gNuclear gSolar gEolica excedente
        estadoBateria estadoBombeo
    else
      ramaDeficit p flexCapGW gNuclear gSolar gEolica hidro excedente
        estadoBateria estadoBombeo gasAnterior in
  let g := gen d in
  {| despacho := d;
     estadoBateria := bateriaTras d * (1 - AUTODESCARGA_BAT);
     estadoBombeo := bombeoTras d;
     ratioRen := if gt demandaGW 0 then genBase / demandaGW else 0;
     ctx :=
       Ctx.mk (Gen.importacion g) (Gen.exportacion g)
         (Math_max 0 (demandaGW - genBase - Gen.hidraulica g
                      - Gen.baterias g - Gen.bombeo g - Gen.gas g
                      - Gen.importacion g)) |}.


(** Hour 0 of the loop: both stores start at half capacity and the ramp
    reference at 0. *)
Definition horaInicial (p : Params)
  (demandaGW gNuclear gSolar gEolica hidro : float) : Hora :=
  horaSim p demandaGW gNuclear gSolar gEolica hidro
    (bateriasCapacidad p * 0.5) (bombeoCapacidad p * 0.5) 0.

(** The hour after [previa]: the levels are those the previous hour
    left, and [gasAnterior] is its gas output. *)
Definition horaSiguiente (p : Params) (previa : Hora)
  (demandaGW gNuclear gSolar gEolica hidro : float) : Hora :=
  horaSim p demandaGW gNuclear gSolar gEolica hidro
    (estadoBateria previa) (estadoBombeo previa)
    (Gen.gas (gen (despacho previa))).

(** [R.precioMedio]: [precioArr.reduce((a, b) => a + b, 0)] over the
    number of hours of the year. *)
Definition precioMedio (precioArr : list float) : float :=
  fold_left add precioArr 0 / 8760.

(** [diffPct(actual, referencia)] of js/app.js. *)
Definition diffPct (actual referencia : float) : float :=
  if referencia =? 0 then 0
  else (actual - referencia) / referencia * 100.

(** [SEF.PARAMS_DEFAULT] *)
Definition PARAMS_DEFAULT : Params := {|
  nuclear := 7.0; solar := 25.0; eolica := 31.0; hidraulica := 17.0;
  ccgt := 24.0; bateriasPotencia := 3.0; bateriasCapacidad := 10;
  bombeo := 3.5; bombeoCapacidad := 30; precioGas := 42; precioCO2 := 65;
  rendimientoCCGT := 0.55; omCCGT := 3.0; cargosSistema := 12.0;
  perdidasRed := 0.05; semilla := 42; demandaAnual := 260;
  hidraulicidad := 1.0; anioObjetivo := 2030; crecimientoDemanda := 0.6;
  electrificacionTWh := 2.0; eficienciaDemanda := 0.5;
  aplicarPlanNuclear := true; cierreNuclear := 2035;
  flexibilidadGW := 4.0; flexibilidadPct := 6; interconexion := 3.0;
  precioImport := 90; precioExport := 5; precioEscasez := 350
|}.

(** The default scenario with a large must-run fleet and a pumped store
    of 12 GW and 15.4 GWh. *)
Definition bombeoGrande : Params := {|
  nuclear := 100; solar := 25.0; eolica := 31.0; hidraulica := 17.0;
  ccgt := 24.0; bateriasPotencia := 3.0; bateriasCapacidad := 10;
  bombeo := 12; bombeoCapacidad := 15.4; precioGas := 42; precioCO2 := 65;
  rendimientoCCGT := 0.55; omCCGT := 3.0; cargosSistema := 12.0;
  perdidasRed := 0.05; semilla := 42; demandaAnual := 260;
  hidraulicidad := 1.0; anioObjetivo := 2030; crecimientoDemanda := 0.6;
  electrificacionTWh := 2.0; eficienciaDemanda := 0.5;
  aplicarPlanNuclear := false; cierreNuclear := 2035;
  flexibilidadGW := 4.0; flexibilidadPct := 6; interconexion := 3.0;
  precioImport := 90; precioExport := 5; precioEscasez := 350
|}.

(** A system of gas plants and an interconnection only: no must-run
    generation, hydro, storage or flexible demand. *)
Definition soloGas : Params := {|
  nuclear := 0; solar := 0; eolica := 0; hidraulica := 0;
  ccgt := 24.0; bateriasPotencia := 0; bateriasCapacidad := 0;
  bombeo := 0; bombeoCapacidad := 0; precioGas := 42; precioCO2 := 65;
  rendimientoCCGT := 0.55; omCCGT := 3.0; cargosSistema := 12.0;
  perdidasRed := 0.05; semilla := 42; demandaAnual := 260;
  hidraulicidad := 1.0; anioObjetivo := 2030; crecimientoDemanda := 0.6;
  electrificacionTWh := 2.0; eficienciaDemanda := 0.5;
  aplicarPlanNuclear := true; cierreNuclear := 2035;
  flexibilidadGW := 0; flexibilidadPct := 6; interconexion := 3.0;
  precioImport := 90; precioExport := 5; precioEscasez := 350
|}.


End Binary64.

(* ================================================================== *)
(** * Statements and scenarios used by the properties below *)
(* ================================================================== *)


(** The solar capacity factor as the specification words it: air mass
    [1 / sin(elevation)], with no cap. *)
Definition solarSegunSpec (dia hora nubes : R) : R :=
  let sinElev := sinElevacion dia hora in
  if le sinElev 0.01 then 0
  else
    let AM := 1 / sinElev in
    let transmitancia := 0.75 * Rpower 0.70 (Rpower AM 0.678) in
    Rmax 0 (Rmin 1 (sinElev * transmitancia * nubes * 1.35)).

(** The linear ramp of the specification: 1 up to the base year, 0 from
    the decommission year [cierre] on, linear in between. *)
Definition rampaNuclear (anio cierre : R) : R :=
  if le anio 2026 then 1
  else if le cierre anio then 0
  else 1 - (anio - 2026) / (cierre - 2026).

(** The effective nuclear capacity as the specification words it. *)
Definition nuclearSegunSpec (p : Params) : R :=
  if aplicarPlanNuclear p
  then nuclear p * rampaNuclear (anioObjetivo p) (cierreNuclear p)
  else nuclear p.

(** A configuration with one field replaced. *)
Definition conEscasez (p : Params) (v : R) : Params :=
  mkParams (nuclear p) (solar p) (eolica p) (hidraulica p) (ccgt p)
    (bateriasPotencia p) (bateriasCapacidad p) (bombeo p)
    (bombeoCapacidad p) (precioGas p) (precioCO2 p) (rendimientoCCGT p)
    (omCCGT p) (cargosSistema p) (perdidasRed p) (semilla p)
    (demandaAnual p) (hidraulicidad p) (anioObjetivo p)
    (crecimientoDemanda p) (electrificacionTWh p) (eficienciaDemanda p)
    (aplicarPlanNuclear p) (cierreNuclear p) (flexibilidadGW p)
    (flexibilidadPct p) (interconexion p) (precioImport p)
    (precioExport p) v.

(** A system with no generation, no storage, no flexibility and no
    interconnection: only the demand is left.  [perdidas] and [cargos]
    are the network-loss rate and the system charge, [escasez] the
    scarcity price and [gas] the installed gas capacity. *)
Definition sinRecursos (gas perdidas cargos escasez : R) : Params := {|
  nuclear := 0; solar := 0; eolica := 0; hidraulica := 0;
  ccgt := gas; bateriasPotencia := 0; bateriasCapacidad := 0;
  bombeo := 0; bombeoCapacidad := 0; precioGas := 42; precioCO2 := 65;
  rendimientoCCGT := 0.55; omCCGT := 3.0; cargosSistema := cargos;
  perdidasRed := perdidas; semilla := 42; demandaAnual := 260;
  hidraulicidad := 1.0; anioObjetivo := 2030; crecimientoDemanda := 0.6;
  electrificacionTWh := 2.0; eficienciaDemanda := 0.5;
  aplicarPlanNuclear := true; cierreNuclear := 2035;
  flexibilidadGW := 0; flexibilidadPct := 6; interconexion := 0;
  precioImport := 90; precioExport := 5; precioEscasez := escasez
|}.

(** The range in which every entry of the demand shape lies. *)
Definition entradaDemanda (v : R) : Prop := 0.5 <= v <= 7200.

(** A system whose nuclear fleet alone (no decommission plan) exceeds
    any demand the model can produce; [gas] is the installed gas
    capacity. *)
Definition soloNuclear (gas : R) : Params := {|
  nuclear := 1000000; solar := 0; eolica := 0; hidraulica := 0;
  ccgt := gas; bateriasPotencia := 0; bateriasCapacidad := 0;
  bombeo := 0; bombeoCapacidad := 0; precioGas := 42; precioCO2 := 65;
  rendimientoCCGT := 0.55; omCCGT := 3.0; cargosSistema := 12.0;
  perdidasRed := 0.05; semilla := 42; demandaAnual := 260;
  hidraulicidad := 1.0; anioObjetivo := 2030; crecimientoDemanda := 0.6;
  electrificacionTWh := 2.0; eficienciaDemanda := 0.5;
  aplicarPlanNuclear := false; cierreNuclear := 2035;
  flexibilidadGW := 0; flexibilidadPct := 6; interconexion := 0;
  precioImport := 90; precioExport := 5; precioEscasez := 350
|}.

(** The price of every hour of a system with no resources. *)
Definition precioSinRecursos (perd cargos esc : R) : R :=
  Rmin 500 (Rmax (-25) (Rmax 36 esc * (1 + perd) + cargos)).

(** The value [percentil] interpolates at the real position [k] of a
    sorted array. *)
Definition interpolar (sorted : list R) (k : R) : R :=
  let f := Zfloor k in
  let c := Zceil k in
  if (f =? c)%Z then nth (Z.to_nat f) sorted 0
  else nth (Z.to_nat f) sorted 0
       + (nth (Z.to_nat c) sorted 0 - nth (Z.to_nat f) sorted 0)
         * (k - IZR f).

(** The default scenario with the decommission year moved to the base
    year and a target half a year later. *)
Definition planAdelantado : Params := {|
  nuclear := 7.0; solar := 25.0; eolica := 31.0; hidraulica := 17.0;
  ccgt := 24.0; bateriasPotencia := 3.0; bateriasCapacidad := 10;
  bombeo := 3.5; bombeoCapacidad := 30; precioGas := 42; precioCO2 := 65;
  rendimientoCCGT := 0.55; omCCGT := 3.0; cargosSistema := 12.0;
  perdidasRed := 0.05; semilla := 42; demandaAnual := 260;
  hidraulicidad := 1.0; anioObjetivo := 2026.5; crecimientoDemanda := 0.6;
  electrificacionTWh := 2.0; eficienciaDemanda := 0.5;
  aplicarPlanNuclear := true; cierreNuclear := 2026;
  flexibilidadGW := 4.0; flexibilidadPct := 6; interconexion := 3.0;
  precioImport := 90; precioExport := 5; precioEscasez := 350
|}.

(** Gas output of hour [h] of the run. *)
Definition gasDe (p : Params) (h : nat) : R :=
  Gen.gas (gen (despacho (horaDe p h))).

(** The blocks starting at hour [h] are contiguous, last between 48 and
    167 hours each, have an intensity in [0, 1) and reach the end of the
    year. *)
Fixpoint cubre (h : Z) (bloques : list Bloque) : Prop :=
  match bloques with
  | [] => (Z.of_nat HORAS_ANIO <= h)%Z
  | b :: resto =>
      inicio b = h /\ (48 <= duracion b <= 167)%Z /\
      0 <= intensidad b < 1 /\ cubre (h + duracion b) resto
  end.

(** A configuration with the efficiency of the gas plants replaced. *)
Definition conRendimiento (p : Params) (r : R) : Params :=
  mkParams (nuclear p) (solar p) (eolica p) (hidraulica p) (ccgt p)
    (bateriasPotencia p) (bateriasCapacidad p) (bombeo p)
    (bombeoCapacidad p) (precioGas p) (precioCO2 p) r
    (omCCGT p) (cargosSistema p) (perdidasRed p) (semilla p)
    (demandaAnual p) (hidraulicidad p) (anioObjetivo p)
    (crecimientoDemanda p) (electrificacionTWh p) (eficienciaDemanda p)
    (aplicarPlanNuclear p) (cierreNuclear p) (flexibilidadGW p)
    (flexibilidadPct p) (interconexion p) (precioImport p)
    (precioExport p) (precioEscasez p).


(** The sum of one field over the hours of an array. *)
Definition suma {A : Type} (f : A -> R) (l : list A) : R :=
  fold_left (fun s x => s + f x) l 0.

(** The number of entries of an array that pass a test. *)
Definition contar {A : Type} (f : A -> bool) (l : list A) : nat :=
  length (filter f l).

(** The conditions on a configuration under which the bounds on the
    storage levels, the flows and the prices are proved. *)
Definition configuracionValida (p : Params) : Prop :=
  0 <= nuclear p /\ 0 <= solar p /\ 0 <= eolica p /\ 0 <= hidraulica p /\
  0 <= ccgt p /\ 0 <= bateriasPotencia p /\ 0 <= bateriasCapacidad p /\
  0 <= bombeo p /\ 0 <= bombeoCapacidad p /\ 0 <= interconexion p /\
  0 <= flexibilidadGW p /\ -1 <= perdidasRed p /\
  0.45 <= rendimientoCCGT p /\ 0 <= semilla p.

(* ================================================================== *)
(** * Basic facts: comparisons, generators, loops *)
(* ================================================================== *)

Lemma gt_true_iff (x y : R) : gt x y = true <-> y < x.
Proof.
  unfold gt; destruct (Rlt_dec y x); split; intros; (lra || congruence).
Qed.

Lemma gt_false_iff (x y : R) : gt x y = false <-> x <= y.
Proof.
  unfold gt; destruct (Rlt_dec y x); split; intros; (lra || congruence).
Qed.

Lemma lt_true_iff (x y : R) : lt x y = true <-> x < y.
Proof.
  unfold lt; destruct (Rlt_dec x y); split; intros; (lra || congruence).
Qed.

Lemma lt_false_iff (x y : R) : lt x y = false <-> y <= x.
Proof.
  unfold lt; destruct (Rlt_dec x y); split; intros; (lra || congruence).
Qed.

Lemma le_true_iff (x y : R) : le x y = true <-> x <= y.
Proof.
  unfold le; destruct (Rle_dec x y); split; intros; (lra || congruence).
Qed.

Lemma le_false_iff (x y : R) : le x y = false <-> y < x.
Proof.
  unfold le; destruct (Rle_dec x y); split; intros; (lra || congruence).
Qed.

(** Turns the boolean tests recorded in the context into inequalities,
    one case for each way a conjunction of tests can fail. *)
Ltac a_prop :=
  repeat match goal with
  | H : true = false |- _ => discriminate H
  | H : false = true |- _ => discriminate H
  | H : _ && _ = true |- _ => apply andb_true_iff in H; destruct H
  | H : _ && _ = false |- _ => apply andb_false_iff in H; destruct H
  | H : gt _ _ = true |- _ => apply gt_true_iff in H
  | H : gt _ _ = false |- _ => apply gt_false_iff in H
  | H : lt _ _ = true |- _ => apply lt_true_iff in H
  | H : lt _ _ = false |- _ => apply lt_false_iff in H
  | H : le _ _ = true |- _ => apply le_true_iff in H
  | H : le _ _ = false |- _ => apply le_false_iff in H
  end.

(** Splits on every closed test of the goal. *)
Ltac casos :=
  repeat (match goal with
          | |- context [if ?c then _ else _] =>
              let E := fresh "E" in destruct c eqn:E
          end; cbv beta iota zeta).

Lemma Rmin_casos (a b : R) :
  (a <= b /\ Rmin a b = a) \/ (b <= a /\ Rmin a b = b).
Proof. unfold Rmin; destruct (Rle_dec a b); lra. Qed.

Lemma Rmax_casos (a b : R) :
  (a <= b /\ Rmax a b = b) \/ (b <= a /\ Rmax a b = a).
Proof. unfold Rmax; destruct (Rle_dec a b); lra. Qed.

(** Records, for each minimum of the goal, that it is a lower bound of
    its two arguments, and forgets the rest. *)
Ltac cotas_min :=
  repeat match goal with
  | |- context [Rmin ?a ?b] =>
      let m := fresh "m" in
      pose proof (Rmin_l a b); pose proof (Rmin_r a b);
      set (m := Rmin a b) in *; clearbody m
  end.

(** Splits on which argument each minimum and maximum is. *)
Ltac partir_en a b lema :=
  let m := fresh "m" in
  let Hm := fresh "Hm" in
  destruct (lema a b) as [[? Hm] | [? Hm]];
  rewrite Hm in *; clear Hm.

Ltac partir_minmax :=
  repeat match goal with
  | |- context [Rmin ?a ?b] => partir_en a b Rmin_casos
  | |- context [Rmax ?a ?b] => partir_en a b Rmax_casos
  | H : context [Rmin ?a ?b] |- _ => partir_en a b Rmin_casos
  | H : context [Rmax ?a ?b] |- _ => partir_en a b Rmax_casos
  end.

Lemma mesDe_le (dia : nat) : (mesDe dia <= dia)%nat.
Proof.
  unfold mesDe. apply Nat.Div0.div_le_upper_bound. lia.
Qed.

(** [mesDe] is [Math.floor(dia / 30.5)]. *)
Lemma floor_30_5 (dia : nat) : Zfloor (INR dia / 30.5) = Z.of_nat (mesDe dia).
Proof.
  apply Zfloor_eq. unfold mesDe.
  pose proof (Nat.div_mod_eq (2 * dia) 61) as D.
  pose proof (Nat.mod_upper_bound (2 * dia) 61 ltac:(lia)) as U.
  set (q := (2 * dia / 61)%nat) in *.
  set (r := ((2 * dia) mod 61)%nat) in *.
  assert (Hd : 2 * INR dia = 61 * INR q + INR r).
  { replace 2 with (INR 2) by (simpl; lra).
    replace 61 with (INR 61) by (rewrite INR_IZR_INZ; simpl; lra).
    rewrite <- !mult_INR, <- plus_INR. f_equal. lia. }
  assert (Hr0 : 0 <= INR r) by apply pos_INR.
  assert (Hr1 : INR r <= 60).
  { replace 60 with (INR 60) by (rewrite INR_IZR_INZ; simpl; lra).
    apply le_INR. lia. }
  rewrite <- INR_IZR_INZ. lra.
Qed.

Lemma forRng_S {S : Type} (n : nat) (body : nat -> S -> Rng S) (s : S)
  (seed : R) :
  forRng (Datatypes.S n) body s seed =
  body n (fst (forRng n body s seed)) (snd (forRng n body s seed)).
Proof.
  cbn [forRng]. unfold bind. destruct (forRng n body s seed). reflexivity.
Qed.

(** [next()] returns a value in [0, 1). *)
Lemma next_rango (seed : R) : 0 <= fst (next seed) < 1.
Proof.
  unfold next; cbv zeta; cbn [fst].
  pose proof (Zfloor_bound (sin (seed * 9301 + 49297) * 49271)). lra.
Qed.

Lemma bucle_S (p : Params) (n : nat) :
  bucle p (S n) =
  (avanzar p (fst (bucle p n)) (horaDe p n),
   snd (horaSim p (entornoDe p) n (fst (bucle p n)) (snd (bucle p n)))).
Proof.
  unfold bucle at 1. rewrite forRng_S. fold (bucle p n).
  unfold horaDe. destruct (bucle p n) as [st s]. cbn [fst snd].
  unfold pasoHora, bind, ret.
  destruct (horaSim p (entornoDe p) n st s); reflexivity.
Qed.

(* ================================================================== *)
(** * The two branches of the dispatch *)
(* ================================================================== *)

Ltac campos :=
  cbn [gen bateriaTras bombeoTras flexUp flexDown redujoDemanda deficitFinal
       Gen.nuclear Gen.solar Gen.eolica Gen.hidraulica Gen.gas Gen.baterias
       Gen.bombeo Gen.vertido Gen.cargaBaterias Gen.cargaBombeo
       Gen.importacion Gen.exportacion].

Lemma ramaExcedente_balance p flexCap gn gs ge exc eB eBo :
  0 < exc ->
  let d := ramaExcedente p flexCap gn gs ge exc eB eBo in
  exc = Gen.cargaBaterias (gen d) + Gen.cargaBombeo (gen d) + flexUp d
        + Gen.exportacion (gen d) + Gen.vertido (gen d).
Proof.
  intros Hexc. unfold ramaExcedente. cbv zeta.
  casos; campos; a_prop; cotas_min; partir_minmax; lra.
Qed.

Lemma ramaExcedente_ceros p flexCap gn gs ge exc eB eBo :
  let d := ramaExcedente p flexCap gn gs ge exc eB eBo in
  Gen.hidraulica (gen d) = 0 /\ Gen.gas (gen d) = 0 /\
  Gen.baterias (gen d) = 0 /\ Gen.bombeo (gen d) = 0 /\
  Gen.importacion (gen d) = 0 /\ flexDown d = 0 /\
  redujoDemanda d = false /\ deficitFinal d = 0.
Proof.
  unfold ramaExcedente. cbv zeta. casos; campos; repeat split; reflexivity.
Qed.

Lemma ramaExcedente_base p flexCap gn gs ge exc eB eBo :
  let d := ramaExcedente p flexCap gn gs ge exc eB eBo in
  Gen.nuclear (gen d) = gn /\ Gen.solar (gen d) = gs /\
  Gen.eolica (gen d) = ge.
Proof.
  unfold ramaExcedente. cbv zeta. casos; campos; repeat split; reflexivity.
Qed.

Lemma ramaExcedente_niveles p flexCap gn gs ge exc eB eBo :
  0 < exc ->
  0 <= bateriasPotencia p -> 0 <= bombeo p ->
  0 <= eB <= bateriasCapacidad p ->
  0 <= eBo <= bombeoCapacidad p ->
  let d := ramaExcedente p flexCap gn gs ge exc eB eBo in
  0 <= bateriaTras d <= bateriasCapacidad p /\
  0 <= bombeoTras d <= bombeoCapacidad p.
Proof.
  intros Hexc Hp Hb HB HBo. unfold ramaExcedente. cbv zeta.
  unfold EFICIENCIA_BAT, EFICIENCIA_BOMBEO.
  casos; campos; a_prop; partir_minmax; lra.
Qed.

Lemma ramaDeficit_balance p flexCap gn gs ge dia hora exc eB eBo gasAnt :
  let d := ramaDeficit p flexCap gn gs ge dia hora exc eB eBo gasAnt in
  - exc = Gen.hidraulica (gen d) + Gen.baterias (gen d) + Gen.bombeo (gen d)
          + flexDown d + Gen.importacion (gen d) + Gen.gas (gen d)
          + deficitFinal d.
Proof.
  unfold ramaDeficit. cbv zeta. casos; campos; lra.
Qed.

Lemma ramaDeficit_ceros p flexCap gn gs ge dia hora exc eB eBo gasAnt :
  let d := ramaDeficit p flexCap gn gs ge dia hora exc eB eBo gasAnt in
  Gen.vertido (gen d) = 0 /\ Gen.cargaBaterias (gen d) = 0 /\
  Gen.cargaBombeo (gen d) = 0 /\ Gen.exportacion (gen d) = 0 /\
  flexUp d = 0.
Proof.
  unfold ramaDeficit. cbv zeta. casos; campos; repeat split; reflexivity.
Qed.

Lemma ramaDeficit_base p flexCap gn gs ge dia hora exc eB eBo gasAnt :
  let d := ramaDeficit p flexCap gn gs ge dia hora exc eB eBo gasAnt in
  Gen.nuclear (gen d) = gn /\ Gen.solar (gen d) = gs /\
  Gen.eolica (gen d) = ge.
Proof.
  unfold ramaDeficit. cbv zeta. casos; campos; repeat split; reflexivity.
Qed.

(** The unserved remainder is never negative, and the flexible demand
    moved downwards is positive exactly when step 7 was entered. *)
Lemma ramaDeficit_resto p flexCap gn gs ge dia hora exc eB eBo gasAnt :
  exc <= 0 ->
  let d := ramaDeficit p flexCap gn gs ge dia hora exc eB eBo gasAnt in
  0 <= deficitFinal d /\ 0 <= flexDown d /\
  (redujoDemanda d = true <-> 0 < flexDown d).
Proof.
  intros Hexc. unfold ramaDeficit. cbv zeta.
  set (hd := hidraulica p * calcularHidro p dia hora). clearbody hd.
  casos; campos; a_prop; partir_minmax;
    (split; [lra | split; [lra | split; intros; (lra || congruence)]]).
Qed.

Lemma ramaDeficit_niveles p flexCap gn gs ge dia hora exc eB eBo gasAnt :
  0 <= bateriasPotencia p -> 0 <= bombeo p ->
  0 <= eB <= bateriasCapacidad p ->
  0 <= eBo <= bombeoCapacidad p ->
  let d := ramaDeficit p flexCap gn gs ge dia hora exc eB eBo gasAnt in
  0 <= bateriaTras d <= bateriasCapacidad p /\
  0 <= bombeoTras d <= bombeoCapacidad p.
Proof.
  intros Hp Hb HB HBo. unfold ramaDeficit. cbv zeta.
  set (hd := hidraulica p * calcularHidro p dia hora). clearbody hd.
  casos; campos; a_prop; partir_minmax; lra.
Qed.

Lemma ramaDeficit_gas p flexCap gn gs ge dia hora exc eB eBo gasAnt :
  0 <= ccgt p -> 0 <= gasAnt ->
  let d := ramaDeficit p flexCap gn gs ge dia hora exc eB eBo gasAnt in
  0 <= Gen.gas (gen d) <= ccgt p /\
  Gen.gas (gen d) <= gasAnt + ccgt p * RAMPA_CCGT.
Proof.
  intros Hc Hg. unfold ramaDeficit. cbv zeta. unfold RAMPA_CCGT.
  set (hd := hidraulica p * calcularHidro p dia hora). clearbody hd.
  casos; campos; a_prop; partir_minmax; lra.
Qed.

(* ================================================================== *)
(** * One hour of the loop *)
(* ================================================================== *)

(** The fields of the record of one hour, in terms of the state the hour
    starts from and of the cloud draw. *)
Lemma horaSim_forma p e h st s :
  let hr := fst (horaSim p e h st s) in
  let dem := demandaMediaGW e * nth h (serieDemanda e) 0 in
  let flexCap := Rmin (flexibilidadGW p) (dem * (flexibilidadPct p / 100)) in
  let gn := nuclearGW e * FC_NUCLEAR in
  let gs := solar p * calcularSolar (INR (h / 24)) (INR (h mod 24))
                        (0.65 + fst (next s) * 0.35) in
  let ge := eolica p * nth h (serieViento e) 0 in
  let g := gen (despacho hr) in
  demandaGW hr = dem /\
  genBase hr = gn + gs + ge /\
  despacho hr =
    (if gt (gn + gs + ge - dem) 0
     then ramaExcedente p flexCap gn gs ge (gn + gs + ge - dem)
            (estadoBateria st) (estadoBombeo st)
     else ramaDeficit p flexCap gn gs ge (h / 24) (h mod 24)
            (gn + gs + ge - dem)
            (estadoBateria st) (estadoBombeo st) (gasAnterior st)) /\
  ctx hr =
    Ctx.mk (Gen.importacion g) (Gen.exportacion g)
      (Rmax 0 (dem - (gn + gs + ge) - Gen.hidraulica g - Gen.baterias g
               - Gen.bombeo g - Gen.gas g - Gen.importacion g)) /\
  precio hr =
    calcularPrecioMarginal p g dem
      (if gt dem 0 then (gn + gs + ge) / dem else 0) (ctx hr)
      (gasAnterior st) /\
  snd (horaSim p e h st s) = snd (next s).
Proof.
  unfold horaSim, bind, ret. destruct (next s) as [u s'].
  cbn [fst snd demandaGW genBase despacho ctx precio].
  repeat split; reflexivity.
Qed.

Ltac usar_excedente L :=
  match goal with
  | |- context [ramaExcedente ?p ?f ?a ?b ?c ?x ?eb ?ebo] =>
      let B := fresh "B" in
      pose proof (L p f a b c x eb ebo) as B; cbv zeta in B
  end.

Ltac usar_deficit L :=
  match goal with
  | |- context [ramaDeficit ?p ?f ?a ?b ?c ?d ?h ?x ?eb ?ebo ?ga] =>
      let B := fresh "B" in
      pose proof (L p f a b c d h x eb ebo ga) as B; cbv zeta in B
  end.


(** The deficit handed to the price formation. *)
Lemma horaSim_ctx p e h st s :
  let hr := fst (horaSim p e h st s) in
  let d := despacho hr in
  Ctx.deficit (ctx hr) = deficitFinal d + flexDown d /\
  (0 < genBase hr - demandaGW hr -> Ctx.deficit (ctx hr) = 0) /\
  (deficitFinal d < Ctx.deficit (ctx hr) <-> redujoDemanda d = true).
Proof.
  destruct (horaSim_forma p e h st s) as (Hd & Hb & Hdes & Hctx & _).
  cbv zeta. rewrite Hd, Hb, Hctx, Hdes. cbn [Ctx.deficit].
  destruct (gt _ 0) eqn:E; a_prop.
  - usar_excedente ramaExcedente_balance. specialize (B E).
    usar_excedente ramaExcedente_ceros.
    destruct B0 as (Z1 & Z2 & Z3 & Z4 & Z5 & Z6 & Z7 & Z8).
    rewrite Z1, Z2, Z3, Z4, Z5, Z6, Z7, Z8.
    rewrite Rmax_left by lra.
    split; [lra | split; [reflexivity |]].
    split; intros; (lra || congruence).
  - usar_deficit ramaDeficit_balance.
    usar_deficit ramaDeficit_resto. specialize (B0 E).
    destruct B0 as (R1 & R2 & R3).
    rewrite Rmax_right by lra.
    split; [lra | split; [intros; lra |]].
    rewrite R3. split; intros; lra.
Qed.

(** The storage levels stay inside the reservoirs during the hour. *)
Lemma horaSim_niveles p e h st s :
  0 <= bateriasPotencia p -> 0 <= bombeo p ->
  0 <= estadoBateria st <= bateriasCapacidad p ->
  0 <= estadoBombeo st <= bombeoCapacidad p ->
  let d := despacho (fst (horaSim p e h st s)) in
  0 <= bateriaTras d <= bateriasCapacidad p /\
  0 <= bombeoTras d <= bombeoCapacidad p.
Proof.
  intros Hp Hbo HB HBo.
  destruct (horaSim_forma p e h st s) as (Hd & Hb & Hdes & _).
  cbv zeta. rewrite Hdes.
  destruct (gt _ 0) eqn:E; a_prop.
  - usar_excedente ramaExcedente_niveles. auto.
  - usar_deficit ramaDeficit_niveles. auto.
Qed.

(** Gas output of one hour against the capacity and the ramp limit. *)
Lemma horaSim_gas p e h st s :
  0 <= ccgt p -> 0 <= gasAnterior st ->
  let g := gen (despacho (fst (horaSim p e h st s))) in
  0 <= Gen.gas g <= ccgt p /\
  Gen.gas g <= gasAnterior st + ccgt p * RAMPA_CCGT.
Proof.
  intros Hc Hg.
  destruct (horaSim_forma p e h st s) as (Hd & Hb & Hdes & _).
  cbv zeta. rewrite Hdes.
  destruct (gt _ 0) eqn:E; a_prop.
  - usar_excedente ramaExcedente_ceros.
    destruct B as (_ & Z2 & _). rewrite Z2. unfold RAMPA_CCGT. lra.
  - usar_deficit ramaDeficit_gas. auto.
Qed.

Lemma calcularPrecioMarginal_rango p g dem ratio c gasAnt :
  -25 <= calcularPrecioMarginal p g dem ratio c gasAnt <= 500.
Proof.
  unfold calcularPrecioMarginal. cbv zeta.
  split.
  - apply Rmin_glb; [lra | apply Rmax_l].
  - apply Rmin_l.
Qed.

Lemma horaSim_precio_rango p e h st s :
  -25 <= precio (fst (horaSim p e h st s)) <= 500.
Proof.
  destruct (horaSim_forma p e h st s) as (_ & _ & _ & _ & Hp & _).
  rewrite Hp. apply calcularPrecioMarginal_rango.
Qed.

(* ================================================================== *)
(** * The run, hour after hour *)
(* ================================================================== *)

Lemma HORAS_ANIO_eq : HORAS_ANIO = Z.to_nat 8760.
Proof. reflexivity. Qed.

Lemma INR_HORAS_ANIO : INR HORAS_ANIO = 8760.
Proof. rewrite HORAS_ANIO_eq, INR_IZR_INZ, Z2Nat.id by lia. reflexivity. Qed.

Lemma HORAS_ANIO_pos : (0 < HORAS_ANIO)%nat.
Proof. rewrite HORAS_ANIO_eq. lia. Qed.

Lemma horaDe_eq (p : Params) (h : nat) :
  horaDe p h =
  fst (horaSim p (entornoDe p) h (fst (bucle p h)) (snd (bucle p h))).
Proof. unfold horaDe. destruct (bucle p h); reflexivity. Qed.

Lemma bucle_0 (p : Params) :
  bucle p 0 =
  (estadoInicial p (calcularDemandaAjustada p) (calcularNuclearDisponible p),
   SeededRNG (semilla p * 11 + 37)).
Proof. reflexivity. Qed.

(** The state after hour [n], field by field. *)
Lemma bucle_S_estado (p : Params) (n : nat) :
  let st := fst (bucle p (S n)) in
  let d := despacho (horaDe p n) in
  estadoBateria st = bateriaTras d * (1 - AUTODESCARGA_BAT) /\
  estadoBombeo st = bombeoTras d /\
  gasAnterior st = Gen.gas (gen d) /\
  mix st = mix (fst (bucle p n)) ++ [gen d] /\
  precios st = precios (fst (bucle p n)) ++ [precio (horaDe p n)] /\
  demandaHorariaGW st =
    demandaHorariaGW (fst (bucle p n)) ++ [demandaGW (horaDe p n)].
Proof.
  rewrite bucle_S. cbn [fst]. unfold avanzar.
  cbn [estadoBateria estadoBombeo gasAnterior mix precios demandaHorariaGW].
  repeat split; reflexivity.
Qed.

(** The three arrays hold one entry per hour run, in order. *)
Lemma bucle_arrays (p : Params) (n : nat) :
  let st := fst (bucle p n) in
  length (mix st) = n /\ length (precios st) = n /\
  length (demandaHorariaGW st) = n /\
  forall h, (h < n)%nat ->
    nth h (mix st) Gen.cero = gen (despacho (horaDe p h)) /\
    nth h (precios st) 0 = precio (horaDe p h) /\
    nth h (demandaHorariaGW st) 0 = demandaGW (horaDe p h).
Proof.
  induction n as [|n IH].
  - rewrite bucle_0. cbn. repeat split; intros; lia.
  - destruct IH as (L1 & L2 & L3 & IH).
    destruct (bucle_S_estado p n) as (_ & _ & _ & M & P & D).
    cbv zeta. rewrite M, P, D. rewrite !length_app. cbn [length].
    repeat split; try lia.
    all: destruct (Nat.eq_dec h n) as [->|Hne];
      [ rewrite app_nth2 by lia;
        match goal with |- nth ?k _ _ = _ => replace k with 0%nat by lia end;
        reflexivity
      | rewrite app_nth1 by lia; apply IH; lia ].
Qed.

(** Storage levels at the start of every hour. *)
Lemma bucle_niveles (p : Params) (n : nat) :
  0 <= bateriasCapacidad p -> 0 <= bateriasPotencia p ->
  0 <= bombeoCapacidad p -> 0 <= bombeo p ->
  0 <= estadoBateria (fst (bucle p n)) <= bateriasCapacidad p /\
  0 <= estadoBombeo (fst (bucle p n)) <= bombeoCapacidad p.
Proof.
  intros Hc Hp Hbc Hb. induction n as [|n IH].
  - rewrite bucle_0. cbn [fst estadoInicial estadoBateria estadoBombeo]. lra.
  - destruct (bucle_S_estado p n) as (B & Bo & _). rewrite B, Bo.
    rewrite horaDe_eq.
    destruct IH as [IB IBo].
    pose proof (horaSim_niveles p (entornoDe p) n (fst (bucle p n))
                  (snd (bucle p n)) Hp Hb IB IBo) as N.
    cbv zeta in N. unfold AUTODESCARGA_BAT.
    destruct N as [[N1 N2] N3]. split; [|exact N3]. split; nra.
Qed.

(** The ramp reference at the start of every hour. *)
Lemma bucle_gasAnterior (p : Params) (n : nat) :
  0 <= ccgt p -> 0 <= gasAnterior (fst (bucle p n)).
Proof.
  intros Hc. induction n as [|n IH].
  - rewrite bucle_0. cbn [fst estadoInicial gasAnterior]. lra.
  - destruct (bucle_S_estado p n) as (_ & _ & G & _). rewrite G, horaDe_eq.
    apply (horaSim_gas p (entornoDe p) n _ _ Hc IH).
Qed.

(** The results, in terms of the state the loop ends in. *)
Lemma simularCon_estado (p : Params) :
  let st := fst (bucle p HORAS_ANIO) in
  contadores (simularCon p) = acum st /\
  r_mix (simularCon p) = mix st /\
  r_precios (simularCon p) = precios st /\
  demandaHoraria (simularCon p) = demandaHorariaGW st /\
  precioP10 (simularCon p) = percentil (precios st) 10 /\
  precioMediana (simularCon p) = percentil (precios st) 50 /\
  precioP90 (simularCon p) = percentil (precios st) 90.
Proof.
  unfold simularCon, agregar. cbv zeta.
  cbn [contadores r_mix r_precios demandaHoraria precioP10 precioMediana
       precioP90].
  repeat split; reflexivity.
Qed.

(* ================================================================== *)
(** * The generated series *)
(* ================================================================== *)

(** An invariant of the loop state carries through [forRng]. *)
Lemma forRng_inv {S : Type} (P : nat -> S -> Prop)
  (body : nat -> S -> Rng S) (s0 : S) :
  P 0%nat s0 ->
  (forall k s seed, P k s -> P (Datatypes.S k) (fst (body k s seed))) ->
  forall n seed, P n (fst (forRng n body s0 seed)).
Proof.
  intros H0 Hstep. induction n as [|n IH]; intros seed.
  - exact H0.
  - rewrite forRng_S. apply Hstep, IH.
Qed.

Lemma ln_cota_inf (x : R) : 0 < x -> 1 - / x <= ln x.
Proof.
  intros Hx.
  pose proof (exp_ineq1_le (- ln x)) as H.
  rewrite exp_Ropp, exp_ln in H by assumption. lra.
Qed.

(** The normal variate is at most 200000 standard deviations away from
    the mean: the first uniform draw is kept above 1e-10. *)
Lemma gauss_cota (media sigma seed : R) :
  0 <= sigma ->
  media - sigma * 200000 <= fst (gauss media sigma seed)
  <= media + sigma * 200000.
Proof.
  intros Hsig.
  unfold gauss, bind, ret.
  destruct (next seed) as [v1 s1]. destruct (next s1) as [u2 s2].
  cbn [fst].
  set (u1 := Rmax 1e-10 v1).
  assert (Hu : 1e-10 <= u1) by apply Rmax_l.
  assert (Hln : -10000000000 <= ln u1).
  { pose proof (ln_cota_inf u1 ltac:(lra)) as L.
    assert (/ u1 <= 10000000000).
    { replace 10000000000 with (/ 1e-10) by lra.
      apply Rinv_le_contravar; lra. }
    lra. }
  assert (Hs : 0 <= sqrt (-2 * ln u1) <= 200000).
  { split; [apply sqrt_pos|].
    replace 200000 with (sqrt (200000 * 200000))
      by (apply sqrt_square; lra).
    apply sqrt_le_1_alt. lra. }
  pose proof (COS_bound (2 * PI * u2)) as Hc.
  set (r := sqrt (-2 * ln u1)) in *. set (c := cos (2 * PI * u2)) in *.
  clearbody r c.
  assert (-200000 <= r * c <= 200000) by nra.
  split; nra.
Qed.

Lemma TEMP_MENSUAL_cotas (mes : nat) : 0 <= nth mes TEMP_MENSUAL 0 <= 27.
Proof.
  unfold TEMP_MENSUAL.
  do 12 (destruct mes as [|mes]; [cbn [nth]; lra|]).
  destruct mes; cbn [nth]; lra.
Qed.

Lemma exp_menos_cuadrado (y : R) : 0 < exp (- cuadrado y) <= 1.
Proof.
  split; [apply exp_pos|].
  assert (H : 0 <= cuadrado y) by (unfold cuadrado; nra).
  destruct H as [H|H].
  - left. rewrite <- exp_0. apply exp_increasing. lra.
  - rewrite <- H, Ropp_0, exp_0. lra.
Qed.

(** Every entry of the demand shape is positive and bounded. *)
Lemma demandaHora_cotas (i : nat) (seed : R) :
  0.5 <= fst (demandaHora i seed) <= 7200.
Proof.
  unfold demandaHora. cbv zeta. unfold bind, ret.
  pose proof (gauss_cota 0 1.5 seed ltac:(lra)) as G.
  destruct (gauss 0 1.5 seed) as [ruido s1]. cbn [fst] in G.
  pose proof (next_rango s1) as N.
  destruct (next s1) as [u s2]. cbn [fst] in N |- *.
  pose proof (TEMP_MENSUAL_cotas (mesDe (i / 24) mod 12)) as T.
  set (tb := nth (mesDe (i / 24) mod 12) TEMP_MENSUAL 0) in *.
  pose proof (SIN_bound ((INR (i mod 24) - 6) * PI / 12)) as S.
  set (sn := sin ((INR (i mod 24) - 6) * PI / 12)) in *.
  set (temp := tb + 4.5 * sn + ruido).
  set (ft := if gt temp 25 then 1 + (temp - 25) * 0.018
             else if lt temp 15 then 1 + (15 - temp) * 0.013 else 1.0).
  assert (Hft : 1 <= ft <= 5500).
  { unfold ft. unfold temp. casos; a_prop; lra. }
  clearbody ft.
  pose proof (exp_menos_cuadrado ((INR (i mod 24) - 10) / 2.8)) as H1.
  pose proof (exp_menos_cuadrado ((INR (i mod 24) - 20) / 2.5)) as H2.
  set (e1 := exp (- cuadrado ((INR (i mod 24) - 10) / 2.8))) in *.
  set (e2 := exp (- cuadrado ((INR (i mod 24) - 20) / 2.5))) in *.
  set (fl := if (i / 24 mod 7 <? 5)%nat then 1.04 else 0.87).
  assert (Hfl : 0.87 <= fl <= 1.04) by (unfold fl; casos; lra).
  clearbody fl e1 e2.
  set (a := 0.62 + e1 * 0.28 + e2 * 0.32).
  assert (Ha : 0.62 <= a <= 1.22) by (unfold a; lra).
  clearbody a.
  assert (Hab : 0.5394 <= a * fl <= 1.2688) by nra.
  set (ab := a * fl) in *. clearbody ab.
  assert (Habc : 0.5394 <= ab * ft <= 6978.4) by nra.
  set (abc := ab * ft) in *. clearbody abc.
  nra.
Qed.
Lemma serieDemanda_cotas (n : nat) (seed : R) :
  let serie := fst (forRng n pasoDemanda [] seed) in
  length serie = n /\ Forall entradaDemanda serie.
Proof.
  apply (forRng_inv (fun k l => length l = k /\ Forall entradaDemanda l)).
  - split; [reflexivity | constructor].
  - intros k l s [L F]. unfold pasoDemanda, bind, ret.
    pose proof (demandaHora_cotas k s) as D.
    destruct (demandaHora k s) as [v s']. cbn [fst] in *.
    split.
    + rewrite length_app. cbn [length]. lia.
    + apply Forall_app. split; [exact F | constructor; [exact D | constructor]].
Qed.

Lemma calcularDemandaAjustada_rango (p : Params) :
  180 <= calcularDemandaAjustada p <= 360.
Proof.
  unfold calcularDemandaAjustada. cbv zeta.
  split; [apply Rmax_l|].
  apply Rmax_lub; [lra|]. apply Rmin_l.
Qed.

(** The demand of every hour of the year is between 10 and 300000 GW. *)
Lemma demanda_cotas (p : Params) (h : nat) :
  (h < HORAS_ANIO)%nat ->
  10 <= demandaMediaGW (entornoDe p) * nth h (serieDemanda (entornoDe p)) 0
     <= 300000.
Proof.
  intros Hh. unfold entornoDe. cbv zeta. cbn [demandaMediaGW serieDemanda].
  rewrite INR_HORAS_ANIO.
  pose proof (calcularDemandaAjustada_rango p) as D.
  destruct (serieDemanda_cotas HORAS_ANIO (SeededRNG (semilla p * 3 + 7)))
    as [L F].
  fold generarSerieDemanda in L, F.
  set (serie := fst (generarSerieDemanda (SeededRNG (semilla p * 3 + 7)))) in *.
  assert (E : entradaDemanda (nth h serie 0)).
  { rewrite Forall_forall in F. apply F, nth_In. lia. }
  unfold entradaDemanda in E. clearbody serie.
  set (v := nth h serie 0) in *. clearbody v.
  set (D0 := calcularDemandaAjustada p) in *. clearbody D0.
  split; nra.
Qed.

Lemma demandaGW_horaDe (p : Params) (h : nat) :
  demandaGW (horaDe p h) =
  demandaMediaGW (entornoDe p) * nth h (serieDemanda (entornoDe p)) 0.
Proof.
  rewrite horaDe_eq.
  destruct (horaSim_forma p (entornoDe p) h (fst (bucle p h))
              (snd (bucle p h))) as (H & _).
  exact H.
Qed.

(* ================================================================== *)
(** * Two extreme systems *)
(* ================================================================== *)

Lemma calcularNuclearDisponible_cero (p : Params) :
  nuclear p = 0 -> calcularNuclearDisponible p = 0.
Proof.
  intros H. unfold calcularNuclearDisponible. rewrite H. cbv zeta.
  destruct (negb (aplicarPlanNuclear p)); [reflexivity|].
  rewrite Rmult_0_l. apply Rmax_left. lra.
Qed.

(** The deficit branch of a system with no resources dispatches
    nothing. *)
Lemma ramaDeficit_sinRecursos perd cargos esc flexCap dia hora dem :
  flexCap <= 0 -> 0 < dem ->
  let d := ramaDeficit (sinRecursos 0 perd cargos esc) flexCap 0 0 0
             dia hora (0 - dem) 0 0 0 in
  gen d = Gen.cero /\ flexDown d = 0 /\ deficitFinal d = dem /\
  bateriaTras d = 0 /\ bombeoTras d = 0.
Proof.
  intros Hf Hdem. unfold ramaDeficit. cbv zeta.
  cbn [sinRecursos hidraulica bateriasPotencia bombeo interconexion ccgt].
  rewrite !Rmult_0_l, !Rplus_0_l.
  casos; campos; a_prop; try (exfalso; partir_minmax; lra).
  all: repeat split; try (unfold Gen.cero; f_equal); partir_minmax; lra.
Qed.

(** One hour of a system with no resources: nothing is dispatched, the
    whole demand is left unserved and the price is the scarcity price
    (or the renewable-only price of 36, whichever is higher) passed
    through the regulated adjustment. *)
Lemma horaSim_sinRecursos perd cargos esc e h st s :
  let p := sinRecursos 0 perd cargos esc in
  let dem := demandaMediaGW e * nth h (serieDemanda e) 0 in
  nuclearGW e = 0 ->
  estadoBateria st = 0 -> estadoBombeo st = 0 -> gasAnterior st = 0 ->
  1 <= dem ->
  let hr := fst (horaSim p e h st s) in
  demandaGW hr = dem /\ genBase hr = 0 /\
  gen (despacho hr) = Gen.cero /\
  flexDown (despacho hr) = 0 /\
  deficitFinal (despacho hr) = dem /\
  bateriaTras (despacho hr) = 0 /\ bombeoTras (despacho hr) = 0 /\
  precio hr = Rmin 500 (Rmax (-25) (Rmax 36 esc * (1 + perd) + cargos)).
Proof.
  intros p dem Hn HB HBo Hg Hdem hr.
  destruct (horaSim_forma p e h st s) as (Hd & Hb & Hdes & Hctx & Hp & _).
  fold hr in Hd, Hb, Hdes, Hctx, Hp. fold dem in Hd, Hdes, Hctx, Hp.
  rewrite Hn, HB, HBo, Hg in *.
  cbn [p sinRecursos solar eolica flexibilidadGW flexibilidadPct] in *.
  rewrite !Rmult_0_l, !Rplus_0_l in *.
  assert (Eg : gt (0 - dem) 0 = false) by (apply gt_false_iff; lra).
  rewrite Eg in Hdes.
  destruct (ramaDeficit_sinRecursos perd cargos esc
              (Rmin 0 (dem * (6 / 100))) (h / 24) (h mod 24) dem
              (Rmin_l _ _) ltac:(lra)) as (D1 & D2 & D3 & D4 & D5).
  fold p in D1, D2, D3, D4, D5. rewrite <- Hdes in D1, D2, D3, D4, D5.
  rewrite D1 in *.
  rewrite Hctx in Hp.
  cbn [Gen.cero Gen.hidraulica Gen.baterias Gen.bombeo Gen.gas
       Gen.importacion Gen.exportacion] in Hp.
  repeat split; try assumption; try reflexivity.
  rewrite Hp. unfold calcularPrecioMarginal. cbv zeta.
  assert (Gd : gt dem 0 = true) by (apply gt_true_iff; lra).
  rewrite Gd. unfold Rdiv at 1. rewrite Rmult_0_l.
  unfold precioTecnologia, sueloImportacion, techoExportacion, sueloEscasez.
  cbv zeta. cbn [Ctx.importacion Ctx.exportacion Ctx.deficit Gen.cero Gen.gas
                 Gen.hidraulica sinRecursos precioEscasez perdidasRed
                 cargosSistema].
  assert (G1 : gt 0 1.20 = false) by (apply gt_false_iff; lra).
  assert (G2 : gt 0 1.05 = false) by (apply gt_false_iff; lra).
  assert (G3 : gt 0 0.3 = false) by (apply gt_false_iff; lra).
  assert (G4 : gt 0 0.5 = false) by (apply gt_false_iff; lra).
  assert (G5 : gt 0 0 = false) by (apply gt_false_iff; lra).
  rewrite G1, G2, G3, G4, G5.
  replace (dem - 0 - 0 - 0 - 0 - 0 - 0) with dem by ring.
  rewrite (Rmax_right 0 dem) by lra.
  assert (G6 : gt dem 0.3 = true) by (apply gt_true_iff; lra).
  rewrite G6.
  rewrite (Rmax_right 1 dem) by lra.
  replace (dem / dem) with 1 by (field; lra).
  rewrite (Rmin_left 1 (1 * 4)) by lra.
  replace (6 + (1 - 0) * 30) with 36 by ring.
  rewrite Rmult_1_r. reflexivity.
Qed.

Lemma entornoDe_sinRecursos perd cargos esc :
  nuclearGW (entornoDe (sinRecursos 0 perd cargos esc)) = 0.
Proof.
  unfold entornoDe. cbv zeta. cbn [nuclearGW].
  apply calcularNuclearDisponible_cero. reflexivity.
Qed.

(** A system with no resources keeps its storage empty and its gas
    idle, and every hour has the same price. *)
Lemma bucle_sinRecursos perd cargos esc (n : nat) :
  (n <= HORAS_ANIO)%nat ->
  let p := sinRecursos 0 perd cargos esc in
  let st := fst (bucle p n) in
  estadoBateria st = 0 /\ estadoBombeo st = 0 /\ gasAnterior st = 0 /\
  horasPrecioAlto (acum st) =
    (n * uno_si (gt (precioSinRecursos perd cargos esc) 150))%nat.
Proof.
  intros Hn p. induction n as [|n IH]; cbv zeta.
  - rewrite bucle_0. cbn. repeat split; lra.
  - destruct (IH ltac:(lia)) as (B & Bo & G & A). clear IH.
    rewrite bucle_S. cbn [fst]. rewrite horaDe_eq.
    pose proof (demanda_cotas p n ltac:(lia)) as D.
    destruct (horaSim_sinRecursos perd cargos esc (entornoDe p) n
                (fst (bucle p n)) (snd (bucle p n))
                (entornoDe_sinRecursos perd cargos esc) B Bo G ltac:(lra))
      as (_ & _ & H3 & _ & _ & H6 & H7 & H8).
    fold p in H3, H6, H7, H8.
    unfold avanzar, acumular.
    cbn [estadoBateria estadoBombeo gasAnterior acum horasPrecioAlto].
    rewrite H3, H6, H7, H8, A. cbn [Gen.gas Gen.cero].
    fold (precioSinRecursos perd cargos esc).
    repeat split; try lra. lia.
Qed.

Lemma entornoDe_soloNuclear gas :
  nuclearGW (entornoDe (soloNuclear gas)) = 1000000.
Proof. reflexivity. Qed.

(** Every hour of a system with an oversized nuclear fleet is a surplus
    hour: no gas runs. *)
Lemma horaDe_soloNuclear gas (h : nat) :
  (h < HORAS_ANIO)%nat ->
  Gen.gas (gen (despacho (horaDe (soloNuclear gas) h))) = 0.
Proof.
  intros Hh. set (p := soloNuclear gas). rewrite horaDe_eq.
  destruct (horaSim_forma p (entornoDe p) h (fst (bucle p h))
              (snd (bucle p h))) as (_ & _ & Hdes & _).
  rewrite Hdes. clear Hdes.
  pose proof (demanda_cotas p h Hh) as D.
  unfold p at 1 2 3 4. rewrite entornoDe_soloNuclear.
  cbn [soloNuclear solar eolica]. rewrite !Rmult_0_l.
  unfold FC_NUCLEAR.
  assert (E : gt (1000000 * 0.90 + 0 + 0
                  - demandaMediaGW (entornoDe p)
                    * nth h (serieDemanda (entornoDe p)) 0) 0 = true)
    by (apply gt_true_iff; lra).
  fold p. rewrite E.
  usar_excedente ramaExcedente_ceros. tauto.
Qed.

(* ================================================================== *)
(** * Raising the scarcity price *)
(* ================================================================== *)

(** The configuration [p], a scarcity price [v] that is not below its
    own, and a regulated pass-through factor that is not negative. *)
Section Escasez.

Variable p : Params.
Variable v : R.
Hypothesis Hv : precioEscasez p <= v.
Hypothesis Hp : 0 <= 1 + perdidasRed p.

(** Replacing the scarcity price changes nothing before the loop. *)
Lemma entornoDe_conEscasez :
  entornoDe (conEscasez p v) = entornoDe p.
Proof. reflexivity. Qed.

Lemma ramaExcedente_conEscasez f gn gs ge exc eB eBo :
  ramaExcedente (conEscasez p v) f gn gs ge exc eB eBo =
  ramaExcedente p f gn gs ge exc eB eBo.
Proof. reflexivity. Qed.

Lemma ramaDeficit_conEscasez f gn gs ge dia hora exc eB eBo ga :
  ramaDeficit (conEscasez p v) f gn gs ge dia hora exc eB eBo ga =
  ramaDeficit p f gn gs ge dia hora exc eB eBo ga.
Proof. reflexivity. Qed.

(** The hourly price does not decrease when the scarcity price is
    raised, provided the regulated pass-through factor is not negative. *)
Lemma calcularPrecioMarginal_mono g dem ratio c ga :
  calcularPrecioMarginal p g dem ratio c ga
  <= calcularPrecioMarginal (conEscasez p v) g dem ratio c ga.
Proof.
  unfold calcularPrecioMarginal. cbv zeta.
  change (precioTecnologia (conEscasez p v) g ratio ga)
    with (precioTecnologia p g ratio ga).
  change (sueloImportacion (conEscasez p v) c) with (sueloImportacion p c).
  change (techoExportacion (conEscasez p v) c) with (techoExportacion p c).
  change (perdidasRed (conEscasez p v)) with (perdidasRed p).
  change (cargosSistema (conEscasez p v)) with (cargosSistema p).
  set (x := techoExportacion p c
              (sueloImportacion p c (precioTecnologia p g ratio ga))).
  clearbody x.
  assert (S : sueloEscasez p c dem x <= sueloEscasez (conEscasez p v) c dem x).
  { unfold sueloEscasez. cbv zeta.
    change (precioEscasez (conEscasez p v)) with v.
    destruct (gt (Ctx.deficit c) 0.3) eqn:E; [|lra]. a_prop.
    assert (0 < Ctx.deficit c / Rmax 1 dem).
    { apply Rdiv_lt_0_compat; [lra|].
      pose proof (Rmax_l 1 dem). lra. }
    set (dp := Ctx.deficit c / Rmax 1 dem) in *. clearbody dp.
    assert (0 <= Rmin 1 (dp * 4)) by (apply Rmin_glb; lra).
    set (k := Rmin 1 (dp * 4)) in *. clearbody k.
    assert (precioEscasez p * k <= v * k) by nra.
    partir_minmax; lra. }
  set (s1 := sueloEscasez p c dem x) in *.
  set (s2 := sueloEscasez (conEscasez p v) c dem x) in *.
  clearbody s1 s2.
  assert (s1 * (1 + perdidasRed p) <= s2 * (1 + perdidasRed p)) by nra.
  partir_minmax; lra.
Qed.

(** One hour under the two scarcity prices: same dispatch, same draw,
    and a price that is not lower under the higher scarcity price. *)
Lemma horaSim_conEscasez e h st1 st2 s :
  estadoBateria st1 = estadoBateria st2 ->
  estadoBombeo st1 = estadoBombeo st2 ->
  gasAnterior st1 = gasAnterior st2 ->
  let h1 := fst (horaSim p e h st1 s) in
  let h2 := fst (horaSim (conEscasez p v) e h st2 s) in
  despacho h1 = despacho h2 /\ demandaGW h1 = demandaGW h2 /\
  precio h1 <= precio h2 /\
  snd (horaSim p e h st1 s) = snd (horaSim (conEscasez p v) e h st2 s).
Proof.
  intros HB HBo HG.
  destruct (horaSim_forma p e h st1 s) as (D1 & _ & S1 & C1 & P1 & N1).
  destruct (horaSim_forma (conEscasez p v) e h st2 s)
    as (D2 & _ & S2 & C2 & P2 & N2).
  cbv zeta.
  assert (S : despacho (fst (horaSim p e h st1 s)) =
              despacho (fst (horaSim (conEscasez p v) e h st2 s))).
  { rewrite S1, S2, HB, HBo, HG.
    rewrite ramaExcedente_conEscasez, ramaDeficit_conEscasez. reflexivity. }
  split; [exact S | split; [| split]].
  - rewrite D1, D2. reflexivity.
  - rewrite P1, P2, C1, C2, <- S, HG.
    apply calcularPrecioMarginal_mono.
  - rewrite N1, N2. reflexivity.
Qed.

(** The run under two scarcity prices: the dispatch is the same hour by
    hour, and the higher scarcity price counts at least as many
    high-price hours. *)
Lemma bucle_conEscasez (n : nat) :
  let st1 := fst (bucle p n) in
  let st2 := fst (bucle (conEscasez p v) n) in
  snd (bucle p n) = snd (bucle (conEscasez p v) n) /\
  estadoBateria st1 = estadoBateria st2 /\
  estadoBombeo st1 = estadoBombeo st2 /\
  gasAnterior st1 = gasAnterior st2 /\
  mix st1 = mix st2 /\
  demandaHorariaGW st1 = demandaHorariaGW st2 /\
  Forall2 Rle (precios st1) (precios st2) /\
  (horasPrecioAlto (acum st1) <= horasPrecioAlto (acum st2))%nat.
Proof.
  induction n as [|n IH]; cbv zeta.
  - rewrite !bucle_0. cbn [fst snd]. unfold estadoInicial.
    cbn [estadoBateria estadoBombeo gasAnterior mix demandaHorariaGW precios
         acum acumInicial horasPrecioAlto].
    repeat split; try reflexivity. constructor.
  - destruct IH as (Hs & HB & HBo & HG & HM & HD & HP & HA).
    rewrite !bucle_S. cbn [fst snd]. rewrite !horaDe_eq.
    rewrite entornoDe_conEscasez. rewrite <- Hs.
    destruct (horaSim_conEscasez (entornoDe p) n (fst (bucle p n))
                (fst (bucle (conEscasez p v) n)) (snd (bucle p n))
                HB HBo HG) as (E1 & E2 & E3 & E4).
    set (h1 := fst (horaSim p (entornoDe p) n (fst (bucle p n))
                      (snd (bucle p n)))) in *.
    set (h2 := fst (horaSim (conEscasez p v) (entornoDe p) n
                      (fst (bucle (conEscasez p v) n)) (snd (bucle p n))))
      in *.
    unfold avanzar, acumular.
    cbn [estadoBateria estadoBombeo gasAnterior mix demandaHorariaGW precios
         acum horasPrecioAlto].
    rewrite <- E1, <- E2, HM, HD.
    split; [exact E4|]. repeat split.
    + apply Forall2_app; [exact HP | constructor; [exact E3 | constructor]].
    + assert (uno_si (gt (precio h1) 150) <= uno_si (gt (precio h2) 150))%nat.
      { unfold uno_si.
        destruct (gt (precio h1) 150) eqn:G1;
          destruct (gt (precio h2) 150) eqn:G2; a_prop; try lia; lra. }
      lia.
Qed.

End Escasez.

(* ================================================================== *)
(** * Percentiles *)
(* ================================================================== *)

Lemma insertar_length (x : R) (l : list R) :
  length (insertar x l) = S (length l).
Proof.
  induction l as [|y l IH]; cbn [insertar]; [reflexivity|].
  destruct (Rle_dec x y); cbn [length]; [reflexivity | now rewrite IH].
Qed.

Lemma ordenar_length (l : list R) : length (ordenar l) = length l.
Proof.
  induction l as [|x l IH]; [reflexivity|].
  cbn [ordenar fold_right]. fold (ordenar l).
  now rewrite insertar_length, IH.
Qed.

Lemma insertar_Forall (P : R -> Prop) (x : R) (l : list R) :
  P x -> Forall P l -> Forall P (insertar x l).
Proof.
  intros Hx Hl. induction Hl as [|y l Hy Hl IH]; cbn [insertar].
  - constructor; [exact Hx | constructor].
  - destruct (Rle_dec x y); repeat constructor; assumption.
Qed.

Lemma insertar_sorted (x : R) (l : list R) :
  StronglySorted Rle l -> StronglySorted Rle (insertar x l).
Proof.
  intros Hl. induction Hl as [|y l Hl IH Hy]; cbn [insertar].
  - constructor; constructor.
  - destruct (Rle_dec x y) as [Hxy|Hxy].
    + constructor; [constructor; assumption|].
      constructor; [exact Hxy|].
      eapply Forall_impl; [|exact Hy]. intros z Hz. cbv beta in Hz. lra.
    + constructor; [exact IH|].
      apply insertar_Forall; [lra | exact Hy].
Qed.

(** The array [percentil] reads from is in increasing order. *)
Lemma ordenar_sorted (l : list R) : StronglySorted Rle (ordenar l).
Proof.
  induction l as [|x l IH]; [constructor|].
  cbn [ordenar fold_right]. fold (ordenar l). now apply insertar_sorted.
Qed.

Lemma sorted_nth (l : list R) :
  StronglySorted Rle l ->
  forall i j, (i <= j < length l)%nat -> nth i l 0 <= nth j l 0.
Proof.
  intros Hl. induction Hl as [|a l Hl IH Ha]; intros i j Hij.
  - cbn [length] in Hij. lia.
  - cbn [length] in Hij. destruct i as [|i], j as [|j]; cbn [nth];
      try lia; try lra.
    + rewrite Forall_forall in Ha. apply Ha, nth_In. lia.
    + apply IH. lia.
Qed.

Lemma piso_techo (k : R) :
  (Zfloor k <= Zceil k <= Zfloor k + 1)%Z.
Proof.
  pose proof (Zfloor_bound k) as [F1 F2].
  pose proof (Zceil_bound k) as [C1 C2].
  split.
  - apply le_IZR. lra.
  - apply Z.lt_succ_r. apply lt_IZR.
    rewrite succ_IZR, plus_IZR. simpl (IZR 1). lra.
Qed.

Lemma techo_dentro (k : R) (n : nat) :
  k <= INR n - 1 -> (Zceil k <= Z.of_nat n - 1)%Z.
Proof.
  intros H.
  replace (INR n - 1) with (IZR (Z.of_nat n - 1)) in H
    by (rewrite minus_IZR, <- INR_IZR_INZ; reflexivity).
  apply Zceil_le in H. unfold Zceil at 2 in H. rewrite ZfloorNZ in H. lia.
Qed.

Lemma interpolar_entre (s : list R) (k : R) :
  StronglySorted Rle s ->
  0 <= k <= INR (length s) - 1 ->
  nth (Z.to_nat (Zfloor k)) s 0 <= interpolar s k
  <= nth (Z.to_nat (Zceil k)) s 0.
Proof.
  intros Hs [K0 K1].
  pose proof (piso_techo k) as [P1 P2].
  pose proof (Zfloor_bound k) as [F1 F2].
  pose proof (Zceil_bound k) as [C1 C2].
  assert (F0 : (0 <= Zfloor k)%Z) by (apply Zfloor_lub; simpl; lra).
  pose proof (techo_dentro k (length s) K1) as CN.
  assert (M : nth (Z.to_nat (Zfloor k)) s 0 <= nth (Z.to_nat (Zceil k)) s 0).
  { apply sorted_nth; [exact Hs | lia]. }
  unfold interpolar. cbv zeta.
  destruct (Z.eqb_spec (Zfloor k) (Zceil k)) as [E|E].
  - rewrite <- E. lra.
  - set (a := nth (Z.to_nat (Zfloor k)) s 0) in *.
    set (b := nth (Z.to_nat (Zceil k)) s 0) in *.
    clearbody a b. split; nra.
Qed.

(** Interpolation over a sorted array is monotone in the position. *)
Lemma interpolar_mono (s : list R) (k1 k2 : R) :
  StronglySorted Rle s ->
  0 <= k1 -> k1 <= k2 -> k2 <= INR (length s) - 1 ->
  interpolar s k1 <= interpolar s k2.
Proof.
  intros Hs K0 K12 K2.
  pose proof (interpolar_entre s k1 Hs ltac:(lra)) as [A1 B1].
  pose proof (interpolar_entre s k2 Hs ltac:(lra)) as [A2 B2].
  pose proof (piso_techo k1) as [P1 Q1].
  pose proof (piso_techo k2) as [P2 Q2].
  pose proof (Zfloor_bound k1) as [F1 G1].
  pose proof (Zfloor_bound k2) as [F2 G2].
  pose proof (Zceil_bound k1) as [C1 D1].
  pose proof (Zceil_bound k2) as [C2 D2].
  pose proof (Zfloor_le k1 k2 K12) as L.
  assert (F0 : (0 <= Zfloor k1)%Z) by (apply Zfloor_lub; simpl; lra).
  pose proof (techo_dentro k1 (length s) ltac:(lra)) as N1.
  pose proof (techo_dentro k2 (length s) K2) as N2.
  destruct (Z.eq_dec (Zceil k1) (Zfloor k1)) as [E1|E1].
  - (* k1 is an integer position *)
    assert (interpolar s k1 = nth (Z.to_nat (Zfloor k1)) s 0) as ->.
    { unfold interpolar. cbv zeta. rewrite <- E1, Z.eqb_refl. reflexivity. }
    apply Rle_trans with (nth (Z.to_nat (Zfloor k2)) s 0); [|exact A2].
    apply sorted_nth; [exact Hs | lia].
  - assert (Ec1 : Zceil k1 = (Zfloor k1 + 1)%Z) by lia.
    destruct (Z.eq_dec (Zfloor k1) (Zfloor k2)) as [E|E].
    + (* same segment *)
      assert (E2 : Zceil k2 = (Zfloor k2 + 1)%Z).
      { destruct (Z.eq_dec (Zceil k2) (Zfloor k2)) as [E2|E2]; [|lia].
        exfalso. apply E1. apply Zceil_eq.
        rewrite E2 in D2. rewrite <- E in F2, D2. lra. }
      assert (M : nth (Z.to_nat (Zfloor k1)) s 0
                  <= nth (Z.to_nat (Zceil k1)) s 0).
      { apply sorted_nth; [exact Hs | lia]. }
      unfold interpolar. cbv zeta.
      destruct (Z.eqb_spec (Zfloor k1) (Zceil k1)) as [X|_]; [lia|].
      destruct (Z.eqb_spec (Zfloor k2) (Zceil k2)) as [X|_]; [lia|].
      rewrite E2, <- E, <- Ec1.
      set (a := nth (Z.to_nat (Zfloor k1)) s 0) in *.
      set (b := nth (Z.to_nat (Zceil k1)) s 0) in *.
      clearbody a b. nra.
    + (* a later segment *)
      apply Rle_trans with (nth (Z.to_nat (Zceil k1)) s 0); [exact B1|].
      apply Rle_trans with (nth (Z.to_nat (Zfloor k2)) s 0); [|exact A2].
      apply sorted_nth; [exact Hs | lia].
Qed.

Lemma percentil_interpolar (arr : list R) (p : R) :
  arr <> [] ->
  percentil arr p =
  interpolar (ordenar arr) ((INR (length (ordenar arr)) - 1) * (p / 100)).
Proof.
  destruct arr as [|x arr]; [congruence|]. intros _. reflexivity.
Qed.

(** [percentil] is monotone in the percentile. *)
Lemma percentil_mono (arr : list R) (p1 p2 : R) :
  arr <> [] -> 0 <= p1 -> p1 <= p2 -> p2 <= 100 ->
  percentil arr p1 <= percentil arr p2.
Proof.
  intros Hne H0 H12 H2.
  rewrite !percentil_interpolar by assumption.
  assert (1 <= INR (length (ordenar arr))).
  { rewrite ordenar_length. destruct arr as [|x arr]; [congruence|].
    cbn [length]. rewrite S_INR. pose proof (pos_INR (length arr)). lra. }
  apply interpolar_mono; [apply ordenar_sorted | nra | nra | nra].
Qed.

(* ================================================================== *)
(** * Solar geometry *)
(* ================================================================== *)

Lemma PI_cotas : 3 < PI < 3.24.
Proof.
  split.
  - pose proof PI2_3_2. lra.
  - pose proof (PI_2_3_7_ineq 0) as [_ H].
    unfold sum_f_R0, tg_alt, PI_2_3_7_tg, Ratan_seq in H.
    cbn [Nat.mul Nat.add pow INR] in H. lra.
Qed.

Lemma sin_cota_inf (a : R) : 0 <= a <= 4 -> a - a * a * a / 6 <= sin a.
Proof.
  intros [H0 H4].
  pose proof (pre_sin_bound a 0 H0 H4) as [H _].
  unfold sin_approx, sum_f_R0, sin_term in H.
  cbn [Nat.mul Nat.add pow fact INR] in H. lra.
Qed.

(** At 6 h on day 257 the sun is barely above the horizon. *)
Lemma sinElevacion_257_6 : 0.025 < sinElevacion 257 6 < 0.05.
Proof.
  pose proof PI_cotas as [P1 P2].
  unfold sinElevacion, LATITUD_ESPANA. cbv zeta.
  replace ((6 - 12) * 15 * PI / 180) with (- (PI / 2)) by field.
  rewrite cos_neg, cos_PI2, Rmult_0_r, Rplus_0_r.
  replace (2 * PI * (284 + 257) / 365)
    with (PI - 13 * PI / 365 + 2 * INR 1 * PI) by (simpl; field).
  rewrite sin_period, sin_PI_x.
  set (a := 13 * PI / 365).
  assert (Ha : 0.1068 < a < 0.1154) by (unfold a; lra).
  pose proof (sin_cota_inf a ltac:(lra)) as La.
  pose proof (sin_lt_x a ltac:(lra)) as Ua.
  assert (Sa : 0.1065 < sin a < 0.1154) by (split; nra).
  set (sa := sin a) in *. clearbody sa. clear La Ua.
  set (decl := 23.45 * sa * PI / 180).
  assert (Hd : 0.0416 < decl < 0.0488) by (unfold decl; split; nra).
  pose proof (sin_cota_inf decl ltac:(lra)) as Ld.
  pose proof (sin_lt_x decl ltac:(lra)) as Ud.
  assert (Sd : 0.0415 < sin decl < 0.0488) by (split; nra).
  set (sd := sin decl) in *. clearbody sd. clear Ld Ud.
  set (lat := 40.4 * PI / 180).
  assert (Hl : 0.6733 < lat < 0.7272) by (unfold lat; lra).
  pose proof (sin_cota_inf lat ltac:(lra)) as Ll.
  pose proof (SIN_bound lat) as [_ Ul].
  assert (Sl : 0.609 < sin lat <= 1) by (split; nra).
  set (sl := sin lat) in *. clearbody sl.
  split; nra.
Qed.
(** [0.70^y] decreases in [y]. *)
Lemma Rpower_070_decrece (y1 y2 : R) :
  y1 < y2 -> Rpower 0.70 y2 < Rpower 0.70 y1.
Proof.
  intros H. unfold Rpower. apply exp_increasing.
  assert (L : ln 0.70 < 0).
  { rewrite <- ln_1. apply ln_increasing; lra. }
  nra.
Qed.

Lemma Rpower_070_rango (y : R) : 0 < y -> 0 < Rpower 0.70 y < 1.
Proof.
  intros H. split; [apply exp_pos|].
  replace 1 with (Rpower 0.70 0) by (apply Rpower_O; lra).
  apply Rpower_070_decrece. exact H.
Qed.

(** The air mass the code uses: the reciprocal of the sine floored at
    0.05, that is the reciprocal of the sine capped at 20. *)
Lemma masaAire_acotada (s : R) :
  0 < s -> 1 / Rmax 0.05 s = Rmin 20 (1 / s).
Proof.
  intros Hs. destruct (Rle_dec 0.05 s) as [H|H].
  - rewrite Rmax_right by lra. rewrite Rmin_right; [reflexivity|].
    apply Rmult_le_reg_r with s; [lra|]. field_simplify; lra.
  - rewrite Rmax_left by lra. rewrite Rmin_left; [lra|].
    apply Rmult_le_reg_r with s; [lra|]. field_simplify; lra.
Qed.

(** The three generators of a run start from three different seeds
    whenever the base seed is not negative. *)
Lemma semillas_distintas (s : R) :
  0 <= s ->
  s * 7 + 13 <> s * 3 + 7 /\ s * 7 + 13 <> s * 11 + 37 /\
  s * 3 + 7 <> s * 11 + 37.
Proof. intros H. repeat split; lra. Qed.

(* ================================================================== *)
(** * Synoptic blocks *)
(* ================================================================== *)

(** The [while] loop of [generarSerieViento] ends because the year is
    covered, not because the fuel runs out. *)
Lemma generarBloques_cubre (fuel : nat) (h : Z) (seed : R) :
  (Z.of_nat HORAS_ANIO - h <= Z.of_nat fuel)%Z ->
  cubre h (fst (generarBloques fuel h seed)).
Proof.
  revert h seed. induction fuel as [|fuel IH]; intros h seed Hf.
  - cbn [generarBloques ret fst cubre]. lia.
  - cbn [generarBloques].
    destruct (Z.ltb_spec h (Z.of_nat HORAS_ANIO)) as [Hlt|Hge].
    + unfold bind, ret.
      pose proof (next_rango seed) as [U0 U1].
      destruct (next seed) as [u s1]. cbn [fst] in U0, U1.
      pose proof (next_rango s1) as I.
      destruct (next s1) as [int s2]. cbn [fst] in I.
      assert (D : (48 <= Zfloor (48 + u * 120) <= 167)%Z).
      { split.
        - apply Zfloor_lub. simpl. lra.
        - apply Z.lt_succ_r. apply lt_IZR.
          pose proof (Zfloor_bound (48 + u * 120)) as [F _].
          rewrite succ_IZR. simpl (IZR 167). lra. }
      specialize (IH (h + Zfloor (48 + u * 120))%Z s2 ltac:(lia)).
      destruct (generarBloques fuel (h + Zfloor (48 + u * 120)) s2)
        as [resto s3].
      cbn [fst cubre inicio duracion intensidad] in *.
      repeat split; try lia; try lra; exact IH.
    + cbn [ret fst cubre]. lia.
Qed.

Lemma generarSerieViento_bloques (seed : R) :
  cubre 0 (fst (generarBloques HORAS_ANIO 0 seed)).
Proof. apply generarBloques_cubre. lia. Qed.
(* ================================================================== *)
(** * The arrays of the results *)
(* ================================================================== *)

(** The entries of the arrays of the results are the records of the
    hours of the run. *)
Lemma resultados_hora (p : Params) (h : nat) :
  (h < HORAS_ANIO)%nat ->
  nth h (r_mix (simularCon p)) Gen.cero = gen (despacho (horaDe p h)) /\
  nth h (r_precios (simularCon p)) 0 = precio (horaDe p h) /\
  nth h (demandaHoraria (simularCon p)) 0 = demandaGW (horaDe p h).
Proof.
  intros Hh.
  destruct (simularCon_estado p) as (_ & M & P & D & _). rewrite M, P, D.
  destruct (bucle_arrays p HORAS_ANIO) as (_ & _ & _ & N). exact (N h Hh).
Qed.

(* ================================================================== *)
(** * Worked examples *)
(* ================================================================== *)

Example mesDe_ej : mesDe 30 = 0%nat /\ mesDe 31 = 1%nat /\ mesDe 364 = 11%nat.
Proof. repeat split; reflexivity. Qed.

Example percentil_ej :
  percentil [3; 1; 2] 50 = 2 /\ percentil [10; 20] 25 = 12.5.
Proof.
  assert (O1 : ordenar [3; 1; 2] = [1; 2; 3]).
  { unfold ordenar. cbn [fold_right insertar].
    destruct (Rle_dec 1 2); [|lra]. cbn [insertar].
    destruct (Rle_dec 3 1); [lra|]. destruct (Rle_dec 3 2); [lra|].
    reflexivity. }
  assert (O2 : ordenar [10; 20] = [10; 20]).
  { unfold ordenar. cbn [fold_right insertar].
    destruct (Rle_dec 10 20); [reflexivity | lra]. }
  split.
  - unfold percentil. rewrite O1. cbv zeta. cbn [length].
    replace ((INR 3 - 1) * (50 / 100)) with (IZR 1) by (simpl; lra).
    unfold Zceil. rewrite ZfloorZ, ZfloorNZ.
    change (Z.to_nat 1) with 1%nat. reflexivity.
  - unfold percentil. rewrite O2. cbv zeta. cbn [length].
    replace ((INR 2 - 1) * (25 / 100)) with 0.25 by (simpl; lra).
    assert (F : Zfloor 0.25 = 0%Z) by (apply Zfloor_eq; simpl; lra).
    assert (C : Zceil 0.25 = 1%Z) by (apply Zceil_eq; simpl; lra).
    rewrite F, C. change (Z.to_nat 0) with 0%nat.
    change (Z.to_nat 1) with 1%nat. cbn [Z.eqb nth]. lra.
Qed.

Example calcularNuclearDisponible_ej :
  calcularNuclearDisponible PARAMS_DEFAULT = 7 * (1 - 4 / 9).
Proof.
  unfold calcularNuclearDisponible. cbv zeta.
  cbn [aplicarPlanNuclear PARAMS_DEFAULT negb cierreNuclear anioObjetivo
       nuclear].
  rewrite (Rmax_right (2026 + 1) 2035) by lra.
  rewrite (Rmax_right 0 (2030 - 2026)) by lra.
  rewrite (Rmax_right 1 (2035 - 2026)) by lra.
  rewrite (Rmax_right 0 (1 - (2030 - 2026) / (2035 - 2026))) by lra.
  rewrite Rmax_right by lra. lra.
Qed.

(** A renewable ratio of 1.3 prices the hour at [5 - 0.3 * 45 = -8.5]
    before the pass-through. *)
Example calcularPrecioMarginal_ej :
  calcularPrecioMarginal PARAMS_DEFAULT Gen.cero 30 1.3 (Ctx.mk 0 0 0) 0
  = 3.075.
Proof.
  unfold calcularPrecioMarginal, precioTecnologia, sueloImportacion,
    techoExportacion, sueloEscasez. cbv zeta.
  cbn [Ctx.importacion Ctx.exportacion Ctx.deficit perdidasRed cargosSistema
       PARAMS_DEFAULT].
  assert (G1 : gt 1.3 1.20 = true) by (apply gt_true_iff; lra).
  assert (G2 : gt 0 0 = false) by (apply gt_false_iff; lra).
  assert (G3 : gt 0 0.3 = false) by (apply gt_false_iff; lra).
  rewrite G1, G2, G3.
  rewrite (Rmax_right (-20) (5 - (1.3 - 1) * 45)) by lra.
  rewrite (Rmax_right (-25)) by lra. rewrite Rmin_right by lra. lra.
Qed.

(** A surplus of 5 GW in the default scenario, with both reservoirs half
    full: 3 GW charge the batteries, 2 GW are pumped, nothing is left. *)
Example ramaExcedente_ej :
  let d := ramaExcedente PARAMS_DEFAULT 1.5 6.3 0 0 5 5 15 in
  Gen.cargaBaterias (gen d) = 3 /\ bateriaTras d = 7.7 /\
  Gen.cargaBombeo (gen d) = 2 /\ bombeoTras d = 16.5 /\
  flexUp d = 0 /\ Gen.exportacion (gen d) = 0 /\ Gen.vertido (gen d) = 0.
Proof.
  unfold ramaExcedente. cbv zeta.
  cbn [PARAMS_DEFAULT bateriasCapacidad bateriasPotencia bombeo
       bombeoCapacidad interconexion].
  unfold EFICIENCIA_BAT, EFICIENCIA_BOMBEO.
  casos; campos; a_prop; try (exfalso; lra);
    partir_minmax; try lra; repeat split; lra.
Qed.

(** A deficit of 30 GW in the default scenario at hour 0 of day 0, with
    empty reservoirs and gas idle the hour before: hydro gives what the
    season allows, flexible demand 1.5 GW, imports 3 GW, and gas is held
    by the ramp at [24 * 0.15 = 3.6] GW. *)
Example ramaDeficit_ej :
  let d := ramaDeficit PARAMS_DEFAULT 1.5 0 0 0 0 0 (-30) 0 0 0 in
  flexDown d = 1.5 /\ Gen.importacion (gen d) = 3 /\
  Gen.gas (gen d) = 3.6 /\ Gen.baterias (gen d) = 0 /\
  deficitFinal d = 30 - Gen.hidraulica (gen d) - 1.5 - 3 - 3.6.
Proof.
  unfold ramaDeficit. cbv zeta.
  assert (H : 0.08 <= calcularHidro PARAMS_DEFAULT 0 0 <= 0.85).
  { unfold calcularHidro. cbv zeta. split; [apply Rmax_l|].
    apply Rmax_lub; [lra | apply Rmin_l]. }
  set (f := calcularHidro PARAMS_DEFAULT 0 0) in *. clearbody f.
  cbn [PARAMS_DEFAULT hidraulica bateriasPotencia bombeo interconexion ccgt].
  unfold RAMPA_CCGT.
  casos; campos; a_prop; try (exfalso; lra);
    partir_minmax; try lra; repeat split; lra.
Qed.

(* ================================================================== *)
(** * Properties of the engine *)
(* ================================================================== *)

Lemma forLoop_inv {S : Type} (P : S -> Prop) (body : nat -> S -> S) (s0 : S) :
  P s0 -> (forall k s, P s -> P (body k s)) ->
  forall n, P (forLoop n body s0).
Proof.
  intros H0 Hstep. induction n as [|n IH]; [exact H0|].
  cbn [forLoop]. apply Hstep, IH.
Qed.

Lemma modificar_length {A : Type} (i : nat) (f : A -> A) (l : list A) :
  length (modificar i f l) = length l.
Proof.
  revert i. induction l as [|x l IH]; intros [|i]; cbn [modificar length];
    try reflexivity. now rewrite IH.
Qed.

Lemma _calcularResumenMensual_length mix precios demanda :
  length (_calcularResumenMensual mix precios demanda) = 12%nat.
Proof.
  unfold _calcularResumenMensual. cbv zeta. rewrite length_map.
  apply (forLoop_inv (fun l => length l = 12%nat)).
  - reflexivity.
  - intros k s Hs. now rewrite modificar_length.
Qed.

(* ================================================================== *)
(** * The method and the store *)
(* ================================================================== *)

Lemma modificar_nth {A : Type} (i : nat) (f : A -> A) (l : list A) (d : A) :
  (i < length l)%nat -> nth i (modificar i f l) d = f (nth i l d).
Proof.
  revert i. induction l as [|x l IH]; intros [|i] H; cbn in *;
    try lia; [reflexivity|]. apply IH. lia.
Qed.

Lemma modificar_dos {A : Type} (i : nat) (f g : A -> A) (l : list A) :
  modificar i g (modificar i f l) = modificar i (fun x => g (f x)) l.
Proof.
  revert i. induction l as [|x l IH]; intros [|i]; cbn; try reflexivity.
  now rewrite IH.
Qed.

Lemma modificar_mismo {A : Type} (i : nat) (l : list A) (d : A) :
  modificar i (fun _ => nth i l d) l = l.
Proof.
  revert i. induction l as [|x l IH]; intros [|i]; cbn; try reflexivity.
  now rewrite IH.
Qed.

Lemma modificar_nuevo {A : Type} (f : A -> A) (l : list A) (x : A) :
  modificar (length l) f (l ++ [x]) = l ++ [f x].
Proof.
  induction l as [|y l IH]; cbn; [reflexivity|]. now rewrite IH.
Qed.

(** [cm], which is handed the reference [rng], does to the store what
    the one-generator computation [c] does to the [seed] field of that
    object, and nothing else. *)
Definition implementa {A : Type} (rng : nat) (cm : JS.M A) (c : Rng A)
  : Prop :=
  forall w, (rng < length (generadores w))%nat -> cm w = JS.en rng c w.

Lemma implementa_ret {A : Type} (rng : nat) (a : A) :
  implementa rng (JS.ret a) (ret a).
Proof.
  intros [e g c] _. unfold JS.en, JS.ret, ret. cbn [generadores este creados].
  now rewrite modificar_mismo.
Qed.

Lemma implementa_bind {A B : Type} (rng : nat) (cm : JS.M A) (c : Rng A)
  (km : A -> JS.M B) (k : A -> Rng B) :
  implementa rng cm c -> (forall a, implementa rng (km a) (k a)) ->
  implementa rng (JS.bind cm km) (bind c k).
Proof.
  intros Hc Hk w Hw. unfold JS.bind. rewrite (Hc w Hw).
  unfold JS.en, bind.
  destruct (c (nth rng (generadores w) 0)) as [a s'].
  rewrite Hk by (cbn [generadores]; now rewrite modificar_length).
  unfold JS.en. cbn [generadores este creados].
  rewrite modificar_nth by exact Hw.
  destruct (k a s') as [b s'']. now rewrite modificar_dos.
Qed.

Lemma implementa_next (rng : nat) : implementa rng (JS.next rng) next.
Proof.
  intros w Hw. reflexivity.
Qed.

Lemma implementa_gauss (rng : nat) (media sigma : R) :
  implementa rng (JS.gauss rng media sigma) (gauss media sigma).
Proof.
  unfold JS.gauss, gauss.
  apply implementa_bind; [apply implementa_next|]. intros v1. cbv zeta.
  apply implementa_bind; [apply implementa_next|]. intros u2.
  apply implementa_ret.
Qed.

Lemma implementa_for {S : Type} (rng : nat) (bm : nat -> S -> JS.M S)
  (b : nat -> S -> Rng S) :
  (forall k s, implementa rng (bm k s) (b k s)) ->
  forall n s, implementa rng (JS.forM n bm s) (forRng n b s).
Proof.
  intros H. induction n as [|n IH]; intros s; cbn [JS.forM forRng].
  - apply implementa_ret.
  - apply implementa_bind; [apply IH|]. intros s'. apply H.
Qed.

Lemma implementa_generarBloques (rng : nat) (fuel : nat) (h : Z) :
  implementa rng (JS.generarBloques rng fuel h) (generarBloques fuel h).
Proof.
  revert h. induction fuel as [|f IH]; intros h;
    cbn [JS.generarBloques generarBloques]; [apply implementa_ret|].
  destruct (h <? Z.of_nat HORAS_ANIO)%Z; [|apply implementa_ret].
  apply implementa_bind; [apply implementa_next|]. intros u. cbv zeta.
  apply implementa_bind; [apply implementa_next|]. intros int.
  apply implementa_bind; [apply IH|]. intros resto.
  apply implementa_ret.
Qed.

Lemma implementa_generarSerieViento (rng : nat) :
  implementa rng (JS.generarSerieViento rng) generarSerieViento.
Proof.
  unfold JS.generarSerieViento, generarSerieViento.
  apply implementa_bind; [apply implementa_generarBloques|]. intros bloques.
  apply implementa_bind; [|intros st; apply implementa_ret].
  apply implementa_for. intros k [estado serie].
  unfold JS.pasoViento, pasoViento. cbv zeta.
  apply implementa_bind; [apply implementa_gauss|]. intros innovacion.
  apply implementa_ret.
Qed.

Lemma implementa_generarSerieDemanda (rng : nat) :
  implementa rng (JS.generarSerieDemanda rng) generarSerieDemanda.
Proof.
  unfold JS.generarSerieDemanda, generarSerieDemanda.
  apply implementa_for. intros k serie. unfold pasoDemanda.
  apply implementa_bind; [|intros v; apply implementa_ret].
  unfold JS.demandaHora, demandaHora. cbv zeta.
  apply implementa_bind; [apply implementa_gauss|]. intros ruido.
  apply implementa_bind; [apply implementa_next|]. intros u.
  apply implementa_ret.
Qed.

Lemma implementa_bucle (p : Params) (rng : nat) (e : Entorno) (n : nat)
  (st : Estado) :
  implementa rng (JS.forM n (JS.pasoHora p rng e) st)
                 (forRng n (pasoHora p e) st).
Proof.
  apply implementa_for. intros k s. unfold JS.pasoHora, pasoHora.
  apply implementa_bind; [|intros hr; apply implementa_ret].
  unfold JS.horaSim, horaSim. cbv zeta.
  apply implementa_bind; [apply implementa_next|]. intros u.
  apply implementa_ret.
Qed.

(** A computation on an object that was just created. *)
Lemma en_nuevo {A : Type} (c : Rng A) (e : SimuladorElectrico)
  (g cr : list R) (seed : R) :
  JS.en (length g) c {| este := e; generadores := g ++ [seed]; creados := cr |}
  = (fst (c seed),
     {| este := e; generadores := g ++ [snd (c seed)]; creados := cr |}).
Proof.
  unfold JS.en. cbn [generadores este creados].
  rewrite nth_middle. destruct (c seed) as [a s']. cbn [fst snd].
  now rewrite modificar_nuevo.
Qed.

(** What a call of [simular()] returns and what it leaves in the
    store. *)
Lemma simular_memoria (w : Memoria) :
  let p := params (este w) in
  JS.simular w =
  (simularCon p,
   {| este := este w;
      generadores :=
        generadores w ++
        [ (if Req_dec_T (semilla p) 0 then 42 else semilla p);
          snd (generarSerieViento (semilla p * 7 + 13));
          snd (generarSerieDemanda (semilla p * 3 + 7));
          snd (bucle p HORAS_ANIO) ];
      creados :=
        creados w ++
        [ (if Req_dec_T (semilla p) 0 then 42 else semilla p);
          semilla p * 7 + 13; semilla p * 3 + 7; semilla p * 11 + 37 ] |}).
Proof.
  destruct w as [e g cr]. cbn [este generadores creados]. cbv zeta.
  set (p := params e).
  set (s0 := if Req_dec_T (semilla p) 0 then 42 else semilla p).
  unfold JS.simular, JS.metodo.
  unfold JS.bind, JS.this_params, JS.new_SeededRNG, JS.ret.
  cbn [este generadores creados]. fold p. fold s0. cbv zeta.
  rewrite implementa_generarSerieViento
    by (cbn [generadores]; rewrite !length_app; cbn [length]; lia).
  rewrite en_nuevo.
  cbn [este generadores creados fst snd].
  rewrite implementa_generarSerieDemanda
    by (cbn [generadores]; rewrite !length_app; cbn [length]; lia).
  rewrite en_nuevo.
  cbn [este generadores creados fst snd].
  rewrite implementa_bucle
    by (cbn [generadores]; rewrite !length_app; cbn [length]; lia).
  rewrite en_nuevo.
  cbn [este generadores creados fst snd].
  rewrite <- !app_assoc. cbn [app].
  reflexivity.
Qed.

(** C1.  Determinism of [simular()] as a method on the store.  From any
    store, a call returns the results that [simularCon] computes from
    [this.params] alone.  It leaves the instance and every generator
    that existed before the call untouched, and adds four generators of
    its own, created with [semilla || 42], [semilla*7+13],
    [semilla*3+7] and [semilla*11+37]; the first one is never drawn
    from.  So a second call on the same object, made on the store the
    first call leaves, returns equal results, and so does a call from
    any other store in which the merged parameters are the same.  The
    results hold mix and price arrays of 8760 entries and a monthly
    summary of 12. *)
Theorem simular_determinista (w : Memoria) :
  let p := params (este w) in
  let r1 := fst (JS.simular w) in
  let w1 := snd (JS.simular w) in
  let r2 := fst (JS.simular w1) in
  r1 = simularCon p /\
  este w1 = este w /\
  firstn (length (generadores w)) (generadores w1) = generadores w /\
  length (generadores w1) = (length (generadores w) + 4)%nat /\
  nth (length (generadores w)) (generadores w1) 0
    = (if Req_dec_T (semilla p) 0 then 42 else semilla p) /\
  creados w1 =
    creados w ++
    [ (if Req_dec_T (semilla p) 0 then 42 else semilla p);
      semilla p * 7 + 13; semilla p * 3 + 7; semilla p * 11 + 37 ] /\
  r2 = r1 /\
  (forall w', params (este w') = p -> fst (JS.simular w') = r1) /\
  length (r_mix r1) = HORAS_ANIO /\
  length (r_precios r1) = HORAS_ANIO /\
  length (mensual r1) = 12%nat.
Proof.
  intros p r1 w1 r2.
  pose proof (simular_memoria w) as E. cbv zeta in E. fold p in E.
  assert (E1 : r1 = simularCon p) by (unfold r1; rewrite E; reflexivity).
  assert (Ew : w1 = snd (JS.simular w)) by reflexivity.
  rewrite E in Ew. cbn [snd] in Ew.
  assert (Ee : este w1 = este w) by (rewrite Ew; reflexivity).
  split; [exact E1|]. split; [exact Ee|].
  split.
  { rewrite Ew. cbn [generadores].
    rewrite firstn_app, Nat.sub_diag, firstn_all. cbn [firstn].
    apply app_nil_r. }
  split; [rewrite Ew; cbn [generadores]; rewrite length_app; reflexivity|].
  split; [rewrite Ew; cbn [generadores]; apply nth_middle|].
  split; [rewrite Ew; reflexivity|].
  split.
  { unfold r2. rewrite (simular_memoria w1). cbv zeta. cbn [fst].
    rewrite Ee. fold p. symmetry. exact E1. }
  split.
  { intros w' Hw'. rewrite (simular_memoria w'). cbv zeta. cbn [fst].
    rewrite Hw'. symmetry. exact E1. }
  rewrite E1.
  destruct (simularCon_estado p) as (_ & M & P & _).
  destruct (bucle_arrays p HORAS_ANIO) as (L1 & L2 & _).
  split; [rewrite M; exact L1|]. split; [rewrite P; exact L2|].
  unfold simularCon, agregar. cbv zeta. cbn [mensual].
  apply _calcularResumenMensual_length.
Qed.



(** C3, as amended.  In exact arithmetic, with non-negative storage
    capacities and power limits, both storage levels stay between 0 and
    their capacity throughout the loop: they start at half capacity, and
    in every hour [h] they are in range when the hour starts, after the
    charging or discharging of the dispatch branch, and after the battery
    self-discharge that ends the hour.  In binary64 rounding can take a
    level above its capacity. *)
Theorem niveles_almacenamiento (p : Params) (h : nat) :
  0 <= bateriasCapacidad p -> 0 <= bateriasPotencia p ->
  0 <= bombeoCapacidad p -> 0 <= bombeo p ->
  let st := fst (bucle p h) in
  let d := despacho (horaDe p h) in
  let st' := fst (bucle p (S h)) in
  (estadoBateria (fst (bucle p 0)) = bateriasCapacidad p * 0.5 /\
   estadoBombeo (fst (bucle p 0)) = bombeoCapacidad p * 0.5) /\
  (0 <= estadoBateria st <= bateriasCapacidad p /\
   0 <= estadoBombeo st <= bombeoCapacidad p) /\
  (0 <= bateriaTras d <= bateriasCapacidad p /\
   0 <= bombeoTras d <= bombeoCapacidad p) /\
  (estadoBateria st' = bateriaTras d * (1 - AUTODESCARGA_BAT) /\
   estadoBombeo st' = bombeoTras d /\
   0 <= estadoBateria st' <= bateriasCapacidad p /\
   0 <= estadoBombeo st' <= bombeoCapacidad p).
Proof.
  intros Hc Hp Hbc Hb. cbv zeta.
  pose proof (bucle_niveles p h Hc Hp Hbc Hb) as [N1 N2].
  pose proof (bucle_niveles p (S h) Hc Hp Hbc Hb) as [N3 N4].
  destruct (bucle_S_estado p h) as (E1 & E2 & _).
  split; [split; reflexivity|].
  split; [split; assumption|].
  split.
  - rewrite horaDe_eq.
    apply (horaSim_niveles p (entornoDe p) h _ _ Hp Hb N1 N2).
  - repeat split; try assumption; tauto.
Qed.

(** C3, an instance: the battery level of the default scenario when
    hour 100 starts. *)
Lemma niveles_almacenamiento_witness :
  (0 <= bateriasCapacidad PARAMS_DEFAULT /\
   0 <= bateriasPotencia PARAMS_DEFAULT /\
   0 <= bombeoCapacidad PARAMS_DEFAULT /\ 0 <= bombeo PARAMS_DEFAULT) /\
  0 <= estadoBateria (fst (bucle PARAMS_DEFAULT 100))
    <= bateriasCapacidad PARAMS_DEFAULT.
Proof.
  assert (H : 0 <= bateriasCapacidad PARAMS_DEFAULT /\
              0 <= bateriasPotencia PARAMS_DEFAULT /\
              0 <= bombeoCapacidad PARAMS_DEFAULT /\
              0 <= bombeo PARAMS_DEFAULT).
  { cbn [bateriasCapacidad bateriasPotencia bombeoCapacidad bombeo
         PARAMS_DEFAULT]. repeat split; lra. }
  split; [exact H|].
  destruct H as (H1 & H2 & H3 & H4).
  exact (proj1 (proj1 (proj2
           (niveles_almacenamiento PARAMS_DEFAULT 100 H1 H2 H3 H4)))).
Defined.

(** C5, as amended.  With a non-negative installed gas capacity, gas
    output is never negative, never above the installed capacity, at
    most [ccgt * 0.15] in the first hour, and never more than the
    previous hour's output, which the loop keeps as the ramp reference,
    plus [ccgt * 0.15].  The gas output of hour [h] is the [gas] field of
    entry [h] of the mix array of the results. *)
Theorem rampa_gas (p : Params) (h : nat) :
  0 <= ccgt p ->
  0 <= gasDe p h <= ccgt p /\
  gasDe p 0 <= ccgt p * RAMPA_CCGT /\
  gasAnterior (fst (bucle p (S h))) = gasDe p h /\
  gasDe p (S h) <= gasDe p h + ccgt p * RAMPA_CCGT /\
  ((h < HORAS_ANIO)%nat ->
   Gen.gas (nth h (r_mix (simularCon p)) Gen.cero) = gasDe p h).
Proof.
  intros Hc.
  assert (Hmix : (h < HORAS_ANIO)%nat ->
            Gen.gas (nth h (r_mix (simularCon p)) Gen.cero) = gasDe p h).
  { intros Hh. destruct (resultados_hora p h Hh) as (-> & _). reflexivity. }
  unfold gasDe in *.
  assert (G : forall n,
    0 <= Gen.gas (gen (despacho (horaDe p n))) <= ccgt p /\
    Gen.gas (gen (despacho (horaDe p n)))
      <= gasAnterior (fst (bucle p n)) + ccgt p * RAMPA_CCGT).
  { intros n. rewrite horaDe_eq.
    apply (horaSim_gas p (entornoDe p) n _ _ Hc (bucle_gasAnterior p n Hc)). }
  destruct (bucle_S_estado p h) as (_ & _ & E & _).
  split; [apply G|]. split.
  - destruct (G 0%nat) as [_ H]. rewrite bucle_0 in H.
    cbn [fst estadoInicial gasAnterior] in H. lra.
  - split; [exact E|]. split; [|exact Hmix].
    destruct (G (S h)) as [_ H]. rewrite E in H. exact H.
Qed.

(** C5, an instance: the ramp between hours 0 and 1 of the default
    scenario. *)
Lemma rampa_gas_witness :
  0 <= ccgt PARAMS_DEFAULT /\
  gasDe PARAMS_DEFAULT 1 <= gasDe PARAMS_DEFAULT 0
                            + ccgt PARAMS_DEFAULT * RAMPA_CCGT.
Proof.
  assert (H : 0 <= ccgt PARAMS_DEFAULT) by (cbn [ccgt PARAMS_DEFAULT]; lra).
  split; [exact H|].
  exact (proj1 (proj2 (proj2 (proj2 (rampa_gas PARAMS_DEFAULT 0 H))))).
Defined.

(** C5, counterexample.  With a negative installed gas capacity and a
    nuclear fleet that covers any demand, hours 0 and 1 are surplus
    hours with no gas: output 0 in hour 1 is above the capacity of -1,
    and above the output of hour 0 plus [ccgt * 0.15]. *)
Lemma rampa_gas_capacidad_negativa :
  gasDe (soloNuclear (-1)) 0 = 0 /\ gasDe (soloNuclear (-1)) 1 = 0 /\
  ~ (gasDe (soloNuclear (-1)) 1
       <= gasDe (soloNuclear (-1)) 0 + ccgt (soloNuclear (-1)) * RAMPA_CCGT
     /\ gasDe (soloNuclear (-1)) 1 <= ccgt (soloNuclear (-1))).
Proof.
  unfold gasDe.
  assert (H0 : (0 < HORAS_ANIO)%nat) by exact HORAS_ANIO_pos.
  assert (H1 : (1 < HORAS_ANIO)%nat) by (rewrite HORAS_ANIO_eq; lia).
  rewrite (horaDe_soloNuclear (-1) 0 H0), (horaDe_soloNuclear (-1) 1 H1).
  cbn [ccgt soloNuclear]. unfold RAMPA_CCGT.
  split; [reflexivity|]. split; [reflexivity|]. lra.
Qed.

(** C6, as amended.  When the regulated pass-through factor
    [1 + perdidasRed] is not negative, raising the scarcity price and
    nothing else leaves the dispatch of every hour as it was, lowers no
    hourly price, and so does not lower the count of high-price hours. *)
Theorem escasez_monotona (p : Params) (v : R) :
  precioEscasez p <= v -> -1 <= perdidasRed p ->
  let r1 := simularCon p in
  let r2 := simularCon (conEscasez p v) in
  r_mix r1 = r_mix r2 /\
  Forall2 Rle (r_precios r1) (r_precios r2) /\
  (horasPrecioAlto (contadores r1) <= horasPrecioAlto (contadores r2))%nat.
Proof.
  intros Hv Hp. cbv zeta.
  destruct (simularCon_estado p) as (C1 & M1 & P1 & _).
  destruct (simularCon_estado (conEscasez p v)) as (C2 & M2 & P2 & _).
  rewrite C1, M1, P1, C2, M2, P2.
  destruct (bucle_conEscasez p v Hv ltac:(lra) HORAS_ANIO)
    as (_ & _ & _ & _ & HM & _ & HP & HA).
  auto.
Qed.

(** C6, an instance: the default scenario with its scarcity price
    raised from 350 to 400. *)
Lemma escasez_monotona_witness :
  (precioEscasez PARAMS_DEFAULT <= 400 /\ -1 <= perdidasRed PARAMS_DEFAULT) /\
  (horasPrecioAlto (contadores (simularCon PARAMS_DEFAULT))
   <= horasPrecioAlto
        (contadores (simularCon (conEscasez PARAMS_DEFAULT 400))))%nat.
Proof.
  assert (H : precioEscasez PARAMS_DEFAULT <= 400 /\
              -1 <= perdidasRed PARAMS_DEFAULT).
  { cbn [precioEscasez perdidasRed PARAMS_DEFAULT]. split; lra. }
  split; [exact H|]. destruct H as [H1 H2].
  exact (proj2 (proj2 (escasez_monotona PARAMS_DEFAULT 400 H1 H2))).
Defined.

(** C6, counterexample.  With a network-loss rate of -2 the regulated
    pass-through turns the price around: in a system with no resources,
    a system charge of 200 and a scarcity price of 0 every one of the
    8760 hours is priced at 164, above 150; raising the scarcity price to
    100 prices every hour at 100 and leaves no high-price hour. *)
Lemma escasez_perdidas_negativas :
  precioEscasez (sinRecursos 0 (-2) 200 0) <= 100 /\
  horasPrecioAlto (contadores (simularCon (sinRecursos 0 (-2) 200 0)))
    = HORAS_ANIO /\
  horasPrecioAlto
    (contadores (simularCon (conEscasez (sinRecursos 0 (-2) 200 0) 100)))
    = 0%nat /\
  ~ (horasPrecioAlto (contadores (simularCon (sinRecursos 0 (-2) 200 0)))
     <= horasPrecioAlto
          (contadores
             (simularCon (conEscasez (sinRecursos 0 (-2) 200 0) 100))))%nat.
Proof.
  split; [cbn [precioEscasez sinRecursos]; lra|].
  change (conEscasez (sinRecursos 0 (-2) 200 0) 100)
    with (sinRecursos 0 (-2) 200 100).
  destruct (simularCon_estado (sinRecursos 0 (-2) 200 0)) as (C1 & _).
  destruct (simularCon_estado (sinRecursos 0 (-2) 200 100)) as (C2 & _).
  rewrite C1, C2.
  destruct (bucle_sinRecursos (-2) 200 0 HORAS_ANIO (Nat.le_refl _))
    as (_ & _ & _ & A1).
  destruct (bucle_sinRecursos (-2) 200 100 HORAS_ANIO (Nat.le_refl _))
    as (_ & _ & _ & A2).
  rewrite A1, A2.
  assert (P1 : precioSinRecursos (-2) 200 0 = 164).
  { unfold precioSinRecursos. rewrite (Rmax_left 36 0) by lra.
    replace (36 * (1 + -2) + 200) with 164 by ring.
    rewrite (Rmax_right (-25) 164) by lra. apply Rmin_right. lra. }
  assert (P2 : precioSinRecursos (-2) 200 100 = 100).
  { unfold precioSinRecursos. rewrite (Rmax_right 36 100) by lra.
    replace (100 * (1 + -2) + 200) with 100 by ring.
    rewrite (Rmax_right (-25) 100) by lra. apply Rmin_right. lra. }
  rewrite P1, P2.
  assert (G1 : gt 164 150 = true) by (apply gt_true_iff; lra).
  assert (G2 : gt 100 150 = false) by (apply gt_false_iff; lra).
  rewrite G1, G2. cbn [uno_si].
  pose proof HORAS_ANIO_pos. repeat split; lia.
Qed.

(** C7, as amended.  The solar capacity factor is 0 when the sine of the
    solar elevation is at most 0.01; otherwise it is the clamp to [0, 1]
    of sine x transmittance x cloud factor x 1.35, with transmittance
    [0.75 * 0.70^(AM^0.678)] and the air mass capped at 20:
    [AM = min(20, 1 / sine)], the sine being floored at 0.05 before it
    divides.  Outside the band 0.01 < sine < 0.05 this is the factor the
    specification describes. *)
Theorem solar_masa_aire_acotada (dia hora nubes : R) :
  let s := sinElevacion dia hora in
  calcularSolar dia hora nubes =
    (if le s 0.01 then 0
     else Rmax 0 (Rmin 1 (s * (0.75 * Rpower 0.70
                                       (Rpower (Rmin 20 (1 / s)) 0.678))
                          * nubes * 1.35))) /\
  (~ (0.01 < s < 0.05) ->
   calcularSolar dia hora nubes = solarSegunSpec dia hora nubes).
Proof.
  cbv zeta. unfold calcularSolar, solarSegunSpec. cbv zeta.
  set (s := sinElevacion dia hora).
  destruct (le s 0.01) eqn:E; a_prop; [split; reflexivity|].
  rewrite masaAire_acotada by lra.
  split; [reflexivity|]. intros H.
  rewrite (Rmin_right 20 (1 / s)); [reflexivity|].
  apply Rmult_le_reg_r with s; [lra|]. field_simplify; lra.
Qed.

(** C7, an instance: at 6 h on day 81 the sine of the elevation is 0. *)
Lemma solar_masa_aire_acotada_witness :
  calcularSolar 81 6 1 = solarSegunSpec 81 6 1.
Proof.
  apply (solar_masa_aire_acotada 81 6 1).
  assert (E : sinElevacion 81 6 = 0).
  { unfold sinElevacion. cbv zeta.
    replace ((6 - 12) * 15 * PI / 180) with (- (PI / 2)) by field.
    rewrite cos_neg, cos_PI2.
    replace (2 * PI * (284 + 81) / 365) with (2 * PI) by field.
    rewrite sin_2PI. rewrite Rmult_0_r.
    unfold Rdiv. rewrite !Rmult_0_l, sin_0. ring. }
  rewrite E. lra.
Defined.

(** C7, counterexample.  At 6 h on day 257, under a clear sky, the sine
    of the elevation is between 0.025 and 0.05: the code divides by 0.05
    (air mass 20) where the specification divides by the sine itself (air
    mass above 20), and the two capacity factors differ. *)
Lemma solar_sol_rasante :
  calcularSolar 257 6 1 <> solarSegunSpec 257 6 1.
Proof.
  pose proof sinElevacion_257_6 as [S1 S2].
  unfold calcularSolar, solarSegunSpec. cbv zeta.
  set (s := sinElevacion 257 6) in *. clearbody s.
  assert (E : le s 0.01 = false) by (apply le_false_iff; lra).
  rewrite E. rewrite (Rmax_left 0.05 s) by lra.
  assert (A : 1 / 0.05 < 1 / s).
  { apply Rmult_lt_reg_r with s; [lra|]. field_simplify; lra. }
  assert (A0 : 0 < 1 / 0.05) by lra.
  pose proof (Rlt_Rpower_l (1 / 0.05) (1 / s) 0.678 ltac:(lra)
                ltac:(split; lra)) as B.
  assert (B0 : 0 < Rpower (1 / 0.05) 0.678) by apply exp_pos.
  pose proof (Rpower_070_decrece _ _ B) as C.
  pose proof (Rpower_070_rango _ B0) as [C1 C2].
  pose proof (Rpower_070_rango (Rpower (1 / s) 0.678) ltac:(apply exp_pos))
    as [D1 D2].
  set (t1 := Rpower 0.70 (Rpower (1 / 0.05) 0.678)) in *.
  set (t2 := Rpower 0.70 (Rpower (1 / s) 0.678)) in *.
  clearbody t1 t2.
  assert (V1 : 0 < s * (0.75 * t1) * 1 * 1.35 < 1) by (split; nra).
  assert (V2 : 0 < s * (0.75 * t2) * 1 * 1.35 < 1) by (split; nra).
  assert (V : s * (0.75 * t2) * 1 * 1.35 < s * (0.75 * t1) * 1 * 1.35)
    by nra.
  rewrite (Rmin_right 1 (s * (0.75 * t1) * 1 * 1.35)) by lra.
  rewrite (Rmin_right 1 (s * (0.75 * t2) * 1 * 1.35)) by lra.
  rewrite !Rmax_right by lra. lra.
Qed.

(** C8, as amended.  Without the decommission plan the effective
    nuclear capacity is the installed capacity.  With it, it is the
    installed capacity times the linear ramp from 1 at the base year 2026
    to 0 at the decommission year, the decommission year being taken as
    at least 2027 and the product being floored at 0.  For a non-negative
    installed capacity and a decommission year of 2027 or later this is
    the capacity the specification describes. *)
Theorem nuclear_disponible_rampa (p : Params) :
  calcularNuclearDisponible p =
    (if aplicarPlanNuclear p
     then Rmax 0 (nuclear p
                  * rampaNuclear (anioObjetivo p)
                                 (Rmax 2027 (cierreNuclear p)))
     else nuclear p) /\
  (0 <= nuclear p -> 2027 <= cierreNuclear p ->
   calcularNuclearDisponible p = nuclearSegunSpec p).
Proof.
  assert (R0 : forall a c, 2027 <= c ->
            Rmax 0 (1 - Rmax 0 (a - 2026) / Rmax 1 (c - 2026))
            = rampaNuclear a c).
  { intros a c Hc. unfold rampaNuclear.
    rewrite (Rmax_right 1 (c - 2026)) by lra.
    destruct (le a 2026) eqn:E1; a_prop.
    - rewrite (Rmax_left 0 (a - 2026)) by lra.
      unfold Rdiv. rewrite Rmult_0_l, Rminus_0_r. apply Rmax_right. lra.
    - rewrite (Rmax_right 0 (a - 2026)) by lra.
      destruct (le c a) eqn:E2; a_prop.
      + apply Rmax_left.
        assert (1 <= (a - 2026) / (c - 2026)); [|lra].
        apply Rmult_le_reg_r with (c - 2026); [lra|].
        field_simplify; lra.
      + apply Rmax_right.
        assert ((a - 2026) / (c - 2026) <= 1); [|lra].
        apply Rmult_le_reg_r with (c - 2026); [lra|].
        field_simplify; lra. }
  assert (R1 : forall a c, 0 <= rampaNuclear a c).
  { intros a c. unfold rampaNuclear.
    destruct (le a 2026) eqn:E1; [lra|].
    destruct (le c a) eqn:E2; [lra|]. a_prop.
    assert ((a - 2026) / (c - 2026) <= 1); [|lra].
    apply Rmult_le_reg_r with (c - 2026); [lra|].
    field_simplify; lra. }
  unfold calcularNuclearDisponible, nuclearSegunSpec. cbv zeta.
  destruct (aplicarPlanNuclear p); cbn [negb]; [|split; reflexivity].
  replace (2026 + 1) with 2027 by ring.
  rewrite R0 by apply Rmax_l.
  split; [reflexivity|]. intros Hn Hc.
  rewrite (Rmax_right 2027 (cierreNuclear p)) by exact Hc.
  apply Rmax_right.
  pose proof (R1 (anioObjetivo p) (cierreNuclear p)). nra.
Qed.

(** C8, an instance: the default scenario. *)
Lemma nuclear_disponible_rampa_witness :
  (0 <= nuclear PARAMS_DEFAULT /\ 2027 <= cierreNuclear PARAMS_DEFAULT) /\
  calcularNuclearDisponible PARAMS_DEFAULT = nuclearSegunSpec PARAMS_DEFAULT.
Proof.
  assert (H : 0 <= nuclear PARAMS_DEFAULT /\
              2027 <= cierreNuclear PARAMS_DEFAULT).
  { cbn [nuclear cierreNuclear PARAMS_DEFAULT]. split; lra. }
  split; [exact H|]. destruct H as [H1 H2].
  exact (proj2 (nuclear_disponible_rampa PARAMS_DEFAULT) H1 H2).
Defined.

(** C8, counterexample.  With the plan active, a decommission year of
    2026 and a target of 2026.5, the target is past the decommission
    year and the specification's ramp is 0; the code moves the
    decommission year to 2027 and leaves half of the 7 GW. *)
Lemma nuclear_cierre_adelantado :
  calcularNuclearDisponible planAdelantado = 3.5 /\
  nuclearSegunSpec planAdelantado = 0 /\
  calcularNuclearDisponible planAdelantado <> nuclearSegunSpec planAdelantado.
Proof.
  assert (A : calcularNuclearDisponible planAdelantado = 3.5).
  { unfold calcularNuclearDisponible. cbv zeta.
    cbn [aplicarPlanNuclear planAdelantado negb cierreNuclear anioObjetivo
         nuclear].
    rewrite (Rmax_left (2026 + 1) 2026) by lra.
    rewrite (Rmax_right 0 (2026.5 - 2026)) by lra.
    rewrite (Rmax_left 1 (2026 + 1 - 2026)) by lra.
    rewrite (Rmax_right 0 (1 - (2026.5 - 2026) / 1)) by lra.
    rewrite Rmax_right by lra. lra. }
  assert (B : nuclearSegunSpec planAdelantado = 0).
  { unfold nuclearSegunSpec, rampaNuclear.
    cbn [aplicarPlanNuclear planAdelantado cierreNuclear anioObjetivo
         nuclear].
    assert (E1 : le 2026.5 2026 = false) by (apply le_false_iff; lra).
    assert (E2 : le 2026 2026.5 = true) by (apply le_true_iff; lra).
    rewrite E1, E2. ring. }
  split; [exact A|]. split; [exact B|]. rewrite A, B. lra.
Qed.



(** C10, as amended.  In every hour the deficit handed to the price
    formation is [max(0, demand - base generation - hydro - battery
    discharge - pumped discharge - gas - import)], recomputed from the
    flows of the hour, and it is 0 in a surplus hour.  In exact
    arithmetic it is the unserved remainder left after gas plus the
    downward flexible demand of the hour, and it is strictly above the
    remainder the deficit counters see exactly when step 7, the
    reduction of flexible demand, was entered in that hour.  In binary64
    rounding can make the two differ. *)
Theorem deficit_de_contexto (p : Params) (h : nat) :
  let hr := horaDe p h in
  let d := despacho hr in
  let g := gen d in
  Ctx.deficit (ctx hr) =
    Rmax 0 (demandaGW hr - genBase hr - Gen.hidraulica g - Gen.baterias g
            - Gen.bombeo g - Gen.gas g - Gen.importacion g) /\
  Ctx.deficit (ctx hr) = deficitFinal d + flexDown d /\
  (if gt (genBase hr - demandaGW hr) 0
   then Ctx.deficit (ctx hr) = 0 else True) /\
  (deficitFinal d < Ctx.deficit (ctx hr) <-> redujoDemanda d = true).
Proof.
  cbv zeta. rewrite horaDe_eq.
  set (st := fst (bucle p h)). set (s := snd (bucle p h)).
  pose proof (horaSim_ctx p (entornoDe p) h st s) as C.
  cbv zeta in C. destruct C as (C1 & C2 & C3).
  destruct (horaSim_forma p (entornoDe p) h st s)
    as (Hd & Hb & _ & Hctx & _).
  split.
  - rewrite Hctx at 1. cbn [Ctx.deficit]. rewrite Hd, Hb. reflexivity.
  - split; [exact C1|]. split; [|exact C3].
    destruct (gt _ 0) eqn:E; [|exact I]. a_prop. apply C2, E.
Qed.

(* ================================================================== *)
(** * Further facts about the generators and the series *)
(* ================================================================== *)

(** [exp 24] is above 1e10, by squaring [exp (24 / 512)] nine times. *)
Lemma exp_24 : 10000000000 <= exp 24.
Proof.
  pose proof (exp_ineq1_le 0.046875) as E0.
  assert (D : forall x a, 0 < a -> a <= exp x -> a * a <= exp (x + x)).
  { intros x a Ha H. rewrite exp_plus. nra. }
  assert (E1 : 1.0959 <= exp 0.09375).
  { replace 0.09375 with (0.046875 + 0.046875) by lra.
    eapply Rle_trans; [|apply (D _ (1 + 0.046875)); lra]. lra. }
  assert (E2 : 1.2009 <= exp 0.1875).
  { replace 0.1875 with (0.09375 + 0.09375) by lra.
    eapply Rle_trans; [|apply (D _ 1.0959); lra]. lra. }
  assert (E3 : 1.4421 <= exp 0.375).
  { replace 0.375 with (0.1875 + 0.1875) by lra.
    eapply Rle_trans; [|apply (D _ 1.2009); lra]. lra. }
  assert (E4 : 2.0796 <= exp 0.75).
  { replace 0.75 with (0.375 + 0.375) by lra.
    eapply Rle_trans; [|apply (D _ 1.4421); lra]. lra. }
  assert (E5 : 4.3247 <= exp 1.5).
  { replace 1.5 with (0.75 + 0.75) by lra.
    eapply Rle_trans; [|apply (D _ 2.0796); lra]. lra. }
  assert (E6 : 18.703 <= exp 3).
  { replace 3 with (1.5 + 1.5) by lra.
    eapply Rle_trans; [|apply (D _ 4.3247); lra]. lra. }
  assert (E7 : 349.8 <= exp 6).
  { replace 6 with (3 + 3) by lra.
    eapply Rle_trans; [|apply (D _ 18.703); lra]. lra. }
  assert (E8 : 122360 <= exp 12).
  { replace 12 with (6 + 6) by lra.
    eapply Rle_trans; [|apply (D _ 349.8); lra]. lra. }
  replace 24 with (12 + 12) by lra.
  eapply Rle_trans; [|apply (D _ 122360); lra]. lra.
Qed.

(** The first uniform draw of [gauss] is kept above 1e-10, which keeps
    the radius of the Box-Muller transform below 7. *)
Lemma radio_gauss (v1 : R) : 0 <= sqrt (-2 * ln (Rmax 1e-10 v1)) <= 7.
Proof.
  split; [apply sqrt_pos|].
  set (u1 := Rmax 1e-10 v1).
  assert (Hu : 1e-10 <= u1) by apply Rmax_l.
  assert (L : -24 <= ln u1).
  { assert (H : ln 1e-10 <= ln u1).
    { destruct Hu as [Hu|Hu]; [left; apply ln_increasing; lra|].
      rewrite <- Hu. lra. }
    assert (K : ln 10000000000 <= 24).
    { rewrite <- (ln_exp 24).
      destruct exp_24 as [E|E]; [left; apply ln_increasing; lra|].
      rewrite <- E. lra. }
    replace 1e-10 with (/ 10000000000) in H by lra.
    rewrite ln_Rinv in H by lra. lra. }
  replace 7 with (sqrt (7 * 7)) by (apply sqrt_square; lra).
  apply sqrt_le_1_alt. lra.
Qed.

(** [gauss] returns the mean plus sigma times a factor of absolute value
    at most 7, and draws twice. *)
Lemma gauss_forma (media sigma seed : R) :
  exists z, -7 <= z <= 7 /\
    fst (gauss media sigma seed) = media + sigma * z /\
    snd (gauss media sigma seed) = snd (next (snd (next seed))).
Proof.
  unfold gauss, bind, ret.
  destruct (next seed) as [v1 s1]. cbn [snd].
  destruct (next s1) as [u2 s2]. cbn [fst snd].
  exists (sqrt (-2 * ln (Rmax 1e-10 v1)) * cos (2 * PI * u2)).
  split; [|split; reflexivity].
  pose proof (radio_gauss v1) as Hr.
  pose proof (COS_bound (2 * PI * u2)) as Hc.
  set (r := sqrt (-2 * ln (Rmax 1e-10 v1))) in *.
  set (c := cos (2 * PI * u2)) in *. clearbody r c.
  split; nra.
Qed.

Lemma TEMP_MENSUAL_mes (mes : nat) :
  (mes < 12)%nat -> 6.3 <= nth mes TEMP_MENSUAL 0 <= 27.
Proof.
  intros H. unfold TEMP_MENSUAL.
  do 12 (destruct mes as [|mes]; [cbn [nth]; lra|]). lia.
Qed.

(** Every entry of the demand shape lies between 0.52 and 1.71. *)
Lemma demandaHora_cotas_finas (i : nat) (seed : R) :
  0.52 <= fst (demandaHora i seed) <= 1.71.
Proof.
  unfold demandaHora. cbv zeta. unfold bind, ret.
  destruct (gauss_forma 0 1.5 seed) as (z & Hz & G & _).
  destruct (gauss 0 1.5 seed) as [ruido s1]. cbn [fst] in G.
  pose proof (next_rango s1) as N.
  destruct (next s1) as [u s2]. cbn [fst] in N |- *.
  pose proof (TEMP_MENSUAL_mes (mesDe (i / 24) mod 12)
                ltac:(apply Nat.mod_upper_bound; lia)) as T.
  set (tb := nth (mesDe (i / 24) mod 12) TEMP_MENSUAL 0) in *.
  pose proof (SIN_bound ((INR (i mod 24) - 6) * PI / 12)) as S.
  set (sn := sin ((INR (i mod 24) - 6) * PI / 12)) in *.
  set (temp := tb + 4.5 * sn + ruido).
  set (ft := if gt temp 25 then 1 + (temp - 25) * 0.018
             else if lt temp 15 then 1 + (15 - temp) * 0.013 else 1.0).
  assert (Hft : 1 <= ft <= 1.3081).
  { unfold ft. unfold temp. casos; a_prop; lra. }
  clearbody ft.
  pose proof (exp_menos_cuadrado ((INR (i mod 24) - 10) / 2.8)) as H1.
  pose proof (exp_menos_cuadrado ((INR (i mod 24) - 20) / 2.5)) as H2.
  set (e1 := exp (- cuadrado ((INR (i mod 24) - 10) / 2.8))) in *.
  set (e2 := exp (- cuadrado ((INR (i mod 24) - 20) / 2.5))) in *.
  set (fl := if (i / 24 mod 7 <? 5)%nat then 1.04 else 0.87).
  assert (Hfl : 0.87 <= fl <= 1.04) by (unfold fl; casos; lra).
  clearbody fl e1 e2.
  set (a := 0.62 + e1 * 0.28 + e2 * 0.32).
  assert (Ha : 0.62 <= a <= 1.22) by (unfold a; lra).
  clearbody a.
  assert (Hab : 0.5394 <= a * fl <= 1.2688) by nra.
  set (ab := a * fl) in *. clearbody ab.
  assert (Habc : 0.5394 <= ab * ft <= 1.65972) by nra.
  set (abc := ab * ft) in *. clearbody abc.
  nra.
Qed.

Lemma serieDemanda_cotas_finas (n : nat) (seed : R) :
  let serie := fst (forRng n pasoDemanda [] seed) in
  length serie = n /\ Forall (fun v => 0.52 <= v <= 1.71) serie.
Proof.
  apply (forRng_inv
           (fun k l => length l = k /\ Forall (fun v => 0.52 <= v <= 1.71) l)).
  - split; [reflexivity | constructor].
  - intros k l s [L F]. unfold pasoDemanda, bind, ret.
    pose proof (demandaHora_cotas_finas k s) as D.
    destruct (demandaHora k s) as [v s']. cbn [fst] in *.
    split.
    + rewrite length_app. cbn [length]. lia.
    + apply Forall_app. split; [exact F | constructor; [exact D | constructor]].
Qed.





(* ================================================================== *)
(** * Bounds and merit order of the two branches *)
(* ================================================================== *)

Lemma calcularHidro_rango (p : Params) (dia hora : nat) :
  0.08 <= calcularHidro p dia hora <= 0.85.
Proof.
  unfold calcularHidro. cbv zeta. split; [apply Rmax_l|].
  apply Rmax_lub; [lra | apply Rmin_l].
Qed.

Lemma ramaExcedente_cotas p flexCap gn gs ge exc eB eBo :
  0 < exc ->
  0 <= bateriasPotencia p -> 0 <= bombeo p ->
  eB <= bateriasCapacidad p -> eBo <= bombeoCapacidad p ->
  let d := ramaExcedente p flexCap gn gs ge exc eB eBo in
  0 <= Gen.cargaBaterias (gen d) <= bateriasPotencia p /\
  0 <= Gen.cargaBombeo (gen d) <= bombeo p /\
  0 <= flexUp d <= Rmax 0 flexCap /\
  0 <= Gen.exportacion (gen d) <= Rmax 0 (interconexion p) /\
  0 <= Gen.vertido (gen d).
Proof.
  intros Hexc Hp Hb HB HBo. unfold ramaExcedente. cbv zeta.
  unfold EFICIENCIA_BAT, EFICIENCIA_BOMBEO.
  casos; campos; a_prop; partir_minmax; lra.
Qed.

(** The next stage of a dispatch branch: the first [if] of the goal whose
    test is closed. *)
Ltac etapa t :=
  lazymatch goal with
  | |- context [if ?c then ?a else ?b] => set (t := if c then a else b)
  end.

Ltac resolver_etapa t :=
  unfold t; casos; a_prop; cbn [fst snd]; partir_minmax;
  repeat split; intros; lra.

Lemma ramaDeficit_cotas p flexCap gn gs ge dia hora exc eB eBo gasAnt :
  exc <= 0 ->
  0 <= hidraulica p -> 0 <= bateriasPotencia p -> 0 <= bombeo p ->
  0 <= eB -> 0 <= eBo ->
  let d := ramaDeficit p flexCap gn gs ge dia hora exc eB eBo gasAnt in
  0 <= Gen.hidraulica (gen d) <= 0.85 * hidraulica p /\
  0 <= Gen.baterias (gen d) <= bateriasPotencia p /\
  0 <= Gen.bombeo (gen d) <= bombeo p /\
  0 <= flexDown d <= Rmax 0 flexCap /\
  0 <= Gen.importacion (gen d) <= Rmax 0 (interconexion p).
Proof.
  intros Hexc Hh Hp Hb HB HBo. unfold ramaDeficit. cbv zeta.
  pose proof (calcularHidro_rango p dia hora) as Hf.
  assert (Hhd : 0 <= hidraulica p * calcularHidro p dia hora
                <= 0.85 * hidraulica p) by (split; nra).
  set (hd := hidraulica p * calcularHidro p dia hora) in *. clearbody hd.
  clear Hf.
  assert (H1 : 0 <= Rmin hd (- exc) <= 0.85 * hidraulica p
               /\ 0 <= - exc - Rmin hd (- exc))
    by (partir_minmax; lra).
  set (gH := Rmin hd (- exc)) in *. clearbody gH.
  set (d1 := - exc - gH) in *. clearbody d1.
  etapa t2.
  assert (T2 : 0 <= fst (fst t2) <= bateriasPotencia p /\ 0 <= snd t2)
    by resolver_etapa t2.
  clearbody t2. destruct t2 as [[gB eB'] d2]. cbn [fst snd] in T2.
  etapa t3.
  assert (T3 : 0 <= fst (fst t3) <= bombeo p /\ 0 <= snd t3)
    by resolver_etapa t3.
  clearbody t3. destruct t3 as [[gBo eBo'] d3]. cbn [fst snd] in T3.
  etapa t4.
  assert (T4 : 0 <= fst (fst (fst t4)) <= Rmax 0 flexCap
               /\ 0 <= snd (fst (fst t4)))
    by resolver_etapa t4.
  clearbody t4. destruct t4 as [[[fD d4] nF] rd]. cbn [fst snd] in T4.
  etapa t5.
  assert (T5 : 0 <= fst (fst t5) <= Rmax 0 (interconexion p))
    by resolver_etapa t5.
  clearbody t5. destruct t5 as [[imp d5] nI]. cbn [fst snd] in T5.
  etapa t6. clearbody t6. destruct t6 as [[gG d6] nG].
  campos. repeat split; lra.
Qed.

(** A branch that curtails, or that leaves demand unserved, has used
    every step before at its limit. *)

Lemma ramaExcedente_saturado p flexCap gn gs ge exc eB eBo :
  0 < exc ->
  let d := ramaExcedente p flexCap gn gs ge exc eB eBo in
  0 < Gen.vertido (gen d) ->
  Gen.cargaBaterias (gen d) =
    Rmin (bateriasPotencia p) ((bateriasCapacidad p - eB) / EFICIENCIA_BAT) /\
  Gen.cargaBombeo (gen d) =
    Rmin (bombeo p) ((bombeoCapacidad p - eBo) / EFICIENCIA_BOMBEO) /\
  (0 < flexCap -> flexUp d = flexCap) /\
  (0 < interconexion p -> Gen.exportacion (gen d) = interconexion p).
Proof.
  intros Hexc. unfold ramaExcedente. cbv zeta.
  unfold EFICIENCIA_BAT, EFICIENCIA_BOMBEO.
  casos; campos; a_prop; intros Hv; partir_minmax;
    try (exfalso; lra); repeat split; intros; lra.
Qed.

Lemma ramaDeficit_saturado p flexCap gn gs ge dia hora exc eB eBo gasAnt :
  let d := ramaDeficit p flexCap gn gs ge dia hora exc eB eBo gasAnt in
  0 < deficitFinal d ->
  Gen.hidraulica (gen d) = hidraulica p * calcularHidro p dia hora /\
  (0 < eB -> Gen.baterias (gen d) = Rmin (bateriasPotencia p) eB) /\
  (0 < eBo -> Gen.bombeo (gen d) = Rmin (bombeo p) eBo) /\
  (0 < flexCap -> flexDown d = flexCap) /\
  (0 < interconexion p -> Gen.importacion (gen d) = interconexion p) /\
  Gen.gas (gen d) = Rmin (ccgt p) (ccgt p * RAMPA_CCGT + gasAnt).
Proof.
  unfold ramaDeficit. cbv zeta. unfold RAMPA_CCGT.
  set (hd := hidraulica p * calcularHidro p dia hora). clearbody hd.
  assert (H1 : 0 < - exc - Rmin hd (- exc) -> Rmin hd (- exc) = hd)
    by (partir_minmax; lra).
  set (gH := Rmin hd (- exc)) in *. clearbody gH.
  set (d1 := - exc - gH) in *. clearbody d1.
  etapa t2.
  assert (T2 : 0 < snd t2 ->
               0 < d1 /\
               (0 < eB -> fst (fst t2) = Rmin (bateriasPotencia p) eB))
    by resolver_etapa t2.
  clearbody t2. destruct t2 as [[gB eB'] d2]. cbn [fst snd] in T2.
  etapa t3.
  assert (T3 : 0 < snd t3 ->
               0 < d2 /\ (0 < eBo -> fst (fst t3) = Rmin (bombeo p) eBo))
    by resolver_etapa t3.
  clearbody t3. destruct t3 as [[gBo eBo'] d3]. cbn [fst snd] in T3.
  etapa t4.
  assert (T4 : 0 < snd (fst (fst t4)) ->
               0 < d3 /\ (0 < flexCap -> fst (fst (fst t4)) = flexCap))
    by resolver_etapa t4.
  clearbody t4. destruct t4 as [[[fD d4] nF] rd]. cbn [fst snd] in T4.
  etapa t5.
  assert (T5 : 0 < snd (fst t5) ->
               0 < d4 /\
               (0 < interconexion p -> fst (fst t5) = interconexion p))
    by resolver_etapa t5.
  clearbody t5. destruct t5 as [[imp d5] nI]. cbn [fst snd] in T5.
  etapa t6.
  assert (T6 : 0 < snd (fst t6) ->
               0 < d5 /\
               fst (fst t6) = Rmin (ccgt p) (ccgt p * 0.15 + gasAnt))
    by resolver_etapa t6.
  clearbody t6. destruct t6 as [[gG d6] nG]. cbn [fst snd] in T6.
  campos. intros Hv.
  destruct (T6 Hv) as [P5 S6]. destruct (T5 P5) as [P4 S5].
  destruct (T4 P4) as [P3 S4]. destruct (T3 P3) as [P2 S3].
  destruct (T2 P2) as [P1 S2].
  repeat split; auto.
Qed.

(* ================================================================== *)
(** * Further facts about one hour of the run *)
(* ================================================================== *)

Lemma calcularSolar_rango (dia hora nubes : R) :
  0 <= calcularSolar dia hora nubes <= 1.
Proof.
  unfold calcularSolar. cbv zeta. casos; [lra|].
  split; [apply Rmax_l|]. apply Rmax_lub; [lra | apply Rmin_l].
Qed.




Lemma demanda_cotas_finas (p : Params) (h : nat) :
  (h < HORAS_ANIO)%nat ->
  10 <= demandaMediaGW (entornoDe p) * nth h (serieDemanda (entornoDe p)) 0
     <= 71.
Proof.
  intros Hh. unfold entornoDe. cbv zeta. cbn [demandaMediaGW serieDemanda].
  rewrite INR_HORAS_ANIO.
  pose proof (calcularDemandaAjustada_rango p) as D.
  destruct (serieDemanda_cotas_finas HORAS_ANIO
              (SeededRNG (semilla p * 3 + 7))) as [L F].
  fold generarSerieDemanda in L, F.
  set (serie := fst (generarSerieDemanda (SeededRNG (semilla p * 3 + 7)))) in *.
  assert (E : 0.52 <= nth h serie 0 <= 1.71).
  { rewrite Forall_forall in F. apply (F (nth h serie 0)), nth_In. lia. }
  clearbody serie.
  set (v := nth h serie 0) in *. clearbody v.
  set (D0 := calcularDemandaAjustada p) in *. clearbody D0.
  split; nra.
Qed.


(** The dispatch of hour [h] of the run, as a call of one branch. *)
Lemma horaDe_ramas (p : Params) (h : nat) :
  let st := fst (bucle p h) in
  let hr := horaDe p h in
  let flexCap :=
    Rmin (flexibilidadGW p) (demandaGW hr * (flexibilidadPct p / 100)) in
  let g := gen (despacho hr) in
  (0 < genBase hr - demandaGW hr /\
   despacho hr =
     ramaExcedente p flexCap (Gen.nuclear g) (Gen.solar g) (Gen.eolica g)
       (genBase hr - demandaGW hr) (estadoBateria st) (estadoBombeo st)) \/
  (genBase hr - demandaGW hr <= 0 /\
   despacho hr =
     ramaDeficit p flexCap (Gen.nuclear g) (Gen.solar g) (Gen.eolica g)
       (h / 24) (h mod 24)
       (genBase hr - demandaGW hr) (estadoBateria st) (estadoBombeo st)
       (gasAnterior st)).
Proof.
  cbv zeta. rewrite horaDe_eq.
  destruct (horaSim_forma p (entornoDe p) h (fst (bucle p h))
              (snd (bucle p h))) as (Hd & Hb & Hdes & _).
  rewrite Hd, Hb.
  destruct (gt _ 0) eqn:E; a_prop; [left | right]; (split; [lra|]).
  - rewrite Hdes at 1.
    match goal with
    | |- ?d = _ => 
        pose proof (ramaExcedente_base p
          (Rmin (flexibilidadGW p)
             (demandaMediaGW (entornoDe p)
              * nth h (serieDemanda (entornoDe p)) 0
              * (flexibilidadPct p / 100)))
          (nuclearGW (entornoDe p) * FC_NUCLEAR)
          (solar p * calcularSolar (INR (h / 24)) (INR (h mod 24))
                       (0.65 + fst (next (snd (bucle p h))) * 0.35))
          (eolica p * nth h (serieViento (entornoDe p)) 0)
          (nuclearGW (entornoDe p) * FC_NUCLEAR
           + solar p * calcularSolar (INR (h / 24)) (INR (h mod 24))
                         (0.65 + fst (next (snd (bucle p h))) * 0.35)
           + eolica p * nth h (serieViento (entornoDe p)) 0
           - demandaMediaGW (entornoDe p)
             * nth h (serieDemanda (entornoDe p)) 0)
          (estadoBateria (fst (bucle p h))) (estadoBombeo (fst (bucle p h))))
          as B
    end.
    cbv zeta in B. rewrite <- Hdes in B. destruct B as (B1 & B2 & B3).
    rewrite B1, B2, B3. reflexivity.
  - rewrite Hdes at 1.
    pose proof (ramaDeficit_base p
          (Rmin (flexibilidadGW p)
             (demandaMediaGW (entornoDe p)
              * nth h (serieDemanda (entornoDe p)) 0
              * (flexibilidadPct p / 100)))
          (nuclearGW (entornoDe p) * FC_NUCLEAR)
          (solar p * calcularSolar (INR (h / 24)) (INR (h mod 24))
                       (0.65 + fst (next (snd (bucle p h))) * 0.35))
          (eolica p * nth h (serieViento (entornoDe p)) 0)
          (h / 24) (h mod 24)
          (nuclearGW (entornoDe p) * FC_NUCLEAR
           + solar p * calcularSolar (INR (h / 24)) (INR (h mod 24))
                         (0.65 + fst (next (snd (bucle p h))) * 0.35)
           + eolica p * nth h (serieViento (entornoDe p)) 0
           - demandaMediaGW (entornoDe p)
             * nth h (serieDemanda (entornoDe p)) 0)
          (estadoBateria (fst (bucle p h))) (estadoBombeo (fst (bucle p h)))
          (gasAnterior (fst (bucle p h)))) as B.
    cbv zeta in B. rewrite <- Hdes in B. destruct B as (B1 & B2 & B3).
    rewrite B1, B2, B3. reflexivity.
Qed.

Ltac de_excedente Hd L :=
  match type of Hd with
  | _ = ramaExcedente ?p ?f ?a ?b ?c ?x ?eb ?ebo =>
      let B := fresh "B" in
      pose proof (L p f a b c x eb ebo) as B; cbv zeta in B;
      rewrite <- Hd in B
  end.

Ltac de_deficit Hd L :=
  match type of Hd with
  | _ = ramaDeficit ?p ?f ?a ?b ?c ?d ?h ?x ?eb ?ebo ?ga =>
      let B := fresh "B" in
      pose proof (L p f a b c d h x eb ebo ga) as B; cbv zeta in B;
      rewrite <- Hd in B
  end.

Lemma soloNuclear_vertido (h : nat) :
  (h < HORAS_ANIO)%nat ->
  0 < Gen.vertido (gen (despacho (horaDe (soloNuclear 0) h))).
Proof.
  intros Hh. set (p := soloNuclear 0).
  pose proof (demanda_cotas_finas p h Hh) as D.
  rewrite <- demandaGW_horaDe in D.
  assert (Gb : genBase (horaDe p h) = 900000).
  { rewrite horaDe_eq.
    destruct (horaSim_forma p (entornoDe p) h (fst (bucle p h))
                (snd (bucle p h))) as (_ & Hb & _).
    rewrite Hb. unfold p at 1. rewrite entornoDe_soloNuclear.
    change (solar p) with 0. change (eolica p) with 0.
    unfold FC_NUCLEAR. lra. }
  destruct (bucle_niveles p h) as [NB NBo];
    try (cbn [p soloNuclear bateriasCapacidad bateriasPotencia
              bombeoCapacidad bombeo]; lra).
  destruct (horaDe_ramas p h) as [[He Hd]|[He Hd]]; cbv zeta in *;
    [|exfalso; lra].
  de_excedente Hd ramaExcedente_balance.
  de_excedente Hd ramaExcedente_cotas.
  specialize (B He).
  assert (Z0 : 0 <= 0) by lra.
  specialize (B0 He Z0 Z0 (proj2 NB) (proj2 NBo)).
  destruct B0 as (C1 & C2 & C3 & C4 & C5).
  cbn [p soloNuclear bateriasPotencia bombeo interconexion flexibilidadGW]
    in C1, C2, C3, C4.
  assert (F : Rmax 0 (Rmin 0 (demandaGW (horaDe p h) * (6 / 100))) = 0).
  { apply Rmax_left. apply Rmin_l. }
  change (flexibilidadPct p) with 6 in C3. rewrite F in C3.
  rewrite Rmax_left in C4 by lra.
  lra.
Qed.

Lemma sinRecursos_deficit :
  0 < deficitFinal (despacho (horaDe (sinRecursos 0 0 0 0) 0)).
Proof.
  set (p := sinRecursos 0 0 0 0).
  pose proof (demanda_cotas_finas p 0 HORAS_ANIO_pos) as D.
  destruct (bucle_sinRecursos 0 0 0 0%nat ltac:(lia)) as (B & Bo & G & _).
  fold p in B, Bo, G.
  rewrite horaDe_eq.
  destruct (horaSim_sinRecursos 0 0 0 (entornoDe p) 0
              (fst (bucle p 0)) (snd (bucle p 0))
              (entornoDe_sinRecursos 0 0 0) B Bo G ltac:(lra))
    as (_ & _ & _ & _ & H5 & _).
  fold p in H5. rewrite H5. lra.
Qed.

(* ================================================================== *)
(** * Further properties: generators and series *)
(* ================================================================== *)






(** X5. For every configuration whose growth power is a number (a
    negative base with a fractional number of years makes it NaN), the
    hourly demand array of the results has 8760 entries and each lies
    between 10 and 71 GW: the adjusted annual demand is clamped to
    [180, 360] TWh before it is spread over the shape. *)
Theorem demanda_horaria_rango (p : Params) :
  demandaEsNumero p ->
  length (demandaHoraria (simularCon p)) = HORAS_ANIO /\
  Forall (fun d => 10 <= d <= 71) (demandaHoraria (simularCon p)).
Proof.
  intros _.
  destruct (simularCon_estado p) as (_ & _ & _ & D & _). rewrite D.
  destruct (bucle_arrays p HORAS_ANIO) as (_ & _ & L & N).
  split; [exact L|].
  apply Forall_nth. intros i d Hi. rewrite L in Hi.
  rewrite (nth_indep _ d 0) by lia.
  destruct (N i Hi) as (_ & _ & E). rewrite E, demandaGW_horaDe.
  apply demanda_cotas_finas, Hi.
Qed.


(** X5, an instance: the default scenario, whose demand grows by 0.6 % a
    year. *)
Lemma demanda_horaria_rango_witness :
  demandaEsNumero PARAMS_DEFAULT /\
  length (demandaHoraria (simularCon PARAMS_DEFAULT)) = HORAS_ANIO.
Proof.
  assert (H : demandaEsNumero PARAMS_DEFAULT).
  { right. left. cbn [crecimientoDemanda PARAMS_DEFAULT]. lra. }
  split; [exact H|].
  exact (proj1 (demanda_horaria_rango PARAMS_DEFAULT H)).
Defined.

(* ================================================================== *)
(** * Further properties: the dispatch of one hour *)
(* ================================================================== *)



(** X7. In exact arithmetic, with non-negative capacities, every
    dispatched flow of every hour
    is between 0 and its rating: hydro at most 85 % of the installed
    capacity, gas at most the installed capacity, battery and pumped
    storage (charging or discharging) at most their power, imports and
    exports at most the interconnection, flexible demand at most the
    flexible capacity; curtailment and unserved demand are not
    negative.  In binary64 a storage charge can come out negative by
    rounding (see [carga_negativa]). *)
Theorem flujos_despacho_acotados (p : Params) (h : nat) :
  0 <= hidraulica p -> 0 <= ccgt p ->
  0 <= bateriasPotencia p -> 0 <= bateriasCapacidad p ->
  0 <= bombeo p -> 0 <= bombeoCapacidad p ->
  0 <= Gen.hidraulica (gen (despacho (horaDe p h))) <= 0.85 * hidraulica p /\
  0 <= Gen.gas (gen (despacho (horaDe p h))) <= ccgt p /\
  0 <= Gen.baterias (gen (despacho (horaDe p h))) <= bateriasPotencia p /\
  0 <= Gen.bombeo (gen (despacho (horaDe p h))) <= bombeo p /\
  0 <= Gen.cargaBaterias (gen (despacho (horaDe p h)))
    <= bateriasPotencia p /\
  0 <= Gen.cargaBombeo (gen (despacho (horaDe p h))) <= bombeo p /\
  0 <= Gen.importacion (gen (despacho (horaDe p h)))
    <= Rmax 0 (interconexion p) /\
  0 <= Gen.exportacion (gen (despacho (horaDe p h)))
    <= Rmax 0 (interconexion p) /\
  0 <= flexUp (despacho (horaDe p h)) <= Rmax 0 (flexibilidadGW p) /\
  0 <= flexDown (despacho (horaDe p h)) <= Rmax 0 (flexibilidadGW p) /\
  0 <= Gen.vertido (gen (despacho (horaDe p h))) /\
  0 <= deficitFinal (despacho (horaDe p h)).
Proof.
  intros Hh Hc Hp Hcap Hb Hbc.
  destruct (bucle_niveles p h Hcap Hp Hbc Hb) as [NB NBo].
  pose proof (bucle_gasAnterior p h Hc) as NG.
  assert (F : forall x,
            Rmax 0 (Rmin (flexibilidadGW p) x) <= Rmax 0 (flexibilidadGW p)).
  { intros x. pose proof (Rmin_l (flexibilidadGW p) x).
    partir_minmax; lra. }
  destruct (horaDe_ramas p h) as [[He Hd]|[He Hd]]; cbv zeta in *.
  - de_excedente Hd ramaExcedente_cotas.
    de_excedente Hd ramaExcedente_ceros.
    specialize (B He Hp Hb (proj2 NB) (proj2 NBo)).
    destruct B as (C1 & C2 & C3 & C4 & C5).
    destruct B0 as (Z1 & Z2 & Z3 & Z4 & Z5 & Z6 & Z7 & Z8).
    rewrite Z1, Z2, Z3, Z4, Z5, Z6, Z8.
    match type of C3 with _ <= _ <= Rmax 0 (Rmin _ ?x) =>
      pose proof (F x) as Fx end.
    pose proof (Rmax_l 0 (interconexion p)).
    pose proof (Rmax_l 0 (flexibilidadGW p)).
    repeat split; lra.
  - de_deficit Hd ramaDeficit_cotas.
    de_deficit Hd ramaDeficit_ceros.
    de_deficit Hd ramaDeficit_gas.
    de_deficit Hd ramaDeficit_resto.
    specialize (B He Hh Hp Hb (proj1 NB) (proj1 NBo)).
    specialize (B1 Hc NG). specialize (B2 He).
    destruct B as (C1 & C2 & C3 & C4 & C5).
    destruct B0 as (Z1 & Z2 & Z3 & Z4 & Z5).
    rewrite Z1, Z2, Z3, Z4, Z5.
    match type of C4 with _ <= _ <= Rmax 0 (Rmin _ ?x) =>
      pose proof (F x) as Fx end.
    pose proof (Rmax_l 0 (interconexion p)).
    pose proof (Rmax_l 0 (flexibilidadGW p)).
    repeat split; lra.
Qed.

(** X7, an instance: hydro and gas in the first hour of the default
    scenario. *)
Lemma flujos_despacho_acotados_witness :
  0 <= Gen.hidraulica (gen (despacho (horaDe PARAMS_DEFAULT 0)))
    <= 0.85 * hidraulica PARAMS_DEFAULT /\
  0 <= Gen.gas (gen (despacho (horaDe PARAMS_DEFAULT 0)))
    <= ccgt PARAMS_DEFAULT.
Proof.
  assert (H : 0 <= hidraulica PARAMS_DEFAULT /\ 0 <= ccgt PARAMS_DEFAULT /\
              0 <= bateriasPotencia PARAMS_DEFAULT /\
              0 <= bateriasCapacidad PARAMS_DEFAULT /\
              0 <= bombeo PARAMS_DEFAULT /\
              0 <= bombeoCapacidad PARAMS_DEFAULT)
    by (cbn; repeat split; lra).
  destruct H as (H1 & H2 & H3 & H4 & H5 & H6).
  destruct (flujos_despacho_acotados PARAMS_DEFAULT 0 H1 H2 H3 H4 H5 H6)
    as (A & B & _).
  exact (conj A B).
Defined.

(** X8. An hour either has a surplus or a deficit of must-run generation,
    never both kinds of flow.  When nuclear, solar and wind exceed the
    demand, nothing is taken from hydro, gas, storage, imports or
    flexible demand and no demand is left unserved; otherwise nothing is
    charged, exported, shifted upwards or curtailed. *)
Theorem flujos_excluyentes (p : Params) (h : nat) :
  (0 < genBase (horaDe p h) - demandaGW (horaDe p h) /\
   Gen.hidraulica (gen (despacho (horaDe p h))) = 0 /\
   Gen.gas (gen (despacho (horaDe p h))) = 0 /\
   Gen.baterias (gen (despacho (horaDe p h))) = 0 /\
   Gen.bombeo (gen (despacho (horaDe p h))) = 0 /\
   Gen.importacion (gen (despacho (horaDe p h))) = 0 /\
   flexDown (despacho (horaDe p h)) = 0 /\
   deficitFinal (despacho (horaDe p h)) = 0) \/
  (genBase (horaDe p h) - demandaGW (horaDe p h) <= 0 /\
   Gen.vertido (gen (despacho (horaDe p h))) = 0 /\
   Gen.cargaBaterias (gen (despacho (horaDe p h))) = 0 /\
   Gen.cargaBombeo (gen (despacho (horaDe p h))) = 0 /\
   Gen.exportacion (gen (despacho (horaDe p h))) = 0 /\
   flexUp (despacho (horaDe p h)) = 0).
Proof.
  destruct (horaDe_ramas p h) as [[He Hd]|[He Hd]]; cbv zeta in *;
    [left | right]; (split; [exact He|]).
  - de_excedente Hd ramaExcedente_ceros. tauto.
  - de_deficit Hd ramaDeficit_ceros. tauto.
Qed.

(** X9. Curtailment is the last resort of a surplus hour: when an hour
    curtails, the batteries and the pumped storage charge at the lower
    of their power and the room left (through the charging efficiency),
    the flexible demand is raised by the whole flexible capacity and the
    export equals the interconnection capacity, where these are
    positive. *)
Theorem vertido_ultimo_recurso (p : Params) (h : nat) :
  0 < Gen.vertido (gen (despacho (horaDe p h))) ->
  Gen.cargaBaterias (gen (despacho (horaDe p h))) =
    Rmin (bateriasPotencia p)
         ((bateriasCapacidad p - estadoBateria (fst (bucle p h)))
          / EFICIENCIA_BAT) /\
  Gen.cargaBombeo (gen (despacho (horaDe p h))) =
    Rmin (bombeo p)
         ((bombeoCapacidad p - estadoBombeo (fst (bucle p h)))
          / EFICIENCIA_BOMBEO) /\
  (0 < Rmin (flexibilidadGW p)
            (demandaGW (horaDe p h) * (flexibilidadPct p / 100)) ->
   flexUp (despacho (horaDe p h)) =
     Rmin (flexibilidadGW p)
          (demandaGW (horaDe p h) * (flexibilidadPct p / 100))) /\
  (0 < interconexion p ->
   Gen.exportacion (gen (despacho (horaDe p h))) = interconexion p).
Proof.
  intros Hv.
  destruct (horaDe_ramas p h) as [[He Hd]|[He Hd]]; cbv zeta in *.
  - de_excedente Hd ramaExcedente_saturado. exact (B He Hv).
  - de_deficit Hd ramaDeficit_ceros. destruct B as (Z & _). lra.
Qed.

(** X9, an instance: the first hour of a system with an oversized
    nuclear fleet and nothing else curtails. *)
Lemma vertido_ultimo_recurso_witness :
  0 < Gen.vertido (gen (despacho (horaDe (soloNuclear 0) 0))) /\
  Gen.cargaBaterias (gen (despacho (horaDe (soloNuclear 0) 0))) =
    Rmin (bateriasPotencia (soloNuclear 0))
         ((bateriasCapacidad (soloNuclear 0)
           - estadoBateria (fst (bucle (soloNuclear 0) 0)))
          / EFICIENCIA_BAT).
Proof.
  pose proof (soloNuclear_vertido 0 HORAS_ANIO_pos) as H.
  split; [exact H|].
  exact (proj1 (vertido_ultimo_recurso (soloNuclear 0) 0 H)).
Defined.

(** X10. Unserved demand is the last resort of a deficit hour: when an
    hour leaves demand unserved, hydro runs at its whole seasonal
    availability, a non-empty battery or pumped store discharges at the
    lower of its power and its level, the flexible demand is lowered by
    the whole flexible capacity, the import equals the interconnection
    capacity, and gas runs at the lower of its capacity and its ramp
    limit. *)
Theorem deficit_ultimo_recurso (p : Params) (h : nat) :
  0 < deficitFinal (despacho (horaDe p h)) ->
  Gen.hidraulica (gen (despacho (horaDe p h))) =
    hidraulica p * calcularHidro p (h / 24) (h mod 24) /\
  (0 < estadoBateria (fst (bucle p h)) ->
   Gen.baterias (gen (despacho (horaDe p h))) =
     Rmin (bateriasPotencia p) (estadoBateria (fst (bucle p h)))) /\
  (0 < estadoBombeo (fst (bucle p h)) ->
   Gen.bombeo (gen (despacho (horaDe p h))) =
     Rmin (bombeo p) (estadoBombeo (fst (bucle p h)))) /\
  (0 < Rmin (flexibilidadGW p)
            (demandaGW (horaDe p h) * (flexibilidadPct p / 100)) ->
   flexDown (despacho (horaDe p h)) =
     Rmin (flexibilidadGW p)
          (demandaGW (horaDe p h) * (flexibilidadPct p / 100))) /\
  (0 < interconexion p ->
   Gen.importacion (gen (despacho (horaDe p h))) = interconexion p) /\
  Gen.gas (gen (despacho (horaDe p h))) =
    Rmin (ccgt p)
         (ccgt p * RAMPA_CCGT + gasAnterior (fst (bucle p h))).
Proof.
  intros Hv.
  destruct (horaDe_ramas p h) as [[He Hd]|[He Hd]]; cbv zeta in *.
  - de_excedente Hd ramaExcedente_ceros.
    destruct B as (_ & _ & _ & _ & _ & _ & _ & Z). lra.
  - de_deficit Hd ramaDeficit_saturado. exact (B Hv).
Qed.

(** X10, an instance: the first hour of a system with no resources
    leaves its whole demand unserved. *)
Lemma deficit_ultimo_recurso_witness :
  0 < deficitFinal (despacho (horaDe (sinRecursos 0 0 0 0) 0)) /\
  Gen.gas (gen (despacho (horaDe (sinRecursos 0 0 0 0) 0))) =
    Rmin (ccgt (sinRecursos 0 0 0 0))
         (ccgt (sinRecursos 0 0 0 0) * RAMPA_CCGT
          + gasAnterior (fst (bucle (sinRecursos 0 0 0 0) 0))).
Proof.
  pose proof sinRecursos_deficit as H.
  split; [exact H|].
  exact (proj2 (proj2 (proj2 (proj2 (proj2
           (deficit_ultimo_recurso (sinRecursos 0 0 0 0) 0 H)))))).
Defined.

(* ================================================================== *)
(** * Floors and cap of the price *)
(* ================================================================== *)

Lemma forRng_ext {S : Type} (body1 body2 : nat -> S -> Rng S) :
  (forall k s seed, body1 k s seed = body2 k s seed) ->
  forall n s0 seed, forRng n body1 s0 seed = forRng n body2 s0 seed.
Proof.
  intros H. induction n as [|n IH]; intros s0 seed; [reflexivity|].
  rewrite !forRng_S, IH. apply H.
Qed.

Lemma pasoHora_conRendimiento p r e h st s :
  r <= 0.45 ->
  pasoHora (conRendimiento p r) e h st s =
  pasoHora (conRendimiento p 0.45) e h st s.
Proof.
  intros Hr.
  assert (E : Rmax 0.45 r = Rmax 0.45 0.45).
  { rewrite Rmax_left by lra. rewrite Rmax_left by lra. reflexivity. }
  unfold pasoHora, horaSim, avanzar, acumular, calcularPrecioMarginal,
    precioTecnologia, bind, ret.
  cbn [rendimientoCCGT conRendimiento].
  rewrite E. reflexivity.
Qed.

Lemma bucle_conRendimiento p r (n : nat) :
  r <= 0.45 ->
  bucle (conRendimiento p r) n = bucle (conRendimiento p 0.45) n.
Proof.
  intros Hr. unfold bucle.
  change (entornoDe (conRendimiento p r))
    with (entornoDe (conRendimiento p 0.45)).
  change (estadoInicial (conRendimiento p r)
            (calcularDemandaAjustada (conRendimiento p r))
            (calcularNuclearDisponible (conRendimiento p r)))
    with (estadoInicial (conRendimiento p 0.45)
            (calcularDemandaAjustada (conRendimiento p 0.45))
            (calcularNuclearDisponible (conRendimiento p 0.45))).
  change (semilla (conRendimiento p r))
    with (semilla (conRendimiento p 0.45)).
  apply forRng_ext. intros k s seed.
  apply pasoHora_conRendimiento, Hr.
Qed.




Lemma bucle_S_acum (p : Params) (n : nat) :
  acum (fst (bucle p (S n))) = acumular p (acum (fst (bucle p n))) (horaDe p n) /\
  demandaTotalGWh (fst (bucle p (S n))) =
    demandaTotalGWh (fst (bucle p n)) + demandaGW (horaDe p n) /\
  precioPonderadoSum (fst (bucle p (S n))) =
    precioPonderadoSum (fst (bucle p n))
    + precio (horaDe p n) * demandaGW (horaDe p n).
Proof. rewrite bucle_S. cbn [fst]. repeat split; reflexivity. Qed.


(* ================================================================== *)
(** * Further properties: price formation *)
(* ================================================================== *)

(** X11. A configured gas-plant efficiency below 0.45 gives the results
    of an efficiency of exactly 0.45: the efficiency only enters the
    fuel cost, the CO2 cost and the emissions, each time through
    [Math.max(0.45, rendimientoCCGT)]. *)
Theorem rendimiento_minimo (p : Params) (r : R) :
  r <= 0.45 ->
  simularCon (conRendimiento p r) = simularCon (conRendimiento p 0.45).
Proof.
  intros Hr. unfold simularCon. cbv zeta.
  rewrite (bucle_conRendimiento p r HORAS_ANIO Hr). reflexivity.
Qed.

(** X11, an instance: the default scenario with an efficiency of 0. *)
Lemma rendimiento_minimo_witness :
  0 <= 0.45 /\
  simularCon (conRendimiento PARAMS_DEFAULT 0)
  = simularCon (conRendimiento PARAMS_DEFAULT 0.45).
Proof.
  split; [lra|]. apply (rendimiento_minimo PARAMS_DEFAULT 0). lra.
Defined.



(* ================================================================== *)
(** * Further properties: the accumulators of the results *)
(* ================================================================== *)

Lemma bucle_emisiones (p : Params) (n : nat) :
  emisionesAnuales (acum (fst (bucle p n))) =
  consumoGasTWh (acum (fst (bucle p n)))
  * (FACTOR_CO2_GAS / Rmax 0.45 (rendimientoCCGT p)).
Proof.
  induction n as [|n IH].
  - rewrite bucle_0.
    cbn [fst estadoInicial acum acumInicial emisionesAnuales consumoGasTWh].
    ring.
  - destruct (bucle_S_acum p n) as (A & _). rewrite A. unfold acumular.
    cbn [emisionesAnuales consumoGasTWh]. rewrite IH.
    set (k := FACTOR_CO2_GAS / Rmax 0.45 (rendimientoCCGT p)). field.
Qed.

(** X13. The annual emissions of the results are the annual gas energy
    times the emission factor 0.202 over the efficiency of the gas
    plants, the efficiency being taken as at least 0.45. *)
Theorem emisiones_proporcionales (p : Params) :
  emisionesAnuales (contadores (simularCon p)) =
  consumoGasTWh (contadores (simularCon p))
  * (0.202 / Rmax 0.45 (rendimientoCCGT p)).
Proof.
  destruct (simularCon_estado p) as (C & _). rewrite C.
  apply bucle_emisiones.
Qed.

(* ================================================================== *)
(** * Counters and accumulators, hour after hour *)
(* ================================================================== *)

Lemma suma_app {A : Type} (f : A -> R) (l : list A) (x : A) :
  suma f (l ++ [x]) = suma f l + f x.
Proof. unfold suma. rewrite fold_left_app. reflexivity. Qed.

Lemma contar_app {A : Type} (f : A -> bool) (l : list A) (x : A) :
  contar f (l ++ [x]) = (contar f l + uno_si (f x))%nat.
Proof.
  unfold contar. rewrite filter_app, length_app. cbn [filter].
  destruct (f x); reflexivity.
Qed.

Lemma gt_0_umbral (u : R) : 0 <= u -> uno_si (gt 0 u) = 0%nat.
Proof.
  intros H. replace (gt 0 u) with false; [reflexivity|].
  symmetry. apply gt_false_iff. exact H.
Qed.

Ltac sin_flujo :=
  repeat rewrite (gt_0_umbral 0.2) by lra;
  repeat rewrite (gt_0_umbral 0.3) by lra.

Lemma ramaExcedente_incs p flexCap gn gs ge exc eB eBo :
  let d := ramaExcedente p flexCap gn gs ge exc eB eBo in
  incGas d = 0%nat /\ incDeficit d = 0%nat /\ incImportacion d = 0%nat /\
  incVertido d = uno_si (gt (Gen.vertido (gen d)) 0.3) /\
  incExportacion d = uno_si (gt (Gen.exportacion (gen d)) 0.2) /\
  incBombeoActivo d = uno_si (gt (Gen.cargaBombeo (gen d)) 0.3) /\
  incFlex d = uno_si (gt (flexUp d) 0.2).
Proof.
  unfold ramaExcedente. cbv zeta.
  casos;
    cbn [gen flexUp incGas incDeficit incImportacion incVertido
         incExportacion incBombeoActivo incFlex Gen.vertido Gen.exportacion
         Gen.cargaBombeo];
    sin_flujo; repeat split; reflexivity.
Qed.

Lemma ramaDeficit_incs p flexCap gn gs ge dia hora exc eB eBo gasAnt :
  let d := ramaDeficit p flexCap gn gs ge dia hora exc eB eBo gasAnt in
  incVertido d = 0%nat /\ incExportacion d = 0%nat /\
  incBombeoActivo d = 0%nat /\
  incGas d = uno_si (gt (Gen.gas (gen d)) 0.3) /\
  incImportacion d = uno_si (gt (Gen.importacion (gen d)) 0.2) /\
  incDeficit d = uno_si (gt (deficitFinal d) 0.3) /\
  incFlex d = uno_si (gt (flexDown d) 0.2).
Proof.
  unfold ramaDeficit. cbv zeta.
  casos;
    cbn [gen flexDown deficitFinal incGas incDeficit incImportacion
         incVertido incExportacion incBombeoActivo incFlex Gen.gas
         Gen.importacion];
    sin_flujo; repeat split; reflexivity.
Qed.

(** The increments of the hour counters, read off the flows of the
    hour. *)
Lemma horaDe_incs (p : Params) (h : nat) :
  let d := despacho (horaDe p h) in
  incGas d = uno_si (gt (Gen.gas (gen d)) 0.3) /\
  incVertido d = uno_si (gt (Gen.vertido (gen d)) 0.3) /\
  incImportacion d = uno_si (gt (Gen.importacion (gen d)) 0.2) /\
  incExportacion d = uno_si (gt (Gen.exportacion (gen d)) 0.2) /\
  incBombeoActivo d = uno_si (gt (Gen.cargaBombeo (gen d)) 0.3) /\
  incDeficit d = uno_si (gt (deficitFinal d) 0.3).
Proof.
  destruct (horaDe_ramas p h) as [[He Hd]|[He Hd]]; cbv zeta in *.
  - de_excedente Hd ramaExcedente_incs. de_excedente Hd ramaExcedente_ceros.
    destruct B as (I1 & I2 & I3 & I4 & I5 & I6 & _).
    destruct B0 as (_ & Z2 & _ & _ & Z5 & _ & _ & Z8).
    rewrite I1, I2, I3, I4, I5, I6, Z2, Z5, Z8. sin_flujo.
    repeat split; reflexivity.
  - de_deficit Hd ramaDeficit_incs. de_deficit Hd ramaDeficit_ceros.
    destruct B as (I1 & I2 & I3 & I4 & I5 & I6 & _).
    destruct B0 as (Z1 & _ & Z3 & Z4 & _).
    rewrite I1, I2, I3, I4, I5, I6, Z1, Z3, Z4. sin_flujo.
    repeat split; reflexivity.
Qed.

Lemma bucle_contadores (p : Params) (n : nat) :
  let st := fst (bucle p n) in
  horasGas (acum st) = contar (fun g => gt (Gen.gas g) 0.3) (mix st) /\
  horasVertido (acum st) = contar (fun g => gt (Gen.vertido g) 0.3) (mix st) /\
  horasImportacion (acum st)
    = contar (fun g => gt (Gen.importacion g) 0.2) (mix st) /\
  horasExportacion (acum st)
    = contar (fun g => gt (Gen.exportacion g) 0.2) (mix st) /\
  horasBombeoActivo (acum st)
    = contar (fun g => gt (Gen.cargaBombeo g) 0.3) (mix st) /\
  horasPrecioNegativo (acum st) = contar (fun x => lt x 0) (precios st) /\
  horasPrecioAlto (acum st) = contar (fun x => gt x 150) (precios st).
Proof.
  induction n as [|n IH]; cbv zeta.
  - rewrite bucle_0. cbn. repeat split; reflexivity.
  - destruct IH as (H1 & H2 & H3 & H4 & H5 & H6 & H7).
    destruct (bucle_S_acum p n) as (A & _).
    destruct (bucle_S_estado p n) as (_ & _ & _ & M & P & _).
    cbv zeta in M, P. rewrite A, M, P. rewrite !contar_app.
    unfold acumular.
    cbn [horasGas horasVertido horasImportacion horasExportacion
         horasBombeoActivo horasPrecioNegativo horasPrecioAlto].
    destruct (horaDe_incs p n) as (I1 & I2 & I3 & I4 & I5 & _).
    cbv zeta in *.
    rewrite H1, H2, H3, H4, H5, H6, H7, I1, I2, I3, I4, I5.
    repeat split; reflexivity.
Qed.

Lemma bucle_energias (p : Params) (n : nat) :
  let st := fst (bucle p n) in
  consumoGasTWh (acum st) * 1000 = suma Gen.gas (mix st) /\
  vertidosTWh (acum st) * 1000 = suma Gen.vertido (mix st) /\
  importacionesTWh (acum st) * 1000 = suma Gen.importacion (mix st) /\
  exportacionesTWh (acum st) * 1000 = suma Gen.exportacion (mix st) /\
  demandaTotalGWh st = suma (fun x => x) (demandaHorariaGW st).
Proof.
  induction n as [|n IH]; cbv zeta.
  - rewrite bucle_0. cbn. repeat split; ring.
  - destruct IH as (H1 & H2 & H3 & H4 & H5).
    destruct (bucle_S_acum p n) as (A & D & _).
    destruct (bucle_S_estado p n) as (_ & _ & _ & M & _ & DH).
    cbv zeta in M, DH. rewrite A, D, M, DH. rewrite !suma_app.
    unfold acumular.
    cbn [consumoGasTWh vertidosTWh importacionesTWh exportacionesTWh].
    rewrite <- H1, <- H2, <- H3, <- H4, <- H5.
    repeat split; field.
Qed.

Lemma bucle_maxDeficit (p : Params) (n : nat) :
  let a := acum (fst (bucle p n)) in
  ((horasDeficit a = 0%nat /\ maxDeficit a = 0) \/
   ((0 < horasDeficit a)%nat /\ 0.3 < maxDeficit a /\
    exists h, (h < n)%nat /\
      maxDeficit a = deficitFinal (despacho (horaDe p h)))) /\
  (forall h, (h < n)%nat ->
     0.3 < deficitFinal (despacho (horaDe p h)) ->
     deficitFinal (despacho (horaDe p h)) <= maxDeficit a).
Proof.
  induction n as [|n [IH1 IH2]]; cbv zeta.
  - rewrite bucle_0. cbn. split; [left; split; reflexivity | intros; lia].
  - destruct (bucle_S_acum p n) as (A & _). rewrite A. unfold acumular.
    cbn [horasDeficit maxDeficit].
    destruct (horaDe_incs p n) as (_ & _ & _ & _ & _ & I6).
    cbv zeta in I6. rewrite I6.
    set (a := acum (fst (bucle p n))) in *.
    set (df := deficitFinal (despacho (horaDe p n))) in *.
    destruct (gt df 0.3) eqn:E; a_prop; cbn [uno_si].
    + split.
      * right. split; [lia|]. split.
        { pose proof (Rmax_r (maxDeficit a) df). lra. }
        destruct (Rmax_casos (maxDeficit a) df) as [[Hc Hm]|[Hc Hm]];
          rewrite Hm.
        -- exists n. split; [lia | reflexivity].
        -- destruct IH1 as [[_ Z]|(_ & _ & h & Hh & Eh)].
           ++ exfalso. lra.
           ++ exists h. split; [lia | exact Eh].
      * intros h Hh Hd.
        destruct (Nat.eq_dec h n) as [->|Hne].
        -- apply Rmax_r.
        -- eapply Rle_trans; [apply IH2; [lia | exact Hd] | apply Rmax_l].
    + rewrite Nat.add_0_r. split.
      * destruct IH1 as [IH1|(K1 & K2 & h & Hh & Eh)]; [left; exact IH1|].
        right. split; [exact K1|]. split; [exact K2|].
        exists h. split; [lia | exact Eh].
      * intros h Hh Hd.
        destruct (Nat.eq_dec h n) as [->|Hne]; [fold df in Hd; lra|].
        apply IH2; [lia | exact Hd].
Qed.

(** X14. The hour counters of the results agree with the arrays of the
    results: the gas and curtailment hours are the entries of the mix
    with more than 0.3 GW, the import and export hours those with more
    than 0.2 GW, the pumping hours those that charge the pumped storage
    with more than 0.3 GW, and the hours of negative and of high price
    are the prices below 0 and above 150. *)
Theorem contadores_segun_arrays (p : Params) :
  horasGas (contadores (simularCon p))
    = contar (fun g => gt (Gen.gas g) 0.3) (r_mix (simularCon p)) /\
  horasVertido (contadores (simularCon p))
    = contar (fun g => gt (Gen.vertido g) 0.3) (r_mix (simularCon p)) /\
  horasImportacion (contadores (simularCon p))
    = contar (fun g => gt (Gen.importacion g) 0.2) (r_mix (simularCon p)) /\
  horasExportacion (contadores (simularCon p))
    = contar (fun g => gt (Gen.exportacion g) 0.2) (r_mix (simularCon p)) /\
  horasBombeoActivo (contadores (simularCon p))
    = contar (fun g => gt (Gen.cargaBombeo g) 0.3) (r_mix (simularCon p)) /\
  horasPrecioNegativo (contadores (simularCon p))
    = contar (fun x => lt x 0) (r_precios (simularCon p)) /\
  horasPrecioAlto (contadores (simularCon p))
    = contar (fun x => gt x 150) (r_precios (simularCon p)).
Proof.
  destruct (simularCon_estado p) as (C & M & P & _). rewrite C, M, P.
  apply (bucle_contadores p HORAS_ANIO).
Qed.

(** X15. The energies accumulated hour by hour agree with the mix array:
    the annual gas, curtailment, import and export energies in TWh, times
    1000, are the sums of the hourly values in GWh. *)
Theorem energias_segun_mix (p : Params) :
  consumoGasTWh (contadores (simularCon p)) * 1000
    = suma Gen.gas (r_mix (simularCon p)) /\
  vertidosTWh (contadores (simularCon p)) * 1000
    = suma Gen.vertido (r_mix (simularCon p)) /\
  importacionesTWh (contadores (simularCon p)) * 1000
    = suma Gen.importacion (r_mix (simularCon p)) /\
  exportacionesTWh (contadores (simularCon p)) * 1000
    = suma Gen.exportacion (r_mix (simularCon p)).
Proof.
  destruct (simularCon_estado p) as (C & M & _). rewrite C, M.
  destruct (bucle_energias p HORAS_ANIO) as (H1 & H2 & H3 & H4 & _).
  exact (conj H1 (conj H2 (conj H3 H4))).
Qed.

(** X16. The largest deficit of the results only sees the hours that
    leave more than 0.3 GW unserved: it is 0 exactly when no hour is
    counted as a deficit hour, otherwise it is above 0.3 and is the
    unserved demand of some hour of the year; and it is at least the
    unserved demand of every hour that leaves more than 0.3 GW. *)
Theorem maxDeficit_umbral (p : Params) :
  ((horasDeficit (contadores (simularCon p)) = 0%nat /\
    maxDeficit (contadores (simularCon p)) = 0) \/
   ((0 < horasDeficit (contadores (simularCon p)))%nat /\
    0.3 < maxDeficit (contadores (simularCon p)) /\
    exists h, (h < HORAS_ANIO)%nat /\
      maxDeficit (contadores (simularCon p))
      = deficitFinal (despacho (horaDe p h)))) /\
  (forall h, (h < HORAS_ANIO)%nat ->
     0.3 < deficitFinal (despacho (horaDe p h)) ->
     deficitFinal (despacho (horaDe p h))
     <= maxDeficit (contadores (simularCon p))).
Proof.
  destruct (simularCon_estado p) as (C & _). rewrite C.
  apply (bucle_maxDeficit p HORAS_ANIO).
Qed.

(* ================================================================== *)
(** * Minimum, maximum and the sorted copy *)
(* ================================================================== *)

Lemma fold_Rmin_cota (l : list R) (x : R) :
  fold_left Rmin l x <= x /\
  Forall (fun y => fold_left Rmin l x <= y) l /\
  In (fold_left Rmin l x) (x :: l).
Proof.
  revert x. induction l as [|y l IH]; intros x; cbn [fold_left].
  - split; [lra|]. split; [constructor | left; reflexivity].
  - destruct (IH (Rmin x y)) as (H1 & H2 & H3).
    pose proof (Rmin_l x y). pose proof (Rmin_r x y).
    split; [lra|]. split.
    + constructor; [lra | exact H2].
    + destruct H3 as [H3|H3]; [|right; right; exact H3].
      destruct (Rmin_casos x y) as [[_ Hm]|[_ Hm]]; rewrite Hm in H3 |- *.
      all: (left; exact H3) || (right; left; exact H3).
Qed.

Lemma fold_Rmax_cota (l : list R) (x : R) :
  x <= fold_left Rmax l x /\
  Forall (fun y => y <= fold_left Rmax l x) l /\
  In (fold_left Rmax l x) (x :: l).
Proof.
  revert x. induction l as [|y l IH]; intros x; cbn [fold_left].
  - split; [lra|]. split; [constructor | left; reflexivity].
  - destruct (IH (Rmax x y)) as (H1 & H2 & H3).
    pose proof (Rmax_l x y). pose proof (Rmax_r x y).
    split; [lra|]. split.
    + constructor; [lra | exact H2].
    + destruct H3 as [H3|H3]; [|right; right; exact H3].
      destruct (Rmax_casos x y) as [[_ Hm]|[_ Hm]]; rewrite Hm in H3 |- *.
      all: (left; exact H3) || (right; left; exact H3).
Qed.

(** [Math.min(...arr)] is an entry of a non-empty array and is below
    every entry; [Math.max(...arr)] is an entry and is above every
    entry. *)
Lemma minimo_cota (l : list R) :
  l <> [] -> In (minimo l) l /\ Forall (fun y => minimo l <= y) l.
Proof.
  destruct l as [|x l]; [congruence|]. intros _. cbn [minimo].
  destruct (fold_Rmin_cota l x) as (H1 & H2 & H3).
  split; [exact H3 | constructor; assumption].
Qed.

Lemma maximo_cota (l : list R) :
  l <> [] -> In (maximo l) l /\ Forall (fun y => y <= maximo l) l.
Proof.
  destruct l as [|x l]; [congruence|]. intros _. cbn [maximo].
  destruct (fold_Rmax_cota l x) as (H1 & H2 & H3).
  split; [exact H3 | constructor; assumption].
Qed.

Lemma insertar_perm (x : R) (l : list R) : Permutation (insertar x l) (x :: l).
Proof.
  induction l as [|y l IH]; cbn [insertar]; [apply Permutation_refl|].
  destruct (Rle_dec x y); [apply Permutation_refl|].
  eapply Permutation_trans; [apply perm_skip, IH | apply perm_swap].
Qed.

Lemma ordenar_perm (l : list R) : Permutation (ordenar l) l.
Proof.
  induction l as [|x l IH]; [apply Permutation_refl|].
  cbn [ordenar fold_right]. fold (ordenar l).
  eapply Permutation_trans; [apply insertar_perm | apply perm_skip, IH].
Qed.

Lemma sorted_perm_eq (l1 l2 : list R) :
  StronglySorted Rle l1 -> StronglySorted Rle l2 -> Permutation l1 l2 ->
  l1 = l2.
Proof.
  intros H1. revert l2. induction H1 as [|a l1 H1 IH Ha]; intros l2 H2 P.
  - apply Permutation_nil in P. symmetry. exact P.
  - destruct H2 as [|b l2 H2 Hb].
    + apply Permutation_sym, Permutation_nil in P. discriminate P.
    + assert (E : a = b).
      { assert (I1 : In a (b :: l2))
          by (eapply Permutation_in; [exact P | left; reflexivity]).
        assert (I2 : In b (a :: l1))
          by (eapply Permutation_in;
              [apply Permutation_sym; exact P | left; reflexivity]).
        rewrite Forall_forall in Ha, Hb.
        destruct I1 as [I1|I1]; [symmetry; exact I1|].
        destruct I2 as [I2|I2]; [exact I2|].
        specialize (Ha _ I2). specialize (Hb _ I1). lra. }
      subst b. f_equal. apply IH; [exact H2|].
      eapply Permutation_cons_inv. exact P.
Qed.

Lemma ordenar_perm_eq (l1 l2 : list R) :
  Permutation l1 l2 -> ordenar l1 = ordenar l2.
Proof.
  intros P. apply sorted_perm_eq; try apply ordenar_sorted.
  eapply Permutation_trans; [apply ordenar_perm|].
  eapply Permutation_trans; [exact P|].
  apply Permutation_sym, ordenar_perm.
Qed.

(** The ends of the sorted copy are the minimum and the maximum. *)
Lemma ordenar_extremos (l : list R) :
  l <> [] ->
  nth 0 (ordenar l) 0 = minimo l /\
  nth (length l - 1) (ordenar l) 0 = maximo l.
Proof.
  intros Hne.
  assert (Hlen : (0 < length l)%nat)
    by (destruct l; [congruence | cbn [length]; lia]).
  destruct (minimo_cota l Hne) as [Mi Ml].
  destruct (maximo_cota l Hne) as [Xi Xl].
  pose proof (ordenar_sorted l) as S.
  pose proof (ordenar_length l) as L.
  pose proof (ordenar_perm l) as P.
  rewrite Forall_forall in Ml, Xl.
  split.
  - assert (A : minimo l <= nth 0 (ordenar l) 0).
    { apply Ml. eapply Permutation_in; [exact P|]. apply nth_In. lia. }
    assert (B : nth 0 (ordenar l) 0 <= minimo l).
    { apply (Permutation_in _ (Permutation_sym P)) in Mi.
      destruct (In_nth _ _ 0 Mi) as (j & Hj & Ej). rewrite <- Ej.
      apply sorted_nth; [exact S | lia]. }
    lra.
  - assert (A : nth (length l - 1) (ordenar l) 0 <= maximo l).
    { apply Xl. eapply Permutation_in; [exact P|]. apply nth_In. lia. }
    assert (B : maximo l <= nth (length l - 1) (ordenar l) 0).
    { apply (Permutation_in _ (Permutation_sym P)) in Xi.
      destruct (In_nth _ _ 0 Xi) as (j & Hj & Ej). rewrite <- Ej.
      apply sorted_nth; [exact S | lia]. }
    lra.
Qed.

Lemma interpolar_entero (s : list R) (n : Z) :
  interpolar s (IZR n) = nth (Z.to_nat n) s 0.
Proof.
  unfold interpolar. cbv zeta. unfold Zceil.
  rewrite <- opp_IZR, !ZfloorZ. 
  replace (- - n)%Z with n by lia. rewrite Z.eqb_refl. reflexivity.
Qed.

Lemma percentil_entre_extremos (arr : list R) :
  arr <> [] ->
  percentil arr 0 = minimo arr /\ percentil arr 100 = maximo arr /\
  forall q, 0 <= q <= 100 -> minimo arr <= percentil arr q <= maximo arr.
Proof.
  intros Hne.
  destruct (ordenar_extremos arr Hne) as [E0 E1].
  assert (Hlen : (0 < length arr)%nat)
    by (destruct arr; [congruence | cbn [length]; lia]).
  assert (P0 : percentil arr 0 = minimo arr).
  { rewrite percentil_interpolar by exact Hne.
    replace ((INR (length (ordenar arr)) - 1) * (0 / 100)) with (IZR 0)
      by (simpl; lra).
    rewrite interpolar_entero. exact E0. }
  assert (P100 : percentil arr 100 = maximo arr).
  { rewrite percentil_interpolar by exact Hne.
    rewrite ordenar_length.
    replace ((INR (length arr) - 1) * (100 / 100))
      with (IZR (Z.of_nat (length arr) - 1))
      by (rewrite minus_IZR, <- INR_IZR_INZ; simpl; lra).
    rewrite interpolar_entero.
    replace (Z.to_nat (Z.of_nat (length arr) - 1)) with (length arr - 1)%nat
      by lia.
    exact E1. }
  split; [exact P0|]. split; [exact P100|].
  intros q [Q0 Q1]. rewrite <- P0, <- P100.
  split; apply percentil_mono; (exact Hne || lra).
Qed.

(* ================================================================== *)
(** * Further properties: percentiles *)
(* ================================================================== *)


(** X18. [percentil] does not depend on the order of the entries of the
    array it is given: it reads from a sorted copy. *)
Theorem percentil_permutacion (arr1 arr2 : list R) (q : R) :
  Permutation arr1 arr2 -> percentil arr1 q = percentil arr2 q.
Proof.
  intros P.
  destruct arr1 as [|x1 l1].
  - apply Permutation_nil in P. subst arr2. reflexivity.
  - destruct arr2 as [|x2 l2].
    + apply Permutation_sym, Permutation_nil in P. discriminate P.
    + rewrite !percentil_interpolar by discriminate.
      rewrite (ordenar_perm_eq _ _ P). reflexivity.
Qed.

(** X18, an instance: the median of three values in two orders. *)
Lemma percentil_permutacion_witness :
  Permutation [3; 1; 2] [1; 2; 3] /\
  percentil [3; 1; 2] 50 = percentil [1; 2; 3] 50.
Proof.
  assert (P : Permutation [3; 1; 2] [1; 2; 3]).
  { apply Permutation_trans with [1; 3; 2];
      [apply perm_swap | apply perm_skip, perm_swap]. }
  split; [exact P | exact (percentil_permutacion _ _ 50 P)].
Defined.

Lemma fold_Rplus_cotas (lo hi : R) (l : list R) (a : R) :
  Forall (fun x => lo <= x <= hi) l ->
  a + lo * INR (length l) <= fold_left Rplus l a <= a + hi * INR (length l).
Proof.
  intros H. revert a. induction H as [|x l Hx Hl IH]; intros a.
  - cbn [fold_left length INR]. lra.
  - cbn [fold_left]. specialize (IH (a + x)).
    change (length (x :: l)) with (S (length l)). rewrite S_INR. lra.
Qed.

Lemma bucle_ponderado (p : Params) (lo hi : R) (n : nat) :
  (n <= HORAS_ANIO)%nat ->
  (forall h, (h < n)%nat -> lo <= precio (horaDe p h) <= hi) ->
  let st := fst (bucle p n) in
  10 * INR n <= demandaTotalGWh st /\
  lo * demandaTotalGWh st <= precioPonderadoSum st
  <= hi * demandaTotalGWh st.
Proof.
  intros Hn. induction n as [|n IH]; intros Hp; cbv zeta.
  - rewrite bucle_0. cbn. lra.
  - destruct (IH ltac:(lia) ltac:(intros; apply Hp; lia)) as (D & S). clear IH.
    destruct (bucle_S_acum p n) as (_ & E1 & E2). rewrite E1, E2.
    pose proof (demanda_cotas_finas p n ltac:(lia)) as Q.
    rewrite <- demandaGW_horaDe in Q.
    specialize (Hp n ltac:(lia)). rewrite S_INR.
    set (d := demandaGW (horaDe p n)) in *.
    set (x := precio (horaDe p n)) in *. clearbody d x.
    split; [lra|]. split; nra.
Qed.

(** The price array of the results: one entry per hour, each the price
    of that hour and within [-25, 500]. *)
Lemma precios_resultados (p : Params) :
  length (r_precios (simularCon p)) = HORAS_ANIO /\
  r_precios (simularCon p) <> [] /\
  (forall h, (h < HORAS_ANIO)%nat ->
     nth h (r_precios (simularCon p)) 0 = precio (horaDe p h)) /\
  Forall (fun x => -25 <= x <= 500) (r_precios (simularCon p)).
Proof.
  destruct (simularCon_estado p) as (_ & _ & P & _). rewrite P.
  destruct (bucle_arrays p HORAS_ANIO) as (_ & L & _ & N). cbv zeta in *.
  split; [exact L|]. split.
  - intros E. rewrite E in L. cbn [length] in L.
    pose proof HORAS_ANIO_pos. lia.
  - split; [intros h Hh; apply (N h Hh)|].
    apply Forall_nth. intros i d Hi. rewrite L in Hi.
    rewrite (nth_indep _ d 0) by lia.
    destruct (N i Hi) as (_ & E & _). rewrite E, horaDe_eq.
    apply horaSim_precio_rango.
Qed.

Lemma simularCon_precios (p : Params) :
  precioMin (simularCon p) = minimo (r_precios (simularCon p)) /\
  precioMax (simularCon p) = maximo (r_precios (simularCon p)) /\
  precioP10 (simularCon p) = percentil (r_precios (simularCon p)) 10 /\
  precioMediana (simularCon p) = percentil (r_precios (simularCon p)) 50 /\
  precioP90 (simularCon p) = percentil (r_precios (simularCon p)) 90 /\
  precioMedio (simularCon p)
    = fold_left Rplus (r_precios (simularCon p)) 0 / INR HORAS_ANIO /\
  precioMedioPonderado (simularCon p)
    = (if gt (demandaTotalGWh (fst (bucle p HORAS_ANIO))) 0
       then precioPonderadoSum (fst (bucle p HORAS_ANIO))
            / demandaTotalGWh (fst (bucle p HORAS_ANIO))
       else precioMedio (simularCon p)).
Proof.
  unfold simularCon, agregar. cbv zeta.
  cbn [precioMin precioMax precioP10 precioMediana precioP90 precioMedio
       precioMedioPonderado r_precios].
  repeat split; reflexivity.
Qed.

(* ================================================================== *)
(** * Further properties: the price statistics of the results *)
(* ================================================================== *)

(** X19. In exact arithmetic, and for a configuration whose growth
    power is a number, the price statistics of the results are ordered
    and lie in the range of the hourly prices: the minimum is at least
    -25 and at most the 10th percentile, the 90th percentile is at most
    the maximum, which is at most 500, and both the plain mean and the
    demand-weighted mean lie between the minimum and the maximum.  In
    binary64 the running sum of the mean rounds (see
    [precioMedio_redondeo]). *)
Theorem estadisticos_precio (p : Params) :
  demandaEsNumero p ->
  -25 <= precioMin (simularCon p) /\
  precioMin (simularCon p) <= precioP10 (simularCon p) /\
  precioP90 (simularCon p) <= precioMax (simularCon p) /\
  precioMax (simularCon p) <= 500 /\
  precioMin (simularCon p) <= precioMedio (simularCon p)
    <= precioMax (simularCon p) /\
  precioMin (simularCon p) <= precioMedioPonderado (simularCon p)
    <= precioMax (simularCon p).
Proof.
  intros _.
  destruct (simularCon_precios p) as (Emin & Emax & E10 & _ & E90 & Em & Ep).
  destruct (precios_resultados p) as (L & Hne & N & F).
  set (arr := r_precios (simularCon p)) in *.
  destruct (minimo_cota arr Hne) as [Mi Ml].
  destruct (maximo_cota arr Hne) as [Xi Xl].
  destruct (percentil_entre_extremos arr Hne) as (_ & _ & Q).
  rewrite Forall_forall in F.
  pose proof (F _ Mi) as Fm. pose proof (F _ Xi) as Fx.
  assert (B : Forall (fun x => minimo arr <= x <= maximo arr) arr).
  { rewrite Forall_forall in Ml, Xl |- *. intros x Hx.
    split; [apply Ml | apply Xl]; exact Hx. }
  assert (Hmedio : minimo arr <= precioMedio (simularCon p) <= maximo arr).
  { rewrite Em.
    pose proof (fold_Rplus_cotas _ _ arr 0 B) as S.
    rewrite L, INR_HORAS_ANIO in S. rewrite INR_HORAS_ANIO.
    split; lra. }
  destruct (Q 10 ltac:(lra)) as [Q10 _].
  destruct (Q 90 ltac:(lra)) as [_ Q90].
  rewrite Emin, Emax, E10, E90.
  split; [lra|]. split; [exact Q10|]. split; [exact Q90|].
  split; [lra|]. split; [exact Hmedio|].
  rewrite Ep.
  assert (Hh : forall h, (h < HORAS_ANIO)%nat ->
             minimo arr <= precio (horaDe p h) <= maximo arr).
  { intros h Hh. rewrite <- (N h Hh).
    rewrite Forall_forall in B. apply B, nth_In. lia. }
  destruct (bucle_ponderado p (minimo arr) (maximo arr) HORAS_ANIO
              (Nat.le_refl _) Hh) as (D & S).
  cbv zeta in D, S. rewrite INR_HORAS_ANIO in D.
  set (dt := demandaTotalGWh (fst (bucle p HORAS_ANIO))) in *.
  set (ps := precioPonderadoSum (fst (bucle p HORAS_ANIO))) in *.
  clearbody dt ps.
  assert (G : gt dt 0 = true) by (apply gt_true_iff; lra).
  rewrite G.
  assert (Hd : 0 < dt) by lra.
  split.
  - apply Rmult_le_reg_r with dt; [exact Hd|].
    unfold Rdiv. rewrite Rmult_assoc, Rinv_l by lra. lra.
  - apply Rmult_le_reg_r with dt; [exact Hd|].
    unfold Rdiv. rewrite Rmult_assoc, Rinv_l by lra. lra.
Qed.


(** X19, an instance: the plain mean of the default scenario. *)
Lemma estadisticos_precio_witness :
  demandaEsNumero PARAMS_DEFAULT /\
  precioMin (simularCon PARAMS_DEFAULT)
    <= precioMedio (simularCon PARAMS_DEFAULT)
    <= precioMax (simularCon PARAMS_DEFAULT).
Proof.
  assert (H : demandaEsNumero PARAMS_DEFAULT).
  { right. left. cbn [crecimientoDemanda PARAMS_DEFAULT]. lra. }
  split; [exact H|].
  exact (proj1 (proj2 (proj2 (proj2 (proj2
           (estadisticos_precio PARAMS_DEFAULT H)))))).
Defined.

(* ================================================================== *)
(** * The loops of the monthly summary *)
(* ================================================================== *)

Lemma suma_desde {A : Type} (f : A -> R) (l : list A) (a : R) :
  fold_left (fun s x => s + f x) l a = a + suma f l.
Proof.
  unfold suma. revert a. induction l as [|x l IH]; intros a; cbn [fold_left].
  - ring.
  - rewrite IH, (IH (0 + f x)). ring.
Qed.

Lemma suma_cons {A : Type} (f : A -> R) (x : A) (l : list A) :
  suma f (x :: l) = f x + suma f l.
Proof. unfold suma at 1. cbn [fold_left]. rewrite suma_desde. ring. Qed.

Lemma suma_concat {A : Type} (f : A -> R) (l1 l2 : list A) :
  suma f (l1 ++ l2) = suma f l1 + suma f l2.
Proof.
  induction l1 as [|x l1 IH]; cbn [app].
  - unfold suma at 2. cbn [fold_left]. ring.
  - rewrite !suma_cons, IH. ring.
Qed.

Lemma suma_map {A B : Type} (f : B -> R) (g : A -> B) (l : list A) :
  suma f (map g l) = suma (fun x => f (g x)) l.
Proof.
  induction l as [|x l IH]; [reflexivity|].
  cbn [map]. rewrite !suma_cons, IH. reflexivity.
Qed.

Lemma suma_escala {A : Type} (f : A -> R) (k : R) (l : list A) :
  suma (fun x => f x / k) l = suma f l / k.
Proof.
  induction l as [|x l IH].
  - unfold suma. cbn [fold_left]. unfold Rdiv. ring.
  - rewrite !suma_cons, IH. unfold Rdiv. ring.
Qed.

Lemma suma_modificar {A : Type} (f : A -> R) (F : A -> A) (v : R)
  (i : nat) (l : list A) :
  (forall x, f (F x) = f x + v) -> (i < length l)%nat ->
  suma f (modificar i F l) = suma f l + v.
Proof.
  intros HF. revert i. induction l as [|x l IH]; intros i Hi.
  - cbn [length] in Hi. lia.
  - destruct i as [|i]; cbn [modificar]; rewrite !suma_cons.
    + rewrite HF. ring.
    + rewrite IH by (cbn [length] in Hi; lia). ring.
Qed.

Lemma map_modificar {A B : Type} (f : A -> B) (F : A -> A) (G : B -> B)
  (i : nat) (l : list A) :
  (forall x, f (F x) = G (f x)) ->
  map f (modificar i F l) = modificar i G (map f l).
Proof.
  intros HF. revert i. induction l as [|x l IH]; intros i.
  - destruct i; reflexivity.
  - destruct i as [|i]; cbn [modificar map]; [rewrite HF | rewrite IH];
      reflexivity.
Qed.

Lemma firstn_S_nth {A : Type} (d : A) (n : nat) (l : list A) :
  (n < length l)%nat -> firstn (S n) l = firstn n l ++ [nth n l d].
Proof.
  revert n. induction l as [|x l IH]; intros n Hn.
  - cbn [length] in Hn. lia.
  - destruct n as [|n]; [reflexivity|].
    cbn [firstn nth app]. rewrite <- IH by (cbn [length] in Hn; lia).
    reflexivity.
Qed.

(** The first loop of the monthly summary, run for its first [n] hours. *)
Lemma resumen_bucle (mix : list Gen.t) (precios demanda : list R) (n : nat) :
  (n <= length mix)%nat ->
  let m :=
    forLoop n
      (fun h mensual =>
         modificar (mesDe (h / 24) mod 12)
           (sumarHora (nth h mix Gen.cero) (nth h demanda 0)
                      (nth h precios 0)) mensual)
      (repeat Mes.cero 12) in
  length m = 12%nat /\
  suma Mes.nuclear m = suma Gen.nuclear (firstn n mix) /\
  suma Mes.solar m = suma Gen.solar (firstn n mix) /\
  suma Mes.eolica m = suma Gen.eolica (firstn n mix) /\
  suma Mes.hidraulica m = suma Gen.hidraulica (firstn n mix) /\
  suma Mes.gas m = suma Gen.gas (firstn n mix) /\
  suma Mes.baterias m
    = suma (fun g => Gen.baterias g + Gen.bombeo g) (firstn n mix) /\
  suma Mes.vertido m = suma Gen.vertido (firstn n mix) /\
  suma Mes.importacion m = suma Gen.importacion (firstn n mix) /\
  suma Mes.exportacion m = suma Gen.exportacion (firstn n mix).
Proof.
  induction n as [|n IH]; intros Hn; cbv zeta.
  - cbn [forLoop firstn]. split; [reflexivity|].
    repeat split; unfold suma; cbn; ring.
  - destruct (IH ltac:(lia)) as (L & S1 & S2 & S3 & S4 & S5 & S6 & S7 & S8 & S9).
    clear IH. cbv zeta in *. cbn [forLoop].
    set (m := forLoop n _ (repeat Mes.cero 12)) in *.
    assert (Hi : (mesDe (n / 24) mod 12 < length m)%nat)
      by (rewrite L; apply Nat.mod_upper_bound; lia).
    rewrite (firstn_S_nth Gen.cero) by lia. rewrite !suma_app.
    split; [rewrite modificar_length; exact L|].
    rewrite <- S1, <- S2, <- S3, <- S4, <- S5, <- S6, <- S7, <- S8, <- S9.
    repeat split; apply suma_modificar; try exact Hi; intros x; reflexivity.
Qed.

(** The hours each entry of the monthly summary collects do not depend
    on the arrays. *)
Lemma resumen_horas (mix : list Gen.t) (precios demanda : list R) (n : nat) :
  map Mes.horas
    (forLoop n
       (fun h mensual =>
          modificar (mesDe (h / 24) mod 12)
            (sumarHora (nth h mix Gen.cero) (nth h demanda 0)
                       (nth h precios 0)) mensual)
       (repeat Mes.cero 12))
  = forLoop n (fun h c => modificar (mesDe (h / 24) mod 12) S c)
      (repeat 0%nat 12).
Proof.
  induction n as [|n IH]; [reflexivity|].
  cbn [forLoop]. rewrite <- IH.
  apply map_modificar. intros x. cbn [sumarHora Mes.horas]. lia.
Qed.

Lemma horas_por_mes :
  forLoop HORAS_ANIO (fun h c => modificar (mesDe (h / 24) mod 12) S c)
    (repeat 0%nat 12)
  = [744; 720; 744; 720; 744; 720; 744; 720; 744; 720; 744; 696]%nat.
Proof. vm_compute. reflexivity. Qed.

Lemma simularCon_mensual (p : Params) :
  mensual (simularCon p) =
  _calcularResumenMensual (r_mix (simularCon p)) (r_precios (simularCon p))
    (demandaHoraria (simularCon p)).
Proof. unfold simularCon, agregar. cbv zeta. cbn [mensual r_mix r_precios demandaHoraria]. reflexivity. Qed.

Lemma mix_resultados (p : Params) :
  length (r_mix (simularCon p)) = HORAS_ANIO.
Proof.
  destruct (simularCon_estado p) as (_ & M & _). rewrite M.
  destruct (bucle_arrays p HORAS_ANIO) as (L & _). exact L.
Qed.

(* ================================================================== *)
(** * Further properties: the monthly summary *)
(* ================================================================== *)

(** X20. The monthly summary of the results has 12 entries and keeps the
    annual totals: the monthly gas, curtailment, import and export
    energies add up to the annual accumulators, and the monthly nuclear,
    solar, wind, hydro and storage-discharge energies (TWh) add up to
    the sums of the mix array (GWh) over 1000. *)
Theorem resumen_mensual_conserva (p : Params) :
  length (mensual (simularCon p)) = 12%nat /\
  suma Mes.gas (mensual (simularCon p))
    = consumoGasTWh (contadores (simularCon p)) /\
  suma Mes.vertido (mensual (simularCon p))
    = vertidosTWh (contadores (simularCon p)) /\
  suma Mes.importacion (mensual (simularCon p))
    = importacionesTWh (contadores (simularCon p)) /\
  suma Mes.exportacion (mensual (simularCon p))
    = exportacionesTWh (contadores (simularCon p)) /\
  suma Mes.nuclear (mensual (simularCon p))
    = suma Gen.nuclear (r_mix (simularCon p)) / 1000 /\
  suma Mes.solar (mensual (simularCon p))
    = suma Gen.solar (r_mix (simularCon p)) / 1000 /\
  suma Mes.eolica (mensual (simularCon p))
    = suma Gen.eolica (r_mix (simularCon p)) / 1000 /\
  suma Mes.hidraulica (mensual (simularCon p))
    = suma Gen.hidraulica (r_mix (simularCon p)) / 1000 /\
  suma Mes.baterias (mensual (simularCon p))
    = suma (fun g => Gen.baterias g + Gen.bombeo g) (r_mix (simularCon p))
      / 1000.
Proof.
  rewrite simularCon_mensual. unfold _calcularResumenMensual. cbv zeta.
  pose proof (mix_resultados p) as L.
  destruct (resumen_bucle (r_mix (simularCon p)) (r_precios (simularCon p))
              (demandaHoraria (simularCon p)) HORAS_ANIO ltac:(lia))
    as (Lm & S1 & S2 & S3 & S4 & S5 & S6 & S7 & S8 & S9).
  cbv zeta in *.
  assert (F : firstn HORAS_ANIO (r_mix (simularCon p)) = r_mix (simularCon p))
    by (rewrite <- L; apply firstn_all).
  rewrite F in S1, S2, S3, S4, S5, S6, S7, S8, S9. clear F.
  destruct (simularCon_estado p) as (C & M & _).
  destruct (bucle_energias p HORAS_ANIO) as (E1 & E2 & E3 & E4 & _).
  cbv zeta in *. rewrite <- C, <- M in E1, E2, E3, E4.
  set (m := forLoop HORAS_ANIO _ (repeat Mes.cero 12)) in *.
  split; [rewrite length_map; exact Lm|].
  rewrite !suma_map.
  change (fun x => Mes.gas (cerrarMes x)) with (fun x => Mes.gas x / 1000).
  change (fun x => Mes.vertido (cerrarMes x))
    with (fun x => Mes.vertido x / 1000).
  change (fun x => Mes.importacion (cerrarMes x))
    with (fun x => Mes.importacion x / 1000).
  change (fun x => Mes.exportacion (cerrarMes x))
    with (fun x => Mes.exportacion x / 1000).
  change (fun x => Mes.nuclear (cerrarMes x))
    with (fun x => Mes.nuclear x / 1000).
  change (fun x => Mes.solar (cerrarMes x)) with (fun x => Mes.solar x / 1000).
  change (fun x => Mes.eolica (cerrarMes x))
    with (fun x => Mes.eolica x / 1000).
  change (fun x => Mes.hidraulica (cerrarMes x))
    with (fun x => Mes.hidraulica x / 1000).
  change (fun x => Mes.baterias (cerrarMes x))
    with (fun x => Mes.baterias x / 1000).
  rewrite !suma_escala.
  rewrite S1, S2, S3, S4, S5, S6, S7, S8, S9, <- E1, <- E2, <- E3, <- E4.
  split; [field|]. split; [field|]. split; [field|]. split; [field|].
  split; [reflexivity|]. split; [reflexivity|]. split; [reflexivity|].
  split; reflexivity.
Qed.

(** X21. The twelve entries of the monthly summary are blocks of 30.5
    days, not calendar months: whatever the configuration they collect
    744, 720, 744, 720, 744, 720, 744, 720, 744, 720, 744 and 696 hours,
    8760 in all, and no hour is left out. *)
Theorem resumen_mensual_horas (p : Params) :
  map Mes.horas (mensual (simularCon p))
  = [744; 720; 744; 720; 744; 720; 744; 720; 744; 720; 744; 696]%nat.
Proof.
  rewrite simularCon_mensual. unfold _calcularResumenMensual. cbv zeta.
  rewrite map_map.
  change (fun x => Mes.horas (cerrarMes x)) with Mes.horas.
  rewrite resumen_horas. exact horas_por_mes.
Qed.

(* ================================================================== *)
(** * Storage accounting, capacities at zero, daily means *)
(* ================================================================== *)

Lemma ramaExcedente_contable p flexCap gn gs ge exc eB eBo :
  let d := ramaExcedente p flexCap gn gs ge exc eB eBo in
  bateriaTras d = eB + Gen.cargaBaterias (gen d) * EFICIENCIA_BAT /\
  bombeoTras d = eBo + Gen.cargaBombeo (gen d) * EFICIENCIA_BOMBEO.
Proof.
  unfold ramaExcedente. cbv zeta.
  casos; campos; split; (reflexivity || lra).
Qed.

Lemma ramaDeficit_contable p flexCap gn gs ge dia hora exc eB eBo gasAnt :
  let d := ramaDeficit p flexCap gn gs ge dia hora exc eB eBo gasAnt in
  bateriaTras d = eB - Gen.baterias (gen d) /\
  bombeoTras d = eBo - Gen.bombeo (gen d).
Proof.
  unfold ramaDeficit. cbv zeta.
  casos; campos; split; (reflexivity || lra).
Qed.

Lemma ramaExcedente_sin_red p flexCap gn gs ge exc eB eBo :
  let d := ramaExcedente p flexCap gn gs ge exc eB eBo in
  (interconexion p <= 0 ->
   Gen.exportacion (gen d) = 0 /\ incExportacion d = 0%nat) /\
  (flexCap <= 0 -> flexUp d = 0 /\ incFlex d = 0%nat).
Proof.
  unfold ramaExcedente. cbv zeta.
  casos;
    cbn [gen flexUp incExportacion incFlex Gen.exportacion];
    a_prop; (split; intros Hcap; try (exfalso; lra));
    split; reflexivity.
Qed.

Lemma ramaDeficit_sin_red p flexCap gn gs ge dia hora exc eB eBo gasAnt :
  let d := ramaDeficit p flexCap gn gs ge dia hora exc eB eBo gasAnt in
  (interconexion p <= 0 ->
   Gen.importacion (gen d) = 0 /\ incImportacion d = 0%nat) /\
  (flexCap <= 0 -> flexDown d = 0 /\ incFlex d = 0%nat).
Proof.
  unfold ramaDeficit. cbv zeta.
  casos;
    cbn [gen flexDown incImportacion incFlex Gen.importacion];
    a_prop; (split; intros Hcap; try (exfalso; lra));
    split; reflexivity.
Qed.

Lemma horaDe_sin_red (p : Params) (h : nat) :
  let d := despacho (horaDe p h) in
  (interconexion p <= 0 ->
   Gen.importacion (gen d) = 0 /\ Gen.exportacion (gen d) = 0 /\
   incImportacion d = 0%nat /\ incExportacion d = 0%nat) /\
  (flexibilidadGW p <= 0 ->
   flexUp d = 0 /\ flexDown d = 0 /\ incFlex d = 0%nat).
Proof.
  destruct (horaDe_ramas p h) as [[He Hd]|[He Hd]]; cbv zeta in *.
  - de_excedente Hd ramaExcedente_sin_red.
    de_excedente Hd ramaExcedente_ceros.
    de_excedente Hd ramaExcedente_incs.
    destruct B as [R1 R2].
    destruct B0 as (_ & _ & _ & _ & Z5 & Z6 & _).
    destruct B1 as (_ & _ & I3 & _).
    split; intros H.
    + destruct (R1 H) as [A1 A2]. rewrite A1, A2, Z5, I3.
      repeat split; reflexivity.
    + destruct R2 as [A1 A2].
      { eapply Rle_trans; [apply Rmin_l | exact H]. }
      rewrite A1, A2, Z6. repeat split; reflexivity.
  - de_deficit Hd ramaDeficit_sin_red.
    de_deficit Hd ramaDeficit_ceros.
    de_deficit Hd ramaDeficit_incs.
    destruct B as [R1 R2].
    destruct B0 as (_ & _ & _ & Z4 & Z5).
    destruct B1 as (_ & I2 & _).
    split; intros H.
    + destruct (R1 H) as [A1 A2]. rewrite A1, A2, Z4, I2.
      repeat split; reflexivity.
    + destruct R2 as [A1 A2].
      { eapply Rle_trans; [apply Rmin_l | exact H]. }
      rewrite A1, A2, Z5. repeat split; reflexivity.
Qed.

Lemma horaDe_sin_gas (p : Params) (h : nat) :
  ccgt p = 0 ->
  Gen.gas (gen (despacho (horaDe p h))) = 0 /\
  incGas (despacho (horaDe p h)) = 0%nat.
Proof.
  intros Hc.
  assert (H0 : 0 <= ccgt p) by lra.
  pose proof (bucle_gasAnterior p h H0) as G.
  pose proof (horaSim_gas p (entornoDe p) h (fst (bucle p h))
                (snd (bucle p h)) H0 G) as [[G1 G2] _].
  rewrite <- horaDe_eq in G1, G2.
  assert (E : Gen.gas (gen (despacho (horaDe p h))) = 0) by lra.
  split; [exact E|].
  destruct (horaDe_incs p h) as (I1 & _). cbv zeta in I1.
  rewrite I1, E. apply gt_0_umbral. lra.
Qed.

Lemma bucle_capacidad_cero (p : Params) (n : nat) :
  let a := acum (fst (bucle p n)) in
  (ccgt p = 0 -> consumoGasTWh a = 0 /\ horasGas a = 0%nat) /\
  (interconexion p <= 0 ->
   importacionesTWh a = 0 /\ exportacionesTWh a = 0 /\
   horasImportacion a = 0%nat /\ horasExportacion a = 0%nat) /\
  (flexibilidadGW p <= 0 ->
   demandaFlexTWh a = 0 /\ demandaReducidaTWh a = 0 /\ horasFlex a = 0%nat).
Proof.
  induction n as [|n (IH1 & IH2 & IH3)]; cbv zeta.
  - rewrite bucle_0. cbn. repeat split; reflexivity.
  - destruct (bucle_S_acum p n) as (A & _). rewrite A. unfold acumular.
    cbn [consumoGasTWh horasGas importacionesTWh exportacionesTWh
         horasImportacion horasExportacion demandaFlexTWh demandaReducidaTWh
         horasFlex].
    destruct (horaDe_sin_red p n) as [R1 R2]. cbv zeta in R1, R2.
    split; [|split]; intros H.
    + destruct (IH1 H) as [C1 C2].
      destruct (horaDe_sin_gas p n H) as [G1 G2].
      rewrite C1, C2, G1, G2. split; [lra | reflexivity].
    + destruct (IH2 H) as (C1 & C2 & C3 & C4).
      destruct (R1 H) as (A1 & A2 & A3 & A4).
      rewrite C1, C2, C3, C4, A1, A2, A3, A4.
      split; [lra|]. split; [lra|]. split; reflexivity.
    + destruct (IH3 H) as (C1 & C2 & C3).
      destruct (R2 H) as (A1 & A2 & A3).
      rewrite C1, C2, C3, A1, A2, A3.
      split; [lra|]. split; [lra | reflexivity].
Qed.

Lemma calcularSolar_mono (dia hora n1 n2 : R) :
  n1 <= n2 -> calcularSolar dia hora n1 <= calcularSolar dia hora n2.
Proof.
  intros H. unfold calcularSolar. cbv zeta.
  destruct (le (sinElevacion dia hora) 0.01) eqn:E; a_prop; [lra|].
  set (s := sinElevacion dia hora) in *.
  assert (T : 0 < Rpower 0.70 (Rpower (1 / Rmax 0.05 s) 0.678))
    by apply exp_pos.
  set (t := Rpower 0.70 (Rpower (1 / Rmax 0.05 s) 0.678)) in *. clearbody t.
  assert (I : 0 < s * (0.75 * t)) by nra.
  set (i := s * (0.75 * t)) in *. clearbody i.
  assert (M : i * n1 * 1.35 <= i * n2 * 1.35) by nra.
  set (a := i * n1 * 1.35) in *. set (b := i * n2 * 1.35) in *.
  clearbody a b. partir_minmax; lra.
Qed.

Lemma firstn_suma {A : Type} (a b : nat) (l : list A) :
  firstn (a + b) l = firstn a l ++ firstn b (skipn a l).
Proof.
  revert l. induction a as [|a IH]; intros l; [reflexivity|].
  destruct l as [|x l].
  - cbn [Nat.add firstn skipn app]. rewrite firstn_nil. reflexivity.
  - cbn [Nat.add firstn skipn app]. rewrite IH. reflexivity.
Qed.

Lemma suma_dias {B : Type} (mix : list Gen.t) (key : Gen.t -> R)
  (F : nat -> B) (campo : B -> R) (D : nat) :
  (forall d, campo (F d) = suma key (bloqueDia mix d) / 24) ->
  suma (fun x => 24 * campo x) (map F (seq 0 D))
  = suma key (firstn (D * 24) mix).
Proof.
  intros HF. induction D as [|D IH].
  - cbn [seq map Nat.mul firstn]. reflexivity.
  - rewrite seq_S, map_app. cbn [Nat.add map]. rewrite suma_app, IH, HF.
    replace (S D * 24)%nat with (D * 24 + 24)%nat by lia.
    rewrite firstn_suma, suma_concat. unfold bloqueDia. field.
Qed.

Lemma HORAS_GRAFICO_eq : HORAS_GRAFICO = HORAS_ANIO.
Proof. rewrite HORAS_ANIO_eq. reflexivity. Qed.

Lemma fold_left_igual {A : Type} (f g : R -> A -> R) (l : list A) (a : R) :
  (forall s x, f s x = g s x) -> fold_left f l a = fold_left g l a.
Proof.
  intros H. revert a. induction l as [|x l IH]; intros a; [reflexivity|].
  cbn [fold_left]. rewrite H. apply IH.
Qed.

(* ================================================================== *)
(** * Further properties: capacities at zero, storage, horizon *)
(* ================================================================== *)

(** X22. A capacity at zero switches its technology off for the whole
    year.  With no installed gas capacity the gas output of every hour,
    the annual gas energy, the gas hours and the emissions are 0, and the
    emissions entry of the PNIEC status is [cumple].  With an
    interconnection capacity of 0 or less no hour imports or exports and
    the annual exchanges are 0.  With a flexible capacity of 0 or less no
    demand is shifted upwards or reduced in any hour. *)
Theorem capacidad_cero (p : Params) :
  (ccgt p = 0 ->
   (forall h, gasDe p h = 0) /\
   consumoGasTWh (contadores (simularCon p)) = 0 /\
   horasGas (contadores (simularCon p)) = 0%nat /\
   emisionesAnuales (contadores (simularCon p)) = 0 /\
   nth 1 (pniecStatus p (simularCon p)) no_cumple = cumple) /\
  (interconexion p <= 0 ->
   (forall h, Gen.importacion (gen (despacho (horaDe p h))) = 0 /\
              Gen.exportacion (gen (despacho (horaDe p h))) = 0) /\
   importacionesTWh (contadores (simularCon p)) = 0 /\
   exportacionesTWh (contadores (simularCon p)) = 0 /\
   horasImportacion (contadores (simularCon p)) = 0%nat /\
   horasExportacion (contadores (simularCon p)) = 0%nat) /\
  (flexibilidadGW p <= 0 ->
   (forall h, flexUp (despacho (horaDe p h)) = 0 /\
              flexDown (despacho (horaDe p h)) = 0) /\
   demandaFlexTWh (contadores (simularCon p)) = 0 /\
   demandaReducidaTWh (contadores (simularCon p)) = 0 /\
   horasFlex (contadores (simularCon p)) = 0%nat).
Proof.
  destruct (simularCon_estado p) as (C & _).
  destruct (bucle_capacidad_cero p HORAS_ANIO) as (K1 & K2 & K3).
  cbv zeta in K1, K2, K3.
  split; [|split]; intros H.
  - destruct (K1 H) as [G1 G2].
    pose proof (bucle_emisiones p HORAS_ANIO) as E.
    rewrite G1, Rmult_0_l in E. rewrite <- C in G1, G2, E.
    split; [intros h; apply (horaDe_sin_gas p h H)|].
    split; [exact G1|]. split; [exact G2|]. split; [exact E|].
    unfold pniecStatus. cbv zeta. cbn [nth]. rewrite E.
    unfold PNIEC_2030.emisionesMax.
    replace (le 0 35) with true; [reflexivity|].
    symmetry. apply le_true_iff. lra.
  - rewrite C. split; [|exact (K2 H)].
    intros h. destruct (horaDe_sin_red p h) as [R1 _].
    destruct (R1 H) as (A1 & A2 & _). exact (conj A1 A2).
  - rewrite C. split; [|exact (K3 H)].
    intros h. destruct (horaDe_sin_red p h) as [_ R2].
    destruct (R2 H) as (A1 & A2 & _). exact (conj A1 A2).
Qed.

(** X23. The storage levels follow the flows.  Both stores start the year
    half full.  From one hour to the next the battery level rises by 0.9
    times the charge, falls by the whole discharge and then loses 0.1 %;
    the pumped-storage level rises by 0.75 times the charge and falls by
    the whole discharge: the round-trip loss is taken when charging. *)
Theorem almacenamiento_contable (p : Params) (h : nat) :
  estadoBateria (fst (bucle p 0)) = bateriasCapacidad p * 0.5 /\
  estadoBombeo (fst (bucle p 0)) = bombeoCapacidad p * 0.5 /\
  estadoBateria (fst (bucle p (S h))) =
    (estadoBateria (fst (bucle p h))
     + Gen.cargaBaterias (gen (despacho (horaDe p h))) * 0.9
     - Gen.baterias (gen (despacho (horaDe p h)))) * (1 - 0.001) /\
  estadoBombeo (fst (bucle p (S h))) =
    estadoBombeo (fst (bucle p h))
    + Gen.cargaBombeo (gen (despacho (horaDe p h))) * 0.75
    - Gen.bombeo (gen (despacho (horaDe p h))).
Proof.
  split; [reflexivity|]. split; [reflexivity|].
  destruct (bucle_S_estado p h) as (B & Bo & _). cbv zeta in B, Bo.
  rewrite B, Bo. unfold AUTODESCARGA_BAT.
  destruct (horaDe_ramas p h) as [[He Hd]|[He Hd]]; cbv zeta in *.
  - de_excedente Hd ramaExcedente_contable.
    de_excedente Hd ramaExcedente_ceros.
    destruct B0 as [C1 C2].
    destruct B1 as (_ & _ & Z3 & Z4 & _).
    rewrite C1, C2, Z3, Z4. unfold EFICIENCIA_BAT, EFICIENCIA_BOMBEO.
    split; lra.
  - de_deficit Hd ramaDeficit_contable.
    de_deficit Hd ramaDeficit_ceros.
    destruct B0 as [C1 C2].
    destruct B1 as (_ & Z2 & Z3 & _).
    rewrite C1, C2, Z2, Z3. split; lra.
Qed.

Lemma Zfloor_INR (n : nat) : Zfloor (INR n) = Z.of_nat n.
Proof.
  rewrite INR_IZR_INZ. apply ZfloorZ.
Qed.

Lemma Math_pow_positiva (x y : R) : 0 < x -> Math_pow x y = Rpower x y.
Proof.
  intros H. unfold Math_pow.
  destruct (Req_dec_T y 0) as [->|_].
  - now rewrite Rpower_O.
  - destruct (gt x 0) eqn:E; [reflexivity|].
    apply gt_false_iff in E. lra.
Qed.

Lemma Math_pow_natural (x : R) (n : nat) : Math_pow x (INR n) = x ^ n.
Proof.
  unfold Math_pow.
  destruct (Req_dec_T (INR n) 0) as [E|E].
  - change 0 with (INR 0) in E. apply INR_eq in E. now subst n.
  - destruct (gt x 0) eqn:G.
    + apply gt_true_iff in G. apply Rpower_pow. lra.
    + unfold esEntero. rewrite Zfloor_INR.
      destruct (Req_dec_T _ _) as [_|N].
      * now rewrite <- pow_powerRZ.
      * exfalso. apply N. apply INR_IZR_INZ.
Qed.

(** X24. When the growth power is a number, the adjusted annual demand
    is between 180 and 360 TWh.  For a target year at or before 2026 the
    growth rate and the electrification have no effect, and an efficiency
    gain of 15 % or more counts as 15 %.  The growth factor is the real
    power for a positive base, and the repeated product of the base, of
    whatever sign, for a whole number of years. *)
Theorem demanda_ajustada (p : Params) :
  demandaEsNumero p ->
  let base := 1 + crecimientoDemanda p / 100 in
  let years := Rmax 0 (anioObjetivo p - 2026) in
  180 <= calcularDemandaAjustada p <= 360 /\
  (anioObjetivo p <= 2026 ->
   calcularDemandaAjustada p =
   Rmax 180 (Rmin 360 (demandaAnual p
                       * Rmax 0.85 (1 - eficienciaDemanda p / 100)))) /\
  (15 <= eficienciaDemanda p ->
   calcularDemandaAjustada p =
   Rmax 180
     (Rmin 360
        ((demandaAnual p * Math_pow base years
          + electrificacionTWh p * years) * 0.85))) /\
  (0 < base ->
   calcularDemandaAjustada p =
   Rmax 180
     (Rmin 360
        ((demandaAnual p * Rpower base years
          + electrificacionTWh p * years)
         * Rmax 0.85 (1 - eficienciaDemanda p / 100)))) /\
  (forall n : nat, anioObjetivo p - 2026 = INR n ->
   calcularDemandaAjustada p =
   Rmax 180
     (Rmin 360
        ((demandaAnual p * base ^ n + electrificacionTWh p * INR n)
         * Rmax 0.85 (1 - eficienciaDemanda p / 100)))).
Proof.
  intros _ base years.
  split; [apply calcularDemandaAjustada_rango|].
  unfold calcularDemandaAjustada. cbv zeta. fold base. fold years.
  split; [intros H | split; [intros H | split; [intros H | intros n H]]].
  - unfold years. rewrite (Rmax_left 0 (anioObjetivo p - 2026)) by lra.
    unfold Math_pow. destruct (Req_dec_T 0 0) as [_|N]; [|now elim N].
    rewrite Rmult_0_r, Rmult_1_r, Rplus_0_r. reflexivity.
  - rewrite (Rmax_left 0.85 (1 - eficienciaDemanda p / 100)) by lra.
    reflexivity.
  - now rewrite Math_pow_positiva.
  - assert (Y : years = INR n).
    { unfold years. rewrite H. apply Rmax_right, pos_INR. }
    rewrite Y, Math_pow_natural. reflexivity.
Qed.

(** X24, an instance: the default scenario, four years ahead at 0.6 % a
    year. *)
Lemma demanda_ajustada_witness :
  demandaEsNumero PARAMS_DEFAULT /\
  180 <= calcularDemandaAjustada PARAMS_DEFAULT <= 360.
Proof.
  assert (H : demandaEsNumero PARAMS_DEFAULT).
  { right. left.
    cbn [crecimientoDemanda PARAMS_DEFAULT]. lra. }
  split; [exact H|].
  exact (proj1 (demanda_ajustada PARAMS_DEFAULT H)).
Defined.

(** A demand that shrinks by 300 % a year has a base of -2: over the four
    years to 2030 the growth factor is 16, and the demand is at its cap
    of 360 TWh. *)
Example demanda_ajustada_base_negativa :
  let p := {| nuclear := 7.0; solar := 25.0; eolica := 31.0;
              hidraulica := 17.0; ccgt := 24.0; bateriasPotencia := 3.0;
              bateriasCapacidad := 10; bombeo := 3.5; bombeoCapacidad := 30;
              precioGas := 42; precioCO2 := 65; rendimientoCCGT := 0.55;
              omCCGT := 3.0; cargosSistema := 12.0; perdidasRed := 0.05;
              semilla := 42; demandaAnual := 260; hidraulicidad := 1.0;
              anioObjetivo := 2030; crecimientoDemanda := -300;
              electrificacionTWh := 2.0; eficienciaDemanda := 0.5;
              aplicarPlanNuclear := true; cierreNuclear := 2035;
              flexibilidadGW := 4.0; flexibilidadPct := 6;
              interconexion := 3.0; precioImport := 90; precioExport := 5;
              precioEscasez := 350 |} in
  demandaEsNumero p /\ calcularDemandaAjustada p = 360.
Proof.
  intros p.
  assert (Y : Rmax 0 (anioObjetivo p - 2026) = INR 4).
  { cbn [anioObjetivo p]. rewrite Rmax_right by lra. simpl. lra. }
  split.
  - unfold demandaEsNumero, potenciaEsNumero. right. right. right.
    rewrite Y. split; [cbn [crecimientoDemanda p]; lra|].
    unfold esEntero. rewrite Zfloor_INR.
    destruct (Req_dec_T _ _) as [_|N]; [reflexivity|].
    exfalso. apply N. apply INR_IZR_INZ.
  - unfold calcularDemandaAjustada. cbv zeta. rewrite Y, Math_pow_natural.
    cbn [crecimientoDemanda electrificacionTWh eficienciaDemanda
         demandaAnual p].
    rewrite (Rmax_right 0.85) by lra.
    simpl. rewrite Rmin_left by lra. rewrite Rmax_right by lra.
    reflexivity.
Qed.

(** X25. The solar capacity factor lies between 0 and 1 and does not
    fall when the cloud factor rises. *)
Theorem solar_monotona (dia hora n1 n2 : R) :
  n1 <= n2 ->
  0 <= calcularSolar dia hora n1 /\
  calcularSolar dia hora n1 <= calcularSolar dia hora n2 /\
  calcularSolar dia hora n2 <= 1.
Proof.
  intros H.
  pose proof (calcularSolar_rango dia hora n1) as [A _].
  pose proof (calcularSolar_rango dia hora n2) as [_ B].
  split; [exact A|]. split; [apply calcularSolar_mono, H | exact B].
Qed.

(** X25, an instance: noon of day 172 under the two extreme cloud
    factors of the loop. *)
Lemma solar_monotona_witness :
  0.65 <= 1 /\ calcularSolar 172 12 0.65 <= calcularSolar 172 12 1.
Proof.
  assert (H : 0.65 <= 1) by lra.
  split; [exact H|].
  exact (proj1 (proj2 (solar_monotona 172 12 0.65 1 H))).
Defined.

(* ================================================================== *)
(** * Further properties: presentation helpers *)
(* ================================================================== *)

(** X26. In exact arithmetic the daily means of the annual chart keep
    the energy of the
    hours they read: there are 365 of them, and for every plotted series
    24 times the sum of the daily means is the sum of the hourly values
    over the first 8760 entries of the mix; for the mix of a run that is
    the whole array, so the gas series carries the annual gas energy. *)
Theorem promedios_diarios_conservan (mix : list Gen.t) :
  length (promediosDiarios mix) = 365%nat /\
  suma (fun d => 24 * Dia.nuclear d) (promediosDiarios mix)
    = suma Gen.nuclear (firstn HORAS_ANIO mix) /\
  suma (fun d => 24 * Dia.solar d) (promediosDiarios mix)
    = suma Gen.solar (firstn HORAS_ANIO mix) /\
  suma (fun d => 24 * Dia.eolica d) (promediosDiarios mix)
    = suma Gen.eolica (firstn HORAS_ANIO mix) /\
  suma (fun d => 24 * Dia.hidraulica d) (promediosDiarios mix)
    = suma Gen.hidraulica (firstn HORAS_ANIO mix) /\
  suma (fun d => 24 * Dia.gas d) (promediosDiarios mix)
    = suma Gen.gas (firstn HORAS_ANIO mix) /\
  suma (fun d => 24 * Dia.bat d) (promediosDiarios mix)
    = suma (fun g => Gen.baterias g + Gen.bombeo g)
        (firstn HORAS_ANIO mix) /\
  suma (fun d => 24 * Dia.imp d) (promediosDiarios mix)
    = suma Gen.importacion (firstn HORAS_ANIO mix) /\
  forall p,
    suma (fun d => 24 * Dia.gas d) (promediosDiarios (r_mix (simularCon p)))
    = consumoGasTWh (contadores (simularCon p)) * 1000.
Proof.
  assert (G : forall m key campo,
            (forall d, campo
               (Dia.mk
                  (fold_left (fun s g => s + Gen.nuclear g) (bloqueDia m d) 0
                   / 24)
                  (fold_left (fun s g => s + Gen.solar g) (bloqueDia m d) 0
                   / 24)
                  (fold_left (fun s g => s + Gen.eolica g) (bloqueDia m d) 0
                   / 24)
                  (fold_left (fun s g => s + Gen.hidraulica g)
                     (bloqueDia m d) 0 / 24)
                  (fold_left (fun s g => s + Gen.gas g) (bloqueDia m d) 0
                   / 24)
                  (fold_left (fun s g => s + Gen.baterias g + Gen.bombeo g)
                     (bloqueDia m d) 0 / 24)
                  (fold_left (fun s g => s + Gen.importacion g)
                     (bloqueDia m d) 0 / 24))
             = suma key (bloqueDia m d) / 24) ->
            suma (fun d => 24 * campo d) (promediosDiarios m)
            = suma key (firstn HORAS_ANIO m)).
  { intros m key campo H. rewrite <- HORAS_GRAFICO_eq. unfold HORAS_GRAFICO.
    unfold promediosDiarios. cbv zeta. apply suma_dias. exact H. }
  split; [unfold promediosDiarios; rewrite length_map, length_seq;
          reflexivity|].
  split; [apply G; intros d; reflexivity|].
  split; [apply G; intros d; reflexivity|].
  split; [apply G; intros d; reflexivity|].
  split; [apply G; intros d; reflexivity|].
  split; [apply G; intros d; reflexivity|].
  split.
  { apply G. intros d. cbn [Dia.bat]. unfold suma. f_equal.
    apply fold_left_igual. intros s x. ring. }
  split; [apply G; intros d; reflexivity|].
  intros p.
  rewrite (G (r_mix (simularCon p)) Gen.gas Dia.gas)
    by (intros d; reflexivity).
  rewrite <- (mix_resultados p), firstn_all.
  destruct (simularCon_estado p) as (C & M & _).
  destruct (bucle_energias p HORAS_ANIO) as (E1 & _). cbv zeta in E1.
  rewrite C, M. symmetry. exact E1.
Qed.

(** X27. [diffPct] returns 0 for a reference of 0 instead of dividing by
    it; for any other reference the percentage gives the actual value
    back in exact arithmetic, [referencia * (1 + pct / 100) = actual]
    (in binary64 rounding can break it, see [diffPct_redondeo]).  [diffClass]
    never calls two equal values an improvement, and for a positive
    reference it reports an improvement exactly when the percentage is
    negative. *)
Theorem diferencias_presentacion (actual referencia : R) (invertir : bool) :
  diffPct actual 0 = 0 /\
  (referencia <> 0 ->
   referencia * (1 + diffPct actual referencia / 100) = actual) /\
  diffClass actual actual invertir = clase_negative /\
  (0 < referencia ->
   (diffClass actual referencia false = clase_positive
    <-> diffPct actual referencia < 0)).
Proof.
  split.
  { unfold diffPct. destruct (Req_dec_T 0 0) as [_|N]; [reflexivity|].
    exfalso. apply N. reflexivity. }
  split.
  { intros Hr. unfold diffPct.
    destruct (Req_dec_T referencia 0) as [E|_]; [contradiction|].
    field. exact Hr. }
  split.
  { unfold diffClass. cbv zeta.
    replace (gt actual actual) with false
      by (symmetry; apply gt_false_iff; lra).
    replace (lt actual actual) with false
      by (symmetry; apply lt_false_iff; lra).
    destruct invertir; reflexivity. }
  intros Hr. unfold diffClass, diffPct. cbv zeta.
  destruct (Req_dec_T referencia 0) as [E|_]; [lra|].
  assert (Q : (actual - referencia) / referencia * 100 < 0
              <-> actual < referencia).
  { split; intros H.
    - assert (K : (actual - referencia) / referencia * 100 * referencia < 0)
        by nra.
      replace ((actual - referencia) / referencia * 100 * referencia)
        with ((actual - referencia) * 100) in K by (field; lra).
      lra.
    - assert (K : 0 < / referencia) by (apply Rinv_0_lt_compat; lra).
      unfold Rdiv. nra. }
  destruct (lt actual referencia) eqn:E; a_prop.
  - split; intros _; [apply Q; exact E | reflexivity].
  - split; intros H; [discriminate H | apply Q in H; lra].
Qed.

(** X28. Whatever number in [0, 1) the random source returns, the seed
    that [randomizarSemilla] stores is an integer between 1 and 9999:
    it is never 0, the one value the engine would replace by 42. *)
Theorem randomizarSemilla_rango (u : R) :
  0 <= u < 1 ->
  exists k : Z, (1 <= k <= 9999)%Z /\ randomizarSemilla u = IZR k /\
    randomizarSemilla u <> 0.
Proof.
  intros [U0 U1]. unfold randomizarSemilla.
  exists (Zfloor (1 + u * 9999)).
  assert (K : (1 <= Zfloor (1 + u * 9999) <= 9999)%Z).
  { split.
    - apply Zfloor_lub. simpl. lra.
    - apply Z.lt_succ_r. apply lt_IZR.
      pose proof (Zfloor_bound (1 + u * 9999)) as [F _].
      rewrite succ_IZR. simpl (IZR 9999). lra. }
  split; [exact K|]. split; [reflexivity|].
  intros E. apply eq_IZR in E. lia.
Qed.

(** X28, an instance: a draw of 0.5. *)
Lemma randomizarSemilla_rango_witness :
  0 <= 0.5 < 1 /\
  exists k : Z, (1 <= k <= 9999)%Z /\ randomizarSemilla 0.5 = IZR k /\
    randomizarSemilla 0.5 <> 0.
Proof.
  assert (H : 0 <= 0.5 < 1) by lra.
  split; [exact H | exact (randomizarSemilla_rango 0.5 H)].
Defined.

(* ================================================================== *)
(** * The histogram range and the scenario table *)
(* ================================================================== *)


Lemma find_por_clave {A : Type} (clave : A -> R) (l : list A) (x : R) :
  (find (fun e => if Req_dec_T (clave e) x then true else false) l = None
   <-> ~ In x (map clave l)) /\
  (forall e,
     find (fun e => if Req_dec_T (clave e) x then true else false) l = Some e
     -> clave e = x /\ In e l).
Proof.
  split.
  - induction l as [|a l IH]; cbn [find map In]; [tauto|].
    destruct (Req_dec_T (clave a) x) as [E|N].
    + split; [discriminate | intros H; exfalso; apply H; left; exact E].
    + rewrite IH. tauto.
  - intros e H. apply find_some in H. destruct H as [Hin Hf].
    split; [|exact Hin].
    destruct (Req_dec_T (clave e) x) as [E|N]; [exact E | discriminate Hf].
Qed.

Lemma ESCENARIOS_ids : map Escenario.id ESCENARIOS = [0; 1; 2; 3; 4; 5; 6; 7].
Proof. reflexivity. Qed.

Lemma ESCENARIOS_validos :
  Forall (fun e => configuracionValida (Escenario.params e)) ESCENARIOS.
Proof.
  unfold ESCENARIOS.
  repeat (apply Forall_cons;
          [unfold configuracionValida;
           cbn [Escenario.params nuclear solar eolica hidraulica ccgt
                bateriasPotencia bateriasCapacidad bombeo bombeoCapacidad
                interconexion flexibilidadGW perdidasRed rendimientoCCGT
                semilla];
           repeat split; lra|]).
  apply Forall_nil.
Qed.

(* ================================================================== *)
(** * Further properties: the charts and the predefined scenarios *)
(* ================================================================== *)


(** X30. [getEscenario] returns [null] exactly for the identifiers other
    than 0, 1, ..., 7, and otherwise the predefined scenario with that
    identifier.  Every predefined scenario has non-negative capacities,
    a loss rate above -1, an efficiency of the gas plants of at least
    0.45 and a non-negative seed, so in its run the storage levels stay
    between 0 and the storage capacity at the start of every hour and
    the gas output of every hour lies between 0 and the installed gas
    capacity. *)
Theorem escenarios_predefinidos (id : R) :
  (getEscenario id = None <-> ~ In id [0; 1; 2; 3; 4; 5; 6; 7]) /\
  forall e, getEscenario id = Some e ->
    Escenario.id e = id /\ In e ESCENARIOS /\
    configuracionValida (Escenario.params e) /\
    forall h,
      0 <= estadoBateria (fst (bucle (Escenario.params e) h))
        <= bateriasCapacidad (Escenario.params e) /\
      0 <= estadoBombeo (fst (bucle (Escenario.params e) h))
        <= bombeoCapacidad (Escenario.params e) /\
      0 <= gasDe (Escenario.params e) h <= ccgt (Escenario.params e).
Proof.
  destruct (find_por_clave Escenario.id ESCENARIOS id) as [N S].
  rewrite ESCENARIOS_ids in N.
  split; [exact N|].
  intros e He. destruct (S e He) as [Hid Hin].
  split; [exact Hid|]. split; [exact Hin|].
  pose proof ESCENARIOS_validos as V. rewrite Forall_forall in V.
  specialize (V e Hin). cbv beta in V.
  split; [exact V|].
  destruct V as (_ & _ & _ & _ & Hc & Hp & Hcap & Hb & Hbc & _).
  intros h.
  destruct (bucle_niveles (Escenario.params e) h Hcap Hp Hbc Hb) as [NB NBo].
  split; [exact NB|]. split; [exact NBo|].
  pose proof (bucle_gasAnterior (Escenario.params e) h Hc) as G.
  unfold gasDe. rewrite horaDe_eq.
  exact (proj1 (horaSim_gas (Escenario.params e)
                  (entornoDe (Escenario.params e)) h _ _ Hc G)).
Qed.

(* ================================================================== *)
(** * Rounding, overflow and NaN: the binary64 model *)
(* ================================================================== *)

Section Binary64Facts.

Import PrimFloat.
#[local] Set Warnings "-inexact-float".



(** C3, counterexample.  Hour 0 of a run of the default scenario
    with 100 GW of nuclear plants kept open and a pumped store of 12 GW
    and 15.4 GWh, computed in binary64: at midnight there is no sun, the
    nuclear plants give 90 GW, and here the wind gives 9.3 GW against a
    demand of 25 GW.  The pumped store starts at 7.7 GWh and is charged
    with 7.7 / 0.75 = 10.266666666666667 GW, which leaves it at
    7.7 + 10.266666666666667 * 0.75 = 15.400000000000002 GWh, above its
    capacity.  Any surplus above 13.3 GW gives the same level. *)
Lemma bombeo_sobre_capacidad :
  (Binary64.bombeoCapacidad Binary64.bombeoGrande
   <? Binary64.estadoBombeo
        (Binary64.horaInicial Binary64.bombeoGrande 25 90 0 9.3 0.4))%float
  = true.
Proof. vm_compute. reflexivity. Qed.

(** The hour after that one, with the same demand and generation: the
    room left in the pumped store is negative, and so is the charge. *)
Example carga_negativa :
  (Binary64.Gen.cargaBombeo
     (Binary64.gen
        (Binary64.despacho
           (Binary64.horaSiguiente Binary64.bombeoGrande
              (Binary64.horaInicial Binary64.bombeoGrande 25 90 0 9.3 0.4)
              25 90 0 9.3 0.4)))
   <? 0)%float = true.
Proof. vm_compute. reflexivity. Qed.



(** C10, counterexample.  Hour 0 of a system of gas plants and an
    interconnection only, with a demand of 19.7 GW, in binary64.  There
    is no flexible demand to reduce.  The running deficit is
    19.7 - 3 = 16.7 after the import and
    16.7 - 3.5999999999999996 = 13.1 after gas, which the ramp limits;
    the context recomputes 19.7 - 3.5999999999999996 first and then
    subtracts 3, which gives 13.100000000000001. *)
Lemma deficit_de_contexto_redondeo :
  Binary64.redujoDemanda
    (Binary64.despacho (Binary64.horaInicial Binary64.soloGas 19.7 0 0 0 0.4))
  = false /\
  (Binary64.flexDown
     (Binary64.despacho (Binary64.horaInicial Binary64.soloGas 19.7 0 0 0 0.4))
   =? 0)%float = true /\
  (Binary64.deficitFinal
     (Binary64.despacho (Binary64.horaInicial Binary64.soloGas 19.7 0 0 0 0.4))
   <? Binary64.Ctx.deficit
        (Binary64.ctx (Binary64.horaInicial Binary64.soloGas 19.7 0 0 0 0.4)))
  %float = true /\
  (Binary64.Ctx.deficit
     (Binary64.ctx (Binary64.horaInicial Binary64.soloGas 19.7 0 0 0 0.4))
   =? Binary64.deficitFinal
        (Binary64.despacho
           (Binary64.horaInicial Binary64.soloGas 19.7 0 0 0 0.4))
      + Binary64.flexDown
          (Binary64.despacho
             (Binary64.horaInicial Binary64.soloGas 19.7 0 0 0 0.4)))
  %float = false.
Proof. vm_compute. repeat split; reflexivity. Qed.

(** The mean of 8760 equal prices of 49.800000000000004, the price of
    every hour of a system without resources, is 49.79999999999247 in
    binary64: below the smallest price of the year. *)
Example precioMedio_redondeo :
  (Binary64.precioMedio (repeat 49.800000000000004%float (Z.to_nat 8760))
   <? 49.800000000000004)%float = true.
Proof. vm_compute. reflexivity. Qed.

(** [diffPct(110, 100)] is 10, and 100 * (1 + 10 / 100) is
    110.00000000000001 in binary64. *)
Example diffPct_redondeo :
  (Binary64.diffPct 110 100 =? 10)%float = true /\
  (100 * (1 + Binary64.diffPct 110 100 / 100) =? 110)%float = false.
Proof. vm_compute. split; reflexivity. Qed.

End Binary64Facts.
